(** * LifeLink Health Monitor: the vital-sign alerting pipeline

    A shallow embedding of the threshold evaluator of
    [models/SensorData.js], of the alert document and its lifecycle methods
    of [models/Alert.js], of the lifecycle, reading and bulk-deletion
    routes of [routes/alerts.js], of the ingestion route and the
    threshold helpers of [routes/data.js], and of the device methods of
    [models/User.js] with the [deviceAccess] middleware of
    [middleware/auth.js], followed by the properties of the pipeline.

    JavaScript numbers that carry measurements are rationals ([Q]); NaN is
    not a value Mongoose's Number cast lets into a document.  Levels, minute
    thresholds and millisecond timestamps are integers ([Z]).  A field that
    is [undefined] is [None]. *)

From stdpp Require Import base option gmap sorting.
From Stdlib Require Import ZArith QArith List Ascii String Bool Lia Permutation.
Import ListNotations.

Local Open Scope Z_scope.

(** ** Shared enumerations *)

(** [severity] of [alertSchema], also the severity strings the evaluator
    writes. *)
Inductive Severity := info | warning | critical | emergency.

(** [type] of [alertSchema]. *)
Inductive AlertType :=
| heart_rate_abnormal | spo2_low | temperature_abnormal | fall_detected
| battery_low | device_offline | sensor_malfunction | emergency_button
| location_outside_safe_zone | medication_reminder | inactivity_detected
| panic_alert.

Definition AlertType_eqb (a b : AlertType) : bool :=
  match a, b with
  | heart_rate_abnormal, heart_rate_abnormal | spo2_low, spo2_low
  | temperature_abnormal, temperature_abnormal
  | fall_detected, fall_detected | battery_low, battery_low
  | device_offline, device_offline
  | sensor_malfunction, sensor_malfunction
  | emergency_button, emergency_button
  | location_outside_safe_zone, location_outside_safe_zone
  | medication_reminder, medication_reminder
  | inactivity_detected, inactivity_detected
  | panic_alert, panic_alert => true
  | _, _ => false
  end.

(** ** JavaScript numbers *)

Module JS.

(** [x < y] on numbers. *)
Definition ltb (x y : Q) : bool := negb (Qle_bool y x).

(** [x > y] on numbers. *)
Definition gtb (x y : Q) : bool := ltb y x.

(** Truthiness of a number: every number but zero. *)
Definition truthy (x : Q) : bool := negb (Qeq_bool x 0).

(** [arr.push(x)] on an array held as a list. *)
Definition push {A} (arr : list A) (x : A) : list A := arr ++ [x].

End JS.

(** ** models/SensorData.js *)

Module SensorData.

(** The nested paths [heartRate], [spO2] and [bodyTemperature]. *)
Record Measurement := {
  value : option Q;
  unit : string
}.

(** The nested path [motion]. *)
Record Motion := {
  fallDetected : bool;
  activityLevel : string
}.

(** The nested path [device]. *)
Record DeviceStatus := {
  batteryLevel : option Q;
  signalStrength : option Q;
  connectionType : string
}.

(** A [SensorData] document, with the paths the evaluator and the
    ingestion route read. *)
Record t := {
  deviceId : string;
  deviceName : string;
  timestamp : Z;
  heartRate : option Measurement;
  spO2 : option Measurement;
  bodyTemperature : option Measurement;
  motion : option Motion;
  device : option DeviceStatus
}.

(** A piece of a template literal: literal text, or an interpolated
    number before it is printed. *)
Inductive Part :=
| Text (s : string)
| Num (q : Q).

(** [value] of an emergency: a number, or [true] for a fall. *)
Inductive EValue :=
| VNum (q : Q)
| VBool (b : bool).

(** One entry of the [emergencies] array. *)
Record Emergency := {
  type : AlertType;
  severity : Severity;
  evalue : EValue;
  message : list Part
}.

(** [this.heartRate && this.heartRate.value] and its like: the number
    when the nested path and its value are both truthy. *)
Definition truthyValue (m : option Measurement) : option Q :=
  match m with
  | Some m =>
      match value m with
      | Some v => if JS.truthy v then Some v else None
      | None => None
      end
  | None => None
  end.

(** [this.device && this.device.batteryLevel]. *)
Definition truthyBattery (d : option DeviceStatus) : option Q :=
  match d with
  | Some d =>
      match batteryLevel d with
      | Some v => if JS.truthy v then Some v else None
      | None => None
      end
  | None => None
  end.

(** [this.motion && this.motion.fallDetected]. *)
Definition truthyFall (m : option Motion) : bool :=
  match m with
  | Some m => fallDetected m
  | None => false
  end.

(** [sensorDataSchema.methods.checkEmergencyConditions]: the array
    [emergencies] is threaded through the five blocks in source order. *)
Definition checkEmergencyConditions (this : t) : list Emergency :=
  let emergencies := [] in
  (* Heart rate emergencies *)
  let emergencies :=
    match truthyValue (heartRate this) with
    | Some v =>
        if JS.ltb v 50 || JS.gtb v 120 then
          JS.push emergencies
            {| type := heart_rate_abnormal;
               severity :=
                 if JS.ltb v 40 || JS.gtb v 140 then critical else warning;
               evalue := VNum v;
               message :=
                 [Text "Heart rate "; Num v; Text " BPM is ";
                  Text (if JS.ltb v 50 then "too low" else "too high")] |}
        else emergencies
    | None => emergencies
    end in
  (* SpO2 emergencies *)
  let emergencies :=
    match truthyValue (spO2 this) with
    | Some v =>
        if JS.ltb v 95 then
          JS.push emergencies
            {| type := spo2_low;
               severity := if JS.ltb v 90 then critical else warning;
               evalue := VNum v;
               message :=
                 [Text "Blood oxygen level "; Num v;
                  Text "% is dangerously low"] |}
        else emergencies
    | None => emergencies
    end in
  (* Temperature emergencies *)
  let emergencies :=
    match truthyValue (bodyTemperature this) with
    | Some v =>
        if JS.gtb v 38.5 || JS.ltb v 35.5 then
          JS.push emergencies
            {| type := temperature_abnormal;
               severity :=
                 if JS.gtb v 40 || JS.ltb v 35 then critical else warning;
               evalue := VNum v;
               message :=
                 [Text "Body temperature "; Num v; Text "°C is ";
                  Text (if JS.gtb v 38.5 then "too high" else "too low")] |}
        else emergencies
    | None => emergencies
    end in
  (* Fall detection *)
  let emergencies :=
    if truthyFall (motion this) then
      JS.push emergencies
        {| type := fall_detected;
           severity := critical;
           evalue := VBool true;
           message := [Text "Fall detected! Immediate attention required."] |}
    else emergencies in
  (* Battery level emergency *)
  let emergencies :=
    match truthyBattery (device this) with
    | Some v =>
        if JS.ltb v 10 then
          JS.push emergencies
            {| type := battery_low;
               severity := if JS.ltb v 5 then critical else warning;
               evalue := VNum v;
               message :=
                 [Text "Device battery level is critically low: "; Num v;
                  Text "%"] |}
        else emergencies
    | None => emergencies
    end in
  emergencies.

End SensorData.

(** ** The process state: document store and clock *)

(** [_id] of a stored document. *)
Definition ObjectId := N.

(** What an operation yields: a value, or a thrown exception. *)
Inductive Outcome (A : Type) :=
| Ok (a : A)
| Throw (e : string).
Arguments Ok {A} a.
Arguments Throw {A} e.

(** ** models/Alert.js *)

Module Rule.

(** One entry of [escalation.escalationRules]. *)
Record t := {
  level : option Z;
  timeThreshold : option Z;
  contacts : list string
}.

End Rule.

Module Alert.

(** [status] of [alertSchema]. *)
Inductive Status := active | acknowledged | resolved | false_positive.

Definition Status_eqb (a b : Status) : bool :=
  match a, b with
  | active, active | acknowledged, acknowledged | resolved, resolved
  | false_positive, false_positive => true
  | _, _ => false
  end.

(** The nested path [response]. *)
Record Response := {
  acknowledgedBy : option string;
  acknowledgedAt : option Z;
  resolvedBy : option string;
  resolvedAt : option Z;
  responseTime : option Z;
  notes : option string
}.

(** The nested path [escalation]. *)
Record Escalation := {
  level : Z;
  escalatedAt : option Z;
  escalationRules : list Rule.t;
  maxEscalationLevel : Z
}.

(** An [Alert] document.  [createdAt] is the schema's creation timestamp,
    [undefined] until the first save; [isNew] is Mongoose's flag of a
    document that was never saved.  The paths [data], [location],
    [notifications], [context], [technical] and [metadata], which no
    operation below reads, are left out. *)
Record t := {
  _id : ObjectId;
  deviceId : string;
  deviceName : string;
  type : AlertType;
  severity : Severity;
  title : string;
  message : list SensorData.Part;
  status : Status;
  response : Response;
  escalation : Escalation;
  createdAt : option Z;
  isNew : bool
}.

Definition set_status (s : Status) (a : t) : t :=
  {| _id := _id a; deviceId := deviceId a; deviceName := deviceName a;
     type := type a; severity := severity a; title := title a;
     message := message a; status := s; response := response a;
     escalation := escalation a; createdAt := createdAt a;
     isNew := isNew a |}.

Definition set_response (r : Response) (a : t) : t :=
  {| _id := _id a; deviceId := deviceId a; deviceName := deviceName a;
     type := type a; severity := severity a; title := title a;
     message := message a; status := status a; response := r;
     escalation := escalation a; createdAt := createdAt a;
     isNew := isNew a |}.

Definition set_escalation (e : Escalation) (a : t) : t :=
  {| _id := _id a; deviceId := deviceId a; deviceName := deviceName a;
     type := type a; severity := severity a; title := title a;
     message := message a; status := status a; response := response a;
     escalation := e; createdAt := createdAt a; isNew := isNew a |}.

(** What the first save stamps on a document. *)
Definition set_saved (c : option Z) (a : t) : t :=
  {| _id := _id a; deviceId := deviceId a; deviceName := deviceName a;
     type := type a; severity := severity a; title := title a;
     message := message a; status := status a; response := response a;
     escalation := escalation a; createdAt := c; isNew := false |}.

(** The fields a caller hands to [new Alert({...})]; an optional field
    left out is [None], an array left out is empty. *)
Record Input := {
  in_deviceId : string;
  in_deviceName : string;
  in_type : AlertType;
  in_severity : option Severity;
  in_title : string;
  in_message : list SensorData.Part;
  in_status : option Status;
  in_level : option Z;
  in_escalationRules : list Rule.t;
  in_maxEscalationLevel : option Z
}.

(** [new Alert(input)]: the schema's defaults fill what is left out
    ([severity] warning, [status] active, [escalation.level] 1,
    [escalation.maxEscalationLevel] 3). *)
Definition new (id : ObjectId) (i : Input) : t :=
  {| _id := id;
     deviceId := in_deviceId i;
     deviceName := in_deviceName i;
     type := in_type i;
     severity := default warning (in_severity i);
     title := in_title i;
     message := in_message i;
     status := default active (in_status i);
     response :=
       {| acknowledgedBy := None; acknowledgedAt := None;
          resolvedBy := None; resolvedAt := None;
          responseTime := None; notes := None |};
     escalation :=
       {| level := default 1 (in_level i);
          escalatedAt := None;
          escalationRules := in_escalationRules i;
          maxEscalationLevel := default 3 (in_maxEscalationLevel i) |};
     createdAt := None;
     isNew := true |}.

Definition rule (l t : Z) : Rule.t :=
  {| Rule.level := Some l; Rule.timeThreshold := Some t;
     Rule.contacts := [] |}.

(** [alertSchema.pre('save', ...)]: default escalation rules by
    severity. *)
Definition preSave (this : t) : t :=
  if isNew this && (Z.of_nat (List.length (escalationRules (escalation this))) =? 0)
  then
    let e := escalation this in
    match severity this with
    | emergency =>
        set_escalation
          {| level := level e; escalatedAt := escalatedAt e;
             escalationRules := [rule 1 0; rule 2 2; rule 3 5];
             maxEscalationLevel := maxEscalationLevel e |} this
    | critical =>
        set_escalation
          {| level := level e; escalatedAt := escalatedAt e;
             escalationRules := [rule 1 0; rule 2 5; rule 3 15];
             maxEscalationLevel := maxEscalationLevel e |} this
    | warning =>
        set_escalation
          {| level := level e; escalatedAt := escalatedAt e;
             escalationRules := [rule 1 0; rule 2 15; rule 3 60];
             maxEscalationLevel := maxEscalationLevel e |} this
    | _ =>
        set_escalation
          {| level := level e; escalatedAt := escalatedAt e;
             escalationRules := [rule 1 0; rule 2 60];
             maxEscalationLevel := 2 |} this
    end
  else this.

End Alert.

(** The state an operation runs in: the [alerts] collection, the clock as
    the sequence of instants (milliseconds) its successive readings return,
    the number of readings taken so far, and the next fresh [_id]. *)
Record World := {
  alerts : gmap ObjectId Alert.t;
  clock : nat -> Z;
  reads : nat;
  nextId : ObjectId
}.

(** Operations thread the world and may throw. *)
Definition M (A : Type) : Type := World -> Outcome A * World.

Definition ret {A} (a : A) : M A := fun w => (Ok a, w).

Definition throw {A} (e : string) : M A := fun w => (Throw e, w).

Definition bind {A B} (m : M A) (k : A -> M B) : M B :=
  fun w =>
    match m w with
    | (Ok a, w') => k a w'
    | (Throw e, w') => (Throw e, w')
    end.

(** [try { m } catch (error) { h }]. *)
Definition tryCatch {A} (m : M A) (h : string -> M A) : M A :=
  fun w =>
    match m w with
    | (Ok a, w') => (Ok a, w')
    | (Throw e, w') => h e w'
    end.

Notation "x <- m ;; k" := (bind m (fun x => k))
  (at level 100, m at next level, right associativity).

(** [Date.now()], also the instant of [new Date()]: the next reading of
    the clock. *)
Definition Date_now : M Z :=
  fun w =>
    (Ok (clock w (reads w)),
     {| alerts := alerts w; clock := clock w; reads := S (reads w);
        nextId := nextId w |}).

(** [date.getTime()], which throws a TypeError on [undefined]. *)
Definition getTime (d : option Z) : M Z :=
  match d with
  | Some ms => ret ms
  | None => throw "TypeError: Cannot read properties of undefined"
  end.

(** [Alert.findById(id)] on an identifier; the cast of a path parameter
    to an identifier is in [Params.findByParam]. *)
Definition findById (id : ObjectId) : M (option Alert.t) :=
  fun w => (Ok (alerts w !! id), w).

(** The write of a saved document into the collection. *)
Definition store (a : Alert.t) : M unit :=
  fun w =>
    (Ok tt,
     {| alerts := <[Alert._id a := a]> (alerts w); clock := clock w;
        reads := reads w; nextId := nextId w |}).

(** A fresh [_id] for a new document. *)
Definition freshId : M ObjectId :=
  fun w =>
    (Ok (nextId w),
     {| alerts := alerts w; clock := clock w; reads := reads w;
        nextId := N.succ (nextId w) |}).

(** ** JavaScript strings *)

Module JSString.

Local Open Scope string_scope.

(** The line feed of ['\n']. *)
Definition nl : string := String (Ascii.ascii_of_nat 10) EmptyString.

(** Truthiness of a string: every string but the empty one. *)
Definition truthy (s : string) : bool :=
  match s with
  | EmptyString => false
  | String _ _ => true
  end.

(** [o || ''] on an optional string. *)
Definition orEmpty (o : option string) : string :=
  match o with
  | Some s => if truthy s then s else ""
  | None => ""
  end.

(** [s.replace(c, d)] with one-character strings: the first occurrence
    only. *)
Fixpoint replaceFirst (c d : Ascii.ascii) (s : string) : string :=
  match s with
  | EmptyString => EmptyString
  | String x rest =>
      if Ascii.eqb x c then String d rest
      else String x (replaceFirst c d rest)
  end.

Definition upper (x : Ascii.ascii) : Ascii.ascii :=
  let n := Ascii.nat_of_ascii x in
  if (Nat.leb 97 n && Nat.leb n 122)%bool
  then Ascii.ascii_of_nat (n - 32) else x.

(** [s.toUpperCase()] on ASCII text. *)
Fixpoint toUpperCase (s : string) : string :=
  match s with
  | EmptyString => EmptyString
  | String x rest => String (upper x) (toUpperCase rest)
  end.

End JSString.

(** The string of an alert type. *)
Definition typeName (ty : AlertType) : string :=
  match ty with
  | heart_rate_abnormal => "heart_rate_abnormal"
  | spo2_low => "spo2_low"
  | temperature_abnormal => "temperature_abnormal"
  | fall_detected => "fall_detected"
  | battery_low => "battery_low"
  | device_offline => "device_offline"
  | sensor_malfunction => "sensor_malfunction"
  | emergency_button => "emergency_button"
  | location_outside_safe_zone => "location_outside_safe_zone"
  | medication_reminder => "medication_reminder"
  | inactivity_detected => "inactivity_detected"
  | panic_alert => "panic_alert"
  end.

(** ** models/Alert.js: the instance methods *)

Module Methods.

Import Alert.
Local Open Scope string_scope.

(** A string path that is [required]: Mongoose's validator refuses the
    empty string. *)
Definition present (s : string) : bool := JSString.truthy s.

(** A template literal prints as the empty string: it has no number and
    no text in it. *)
Definition blank (parts : list SensorData.Part) : bool :=
  forallb (fun p =>
             match p with
             | SensorData.Text s => negb (JSString.truthy s)
             | SensorData.Num _ => false
             end) parts.

(** The [required] validators of [alertSchema] on [deviceId],
    [deviceName], [title] and [message]; [type] and [severity], required
    and of an [enum], are so by their types. *)
Definition required (this : t) : bool :=
  present (deviceId this) && present (deviceName this)
  && present (title this) && negb (blank (message this)).

(** [this.save()]: a new document is validated first, and the promise is
    rejected with a ValidationError when a required path is empty; the
    pre-save hook runs, a new document gets its creation timestamp, and
    the document is written.  The promise resolves to the document.  The
    methods below never write a required path, so that the validation of
    a document that was loaded passes as it did when it was created. *)
Definition save (this : t) : M t :=
  if isNew this && negb (required this)
  then throw "ValidationError: Alert validation failed"
  else
    let this := preSave this in
    if isNew this then
      now <- Date_now ;;
      let this :=
        set_saved (match createdAt this with
                   | Some c => Some c
                   | None => Some now
                   end) this in
      _ <- store this ;;
      ret this
    else
      _ <- store this ;;
      ret this.

(** The virtual [ageInMinutes]. *)
Definition ageInMinutes (this : t) : M Z :=
  now <- Date_now ;;
  created <- getTime (createdAt this) ;;
  ret ((now - created) / (1000 * 60))%Z.

(** [alertSchema.methods.acknowledge]. *)
Definition acknowledge (this : t) (by_ : string) (notes_ : option string)
  : M t :=
  let notes_ := default "" notes_ in
  let this := set_status acknowledged this in
  let r := response this in
  ackAt <- Date_now ;;
  now <- Date_now ;;
  created <- getTime (createdAt this) ;;
  let r :=
    {| acknowledgedBy := Some by_;
       acknowledgedAt := Some ackAt;
       resolvedBy := resolvedBy r;
       resolvedAt := resolvedAt r;
       responseTime := Some ((now - created) / 1000)%Z;
       notes := if JSString.truthy notes_ then Some notes_ else notes r |} in
  save (set_response r this).

(** [alertSchema.methods.resolve]. *)
Definition resolve (this : t) (by_ : string) (notes_ : option string)
  : M t :=
  let notes_ := default "" notes_ in
  let this := set_status resolved this in
  let r := response this in
  at_ <- Date_now ;;
  let r :=
    {| acknowledgedBy := acknowledgedBy r;
       acknowledgedAt := acknowledgedAt r;
       resolvedBy := Some by_;
       resolvedAt := Some at_;
       responseTime := responseTime r;
       notes :=
         if JSString.truthy notes_
         then Some (JSString.orEmpty (notes r) ++ JSString.nl ++ notes_)
         else notes r |} in
  save (set_response r this).

(** [alertSchema.methods.markAsFalsePositive]. *)
Definition markAsFalsePositive (this : t) (by_ : string)
  (notes_ : option string) : M t :=
  let notes_ := default "" notes_ in
  let this := set_status false_positive this in
  let r := response this in
  at_ <- Date_now ;;
  let r :=
    {| acknowledgedBy := acknowledgedBy r;
       acknowledgedAt := acknowledgedAt r;
       resolvedBy := Some by_;
       resolvedAt := Some at_;
       responseTime := responseTime r;
       notes :=
         Some (JSString.orEmpty (notes r) ++ JSString.nl
               ++ "Marked as false positive: " ++ notes_) |} in
  save (set_response r this).

(** [alertSchema.methods.escalate]. *)
Definition escalate (this : t) : M t :=
  let e := escalation this in
  if (level e <? maxEscalationLevel e)%Z then
    at_ <- Date_now ;;
    save (set_escalation
            {| level := (level e + 1)%Z;
               escalatedAt := Some at_;
               escalationRules := escalationRules e;
               maxEscalationLevel := maxEscalationLevel e |} this)
  else ret this.

(** [rule => rule.level === currentLevel + 1]. *)
Definition isRuleFor (lvl : Z) (r : Rule.t) : bool :=
  match Rule.level r with
  | Some l => (l =? lvl)%Z
  | None => false
  end.

(** [minutes >= rule.timeThreshold], false against [undefined]. *)
Definition reached (minutes : Z) (r : Rule.t) : bool :=
  match Rule.timeThreshold r with
  | Some th => (th <=? minutes)%Z
  | None => false
  end.

(** [alertSchema.methods.needsEscalation]. *)
Definition needsEscalation (this : t) : M bool :=
  if negb (Status_eqb (status this) active) then ret false
  else
    let currentLevel := level (escalation this) in
    match List.find (isRuleFor (currentLevel + 1)%Z)
            (escalationRules (escalation this)) with
    | None => ret false
    | Some escalationRule =>
        minutesSinceCreated <- ageInMinutes this ;;
        ret (reached minutesSinceCreated escalationRule)
    end.

End Methods.

(** ** routes/alerts.js and routes/data.js *)

Module Routes.

Local Open Scope string_scope.

(** [req.user], with the device identifiers of its [devices] entries. *)
Record User := {
  id : string;
  role : string;
  devices : list string
}.

(** A request on [/api/alerts/:alertId/...]. *)
Record Request := {
  alertId : ObjectId;
  user : User;
  notes : option string
}.

(** The JSON body of a response. *)
Inductive Body :=
| ErrorBody (message : string) (status : Z)
| AlertBody (message : string) (alert : Alert.t)
| SensorBody (message : string) (alertsGenerated : nat).

(** [res.status(code).json(body)]. *)
Record Res := {
  statusCode : Z;
  body : Body
}.

Definition error (code : Z) (message : string) : Res :=
  {| statusCode := code; body := ErrorBody message code |}.

Definition ok (message : string) (alert : Alert.t) : Res :=
  {| statusCode := 200; body := AlertBody message alert |}.

(** [req.user.role !== 'admin'] and no device of the user is the
    alert's. *)
Definition accessDenied (u : User) (alert : Alert.t) : bool :=
  if negb (String.eqb (role u) "admin") then
    let hasAccess :=
      existsb (fun d => String.eqb d (Alert.deviceId alert)) (devices u) in
    negb hasAccess
  else false.

(** [PUT /api/alerts/:alertId/acknowledge]. *)
Definition putAcknowledge (req : Request) : M Res :=
  tryCatch
    (found <- findById (alertId req) ;;
     match found with
     | None => ret (error 404 "Alert not found")
     | Some alert =>
         if accessDenied (user req) alert
         then ret (error 403 "Access denied to this alert")
         else if negb (Alert.Status_eqb (Alert.status alert) Alert.active)
         then ret (error 400 "Alert is not in active status")
         else
           alert <- Methods.acknowledge alert (id (user req)) (notes req) ;;
           ret (ok "Alert acknowledged successfully" alert)
     end)
    (fun _ => ret (error 500 "Server error while acknowledging alert")).

(** [PUT /api/alerts/:alertId/resolve]. *)
Definition putResolve (req : Request) : M Res :=
  tryCatch
    (found <- findById (alertId req) ;;
     match found with
     | None => ret (error 404 "Alert not found")
     | Some alert =>
         if accessDenied (user req) alert
         then ret (error 403 "Access denied to this alert")
         else
           alert <- Methods.resolve alert (id (user req)) (notes req) ;;
           ret (ok "Alert resolved successfully" alert)
     end)
    (fun _ => ret (error 500 "Server error while resolving alert")).

(** [PUT /api/alerts/:alertId/false-positive]. *)
Definition putFalsePositive (req : Request) : M Res :=
  tryCatch
    (found <- findById (alertId req) ;;
     match found with
     | None => ret (error 404 "Alert not found")
     | Some alert =>
         if accessDenied (user req) alert
         then ret (error 403 "Access denied to this alert")
         else
           alert <-
             Methods.markAsFalsePositive alert (id (user req)) (notes req) ;;
           ret (ok "Alert marked as false positive" alert)
     end)
    (fun _ =>
       ret (error 500 "Server error while marking alert as false positive")).

(** The alert [POST /api/data/sensor] builds from one emergency. *)
Definition alertInput (sensorData : SensorData.t)
  (e : SensorData.Emergency) : Alert.Input :=
  {| Alert.in_deviceId := SensorData.deviceId sensorData;
     Alert.in_deviceName := SensorData.deviceName sensorData;
     Alert.in_type := SensorData.type e;
     Alert.in_severity := Some (SensorData.severity e);
     Alert.in_title :=
       JSString.toUpperCase
         (JSString.replaceFirst "_"%char " "%char
            (typeName (SensorData.type e)));
     Alert.in_message := SensorData.message e;
     Alert.in_status := None;
     Alert.in_level := None;
     Alert.in_escalationRules := [];
     Alert.in_maxEscalationLevel := None |}.

(** [for (const emergency of emergencies) { new Alert(...); save }]. *)
Fixpoint createAlerts (sensorData : SensorData.t)
  (emergencies : list SensorData.Emergency) : M unit :=
  match emergencies with
  | [] => ret tt
  | e :: rest =>
      newId <- freshId ;;
      _ <- Methods.save (Alert.new newId (alertInput sensorData e)) ;;
      createAlerts sensorData rest
  end.

(** [.optional().isFloat({ min, max })] of express-validator on a number
    of the body: a field that is left out passes. *)
Definition isFloat (lo hi : Q) (field : option Q) : bool :=
  match field with
  | Some v => Qle_bool lo v && Qle_bool v hi
  | None => true
  end.

(** The chain [sensorDataValidation], on the paths of the model:
    [deviceId] is not empty, and the heart rate, the SpO2, the body
    temperature and the battery level are within their bounds. *)
Definition sensorDataValidation (body : SensorData.t) : bool :=
  JSString.truthy (SensorData.deviceId body)
  && isFloat 0 300 (m ← SensorData.heartRate body; SensorData.value m)
  && isFloat 0 100 (m ← SensorData.spO2 body; SensorData.value m)
  && isFloat 30 45
       (m ← SensorData.bodyTemperature body; SensorData.value m)
  && isFloat 0 100
       (d ← SensorData.device body; SensorData.batteryLevel d).

(** The [min] and [max] validators of a Number path. *)
Definition minMax (lo hi : Q) (path : option Q) : bool :=
  match path with
  | Some v => Qle_bool lo v && Qle_bool v hi
  | None => true
  end.

(** The [enum] validator of a String path. *)
Definition enum (allowed : list string) (s : string) : bool :=
  existsb (String.eqb s) allowed.

(** The validators of [sensorDataSchema] on the paths of the model, as
    they run when the reading is saved. *)
Definition validSensorData (this : SensorData.t) : bool :=
  minMax 0 300 (m ← SensorData.heartRate this; SensorData.value m)
  && minMax 0 100 (m ← SensorData.spO2 this; SensorData.value m)
  && minMax 30 45
       (m ← SensorData.bodyTemperature this; SensorData.value m)
  && match SensorData.motion this with
     | Some m =>
         enum ["rest"; "light"; "moderate"; "vigorous"]
           (SensorData.activityLevel m)
     | None => true
     end
  && match SensorData.device this with
     | Some d =>
         minMax 0 100 (SensorData.batteryLevel d)
         && enum ["wifi"; "gsm"; "offline"] (SensorData.connectionType d)
     | None => true
     end.

(** [sensorData.save()] of the new reading: validated, then stamped with
    its creation timestamp.  The [sensor_data] collection is not part of
    the state. *)
Definition saveSensorData (sensorData : SensorData.t) : M unit :=
  if validSensorData sensorData then
    _ <- Date_now ;;
    ret tt
  else throw "ValidationError: SensorData validation failed".

(** [req.body.device?.connectionType || 'wifi']. *)
Definition connectionTypeOr (body : SensorData.t) : string :=
  match SensorData.device body with
  | Some d =>
      if JSString.truthy (SensorData.connectionType d)
      then SensorData.connectionType d
      else "wifi"
  | None => "wifi"
  end.

(** [req.device.updateStatus(statusData)], as far as the route depends
    on it: [lastSeen] takes the instant, and the save of the device runs
    the validators of [status.batteryLevel] and [status.connectionType]
    on what it was handed.  The [devices] collection is not part of the
    state. *)
Definition updateStatus (batteryLevel : option Q) (connectionType : string)
  : M unit :=
  _ <- Date_now ;;
  if minMax 0 100 batteryLevel
     && enum ["wifi"; "gsm"; "offline"] connectionType
  then ret tt
  else throw "ValidationError: Device validation failed".

(** The reading with [timestamp: new Date()]. *)
Definition stamped (timestamp : Z) (body : SensorData.t) : SensorData.t :=
  {| SensorData.deviceId := SensorData.deviceId body;
     SensorData.deviceName := SensorData.deviceName body;
     SensorData.timestamp := timestamp;
     SensorData.heartRate := SensorData.heartRate body;
     SensorData.spO2 := SensorData.spO2 body;
     SensorData.bodyTemperature := SensorData.bodyTemperature body;
     SensorData.motion := SensorData.motion body;
     SensorData.device := SensorData.device body |}.

(** [POST /api/data/sensor].  [body] is [req.body] of a device that
    names itself in the body, so that [req.device], which the [apiKey]
    middleware found under that name, has the [deviceId] of the body;
    [deviceName] is the name of [req.device]. *)
Definition postSensor (body : SensorData.t) : M Res :=
  tryCatch
    (if negb (sensorDataValidation body)
     then ret (error 400 "Validation failed")
     else
       timestamp <- Date_now ;;
       let sensorData := stamped timestamp body in
       _ <- updateStatus
              (d ← SensorData.device body; SensorData.batteryLevel d)
              (connectionTypeOr body) ;;
       _ <- saveSensorData sensorData ;;
       let emergencies := SensorData.checkEmergencyConditions sensorData in
       _ <- createAlerts sensorData emergencies ;;
       ret {| statusCode := 201;
              body := SensorBody "Sensor data received successfully"
                        (List.length emergencies) |})
    (fun _ => ret (error 500 "Server error while processing sensor data")).

(** The operations that create or change alerts: the four requests, and
    a call of [escalate()] on a stored alert by whoever polls
    [needsEscalation()]. *)
Inductive Op :=
| PostSensor (sensorData : SensorData.t)
| PutAcknowledge (req : Request)
| PutResolve (req : Request)
| PutFalsePositive (req : Request)
| Escalate (alertId : ObjectId).

Definition escalateStored (alertId : ObjectId) : M unit :=
  found <- findById alertId ;;
  match found with
  | None => ret tt
  | Some alert => _ <- Methods.escalate alert ;; ret tt
  end.

Definition step (op : Op) (w : World) : World :=
  match op with
  | PostSensor d => snd (postSensor d w)
  | PutAcknowledge req => snd (putAcknowledge req w)
  | PutResolve req => snd (putResolve req w)
  | PutFalsePositive req => snd (putFalsePositive req w)
  | Escalate i => snd (escalateStored i w)
  end.

Definition run (ops : list Op) (w : World) : World :=
  fold_left (fun w op => step op w) ops w.

(** The server at start: an empty collection. *)
Definition start (clk : nat -> Z) : World :=
  {| alerts := ∅; clock := clk; reads := 0; nextId := 0%N |}.

End Routes.

(** ** Vocabulary of the properties of the evaluator *)

Module Evaluation.

Import SensorData.

(** The five paths of a reading the evaluator looks at, in the order of
    its blocks. *)
Inductive Field := FHeartRate | FSpO2 | FTemperature | FMotion | FDevice.

Definition sourceOrder : list Field :=
  [FHeartRate; FSpO2; FTemperature; FMotion; FDevice].

(** The type of classification the block of a path writes. *)
Definition typeOf (f : Field) : AlertType :=
  match f with
  | FHeartRate => heart_rate_abnormal
  | FSpO2 => spo2_low
  | FTemperature => temperature_abnormal
  | FMotion => fall_detected
  | FDevice => battery_low
  end.

(** The reading with every path but one removed. *)
Definition restrict (f : Field) (this : t) : t :=
  {| deviceId := deviceId this;
     deviceName := deviceName this;
     timestamp := timestamp this;
     heartRate := match f with FHeartRate => heartRate this | _ => None end;
     spO2 := match f with FSpO2 => spO2 this | _ => None end;
     bodyTemperature :=
       match f with FTemperature => bodyTemperature this | _ => None end;
     motion := match f with FMotion => motion this | _ => None end;
     device := match f with FDevice => device this | _ => None end |}.

(** The blocks run in another order, each on its own path. *)
Definition evaluateInOrder (order : list Field) (this : t)
  : list Emergency :=
  flat_map (fun f => checkEmergencyConditions (restrict f this)) order.

(** The number a path carries, as stored. *)
Definition rawValue (f : Field) (this : t) : option Q :=
  match f with
  | FHeartRate => m ← heartRate this; value m
  | FSpO2 => m ← spO2 this; value m
  | FTemperature => m ← bodyTemperature this; value m
  | FMotion => None
  | FDevice => d ← device this; batteryLevel d
  end.

(** The threshold test of a block on a number. *)
Definition outOfRange (f : Field) (v : Q) : bool :=
  match f with
  | FHeartRate => JS.ltb v 50 || JS.gtb v 120
  | FSpO2 => JS.ltb v 95
  | FTemperature => JS.gtb v 38.5 || JS.ltb v 35.5
  | FMotion => false
  | FDevice => JS.ltb v 10
  end.

(** The test that makes the severity critical. *)
Definition severe (f : Field) (v : Q) : bool :=
  match f with
  | FHeartRate => JS.ltb v 40 || JS.gtb v 140
  | FSpO2 => JS.ltb v 90
  | FTemperature => JS.gtb v 40 || JS.ltb v 35
  | FMotion => true
  | FDevice => JS.ltb v 5
  end.

(** The fall flag a reading carries, as stored. *)
Definition rawFall (this : t) : option bool :=
  match motion this with
  | Some m => Some (fallDetected m)
  | None => None
  end.

(** A path breaches its rule: a number that is not zero and out of
    range, or a stored fall flag that is [true]. *)
Definition breach (f : Field) (this : t) : bool :=
  match f with
  | FMotion =>
      match rawFall this with
      | Some flag => flag
      | None => false
      end
  | _ =>
      match rawValue f this with
      | Some v => JS.truthy v && outOfRange f v
      | None => false
      end
  end.

(** How many classifications of a type a result holds. *)
Definition countType (ty : AlertType) (l : list Emergency) : nat :=
  List.length (List.filter (fun e => AlertType_eqb (type e) ty) l).

Definition b2n (b : bool) : nat := if b then 1%nat else 0%nat.

(** The reading with its heart rate, SpO2 or battery level replaced. *)
Definition withHeartRate (v : Q) (this : t) : t :=
  {| deviceId := deviceId this; deviceName := deviceName this;
     timestamp := timestamp this;
     heartRate := Some {| value := Some v; unit := "bpm" |};
     spO2 := spO2 this; bodyTemperature := bodyTemperature this;
     motion := motion this; device := device this |}.

Definition withSpO2 (v : Q) (this : t) : t :=
  {| deviceId := deviceId this; deviceName := deviceName this;
     timestamp := timestamp this;
     heartRate := heartRate this;
     spO2 := Some {| value := Some v; unit := "%" |};
     bodyTemperature := bodyTemperature this;
     motion := motion this; device := device this |}.

Definition withBatteryLevel (v : Q) (this : t) : t :=
  {| deviceId := deviceId this; deviceName := deviceName this;
     timestamp := timestamp this;
     heartRate := heartRate this; spO2 := spO2 this;
     bodyTemperature := bodyTemperature this; motion := motion this;
     device :=
       Some {| batteryLevel := Some v;
               signalStrength := d ← device this; signalStrength d;
               connectionType :=
                 match device this with
                 | Some d => connectionType d
                 | None => "wifi"
                 end |} |}.

(** A path is nominal: its number, when there is one, is within the
    default thresholds (at least 15 for the battery), its fall flag is
    not set. *)
Definition nominalAt (f : Field) (this : t) : Prop :=
  match f with
  | FHeartRate =>
      forall v, rawValue f this = Some v -> (50 <= v /\ v <= 120)%Q
  | FSpO2 => forall v, rawValue f this = Some v -> (95 <= v)%Q
  | FTemperature =>
      forall v, rawValue f this = Some v -> (35.5 <= v /\ v <= 38.5)%Q
  | FMotion => forall m, motion this = Some m -> fallDetected m = false
  | FDevice => forall v, rawValue f this = Some v -> (15 <= v)%Q
  end.

(** Every present field is nominal. *)
Definition nominal (this : t) : Prop := forall f, nominalAt f this.

Definition Field_eqb (f g : Field) : bool :=
  match f, g with
  | FHeartRate, FHeartRate | FSpO2, FSpO2 | FTemperature, FTemperature
  | FMotion, FMotion | FDevice, FDevice => true
  | _, _ => false
  end.

(** The classification the block of a path writes for a number. *)
Definition classified (f : Field) (e : Emergency) : Prop :=
  type e = typeOf f /\
  match f with
  | FMotion => severity e = critical /\ evalue e = VBool true
  | _ =>
      exists v, evalue e = VNum v /\
                severity e = if severe f v then critical else warning
  end.

(** A reading of a resting adult on a charged device. *)
Definition resting : t :=
  {| deviceId := "ESP32-1"; deviceName := "LifeLink";
     timestamp := 1700000000000;
     heartRate := Some {| value := Some 72%Q; unit := "bpm" |};
     spO2 := Some {| value := Some 98%Q; unit := "%" |};
     bodyTemperature := Some {| value := Some 36.6%Q; unit := "°C" |};
     motion := Some {| fallDetected := false; activityLevel := "rest" |};
     device :=
       Some {| batteryLevel := Some 80%Q; signalStrength := None;
               connectionType := "wifi" |} |}.

(** The resting reading with a heart rate of 200 and a battery level
    of 3. *)
Definition twoBreaches : t := withBatteryLevel 3 (withHeartRate 200 resting).

End Evaluation.

(** ** Vocabulary of the properties of the alert lifecycle *)

Module Lifecycle.

Import Alert Routes.

(** The world with another collection, the rest as it was. *)
Definition withAlerts (m : gmap ObjectId t) (w : World) : World :=
  {| alerts := m; clock := clock w; reads := reads w; nextId := nextId w |}.

(** The world after [n] more readings of the clock. *)
Definition later (n : nat) (w : World) : World :=
  {| alerts := alerts w; clock := clock w; reads := (n + reads w)%nat;
     nextId := nextId w |}.

(** A document as the collection holds it: saved, under its own [_id],
    with its creation timestamp. *)
Definition saved (k : ObjectId) (a : t) : Prop :=
  _id a = k /\ isNew a = false /\ is_Some (createdAt a).

(** The escalation level is within the alert's maximum. *)
Definition bounded (a : t) : Prop :=
  level (escalation a) <= maxEscalationLevel (escalation a).

Definition wellFormed (w : World) : Prop :=
  forall k a, alerts w !! k = Some a -> saved k a /\ bounded a.

(** [resolved] and [false_positive] are the terminal states. *)
Definition terminal (s : Status) : bool :=
  match s with
  | resolved | false_positive => true
  | active | acknowledged => false
  end.

(** Whole minutes from the creation of an alert to an instant. *)
Definition minutesSince (created now : Z) : Z := (now - created) / 60000.

(** Whole seconds from the creation of an alert to an instant. *)
Definition secondsSince (created now : Z) : Z := (now - created) / 1000.

(** The rule [needsEscalation()] looks up: the first one of the level
    after the current one. *)
Definition nextRule (a : t) : option Rule.t :=
  List.find (Methods.isRuleFor (level (escalation a) + 1))
    (escalationRules (escalation a)).

(** A rule for a level with its threshold in minutes and no contacts. *)
Definition seededRule (lvl minutes : Z) : Rule.t :=
  {| Rule.level := Some lvl; Rule.timeThreshold := Some minutes;
     Rule.contacts := [] |}.

(** The rules and the maximum level written for a severity. *)
Definition seeded (s : Severity) : list Rule.t * Z :=
  match s with
  | emergency => ([seededRule 1 0; seededRule 2 2; seededRule 3 5], 3)
  | critical => ([seededRule 1 0; seededRule 2 5; seededRule 3 15], 3)
  | warning => ([seededRule 1 0; seededRule 2 15; seededRule 3 60], 3)
  | info => ([seededRule 1 0; seededRule 2 60], 2)
  end.

(** The levels and thresholds of a list of rules, as pairs. *)
Definition pairs (l : list Rule.t) : list (option Z * option Z) :=
  map (fun r => (Rule.level r, Rule.timeThreshold r)) l.

(** [escalate()] read as gated by the status: on an alert that is not
    active it would leave the level as it is. *)
Definition escalateOnlyWhileActive : Prop :=
  forall (a a' : t) (w w' : World),
    status a <> active ->
    Methods.escalate a w = (Ok a', w') ->
    level (escalation a') = level (escalation a).

(** A run of the server: a clock that advances 61 seconds a reading, an
    administrator, and the reading with two breaches ingested first. *)
Definition clk0 (n : nat) : Z := 1700000000000 + 61000 * Z.of_nat n.

Definition operator : User :=
  {| id := "admin-1"; role := "admin"; devices := [] |}.

Definition request (k : ObjectId) : Request :=
  {| alertId := k; user := operator; notes := None |}.

Definition afterIngest : World :=
  run [PostSensor Evaluation.twoBreaches] (start clk0).

Definition afterAcknowledge : World :=
  run [PostSensor Evaluation.twoBreaches; PutAcknowledge (request 0%N)]
    (start clk0).

Definition afterResolve : World :=
  run [PostSensor Evaluation.twoBreaches; PutResolve (request 0%N)]
    (start clk0).

(** A creation with nothing but the severity chosen. *)
Definition bare (s : option Severity) : Input :=
  {| in_deviceId := "ESP32-1"; in_deviceName := "LifeLink";
     in_type := emergency_button; in_severity := s;
     in_title := "EMERGENCY BUTTON";
     in_message := [SensorData.Text "Emergency button pressed"];
     in_status := None; in_level := None; in_escalationRules := [];
     in_maxEscalationLevel := None |}.

(** The same creation with a maximum level of 5 chosen. *)
Definition fiveLevels : Input :=
  {| in_deviceId := "ESP32-1"; in_deviceName := "LifeLink";
     in_type := emergency_button; in_severity := Some emergency;
     in_title := "EMERGENCY BUTTON";
     in_message := [SensorData.Text "Emergency button pressed"];
     in_status := None; in_level := None; in_escalationRules := [];
     in_maxEscalationLevel := Some 5 |}.

(** The seeding read as fixing the maximum level too: 3 for emergency,
    critical and warning, 2 otherwise, on every creation without
    rules. *)
Definition maximumFromSeverity : Prop :=
  forall (k : ObjectId) (i : Input) (w w' : World) (a : t),
    in_escalationRules i = [] ->
    Methods.save (new k i) w = (Ok a, w') ->
    maxEscalationLevel (escalation a)
    = match severity a with info => 2 | _ => 3 end.

End Lifecycle.

(** ** models/Alert.js: the remaining virtual; routes/data.js: helpers *)

Module Helpers.

Import Alert.

(** The virtual [responseTimeMinutes]: [null] before an
    acknowledgement. *)
Definition responseTimeMinutes (this : t) : M (option Z) :=
  match acknowledgedAt (response this) with
  | None => ret None
  | Some ack =>
      created <- getTime (createdAt this) ;;
      ret (Some ((ack - created) / (1000 * 60)))
  end.

(** An entry of the [thresholds] table. *)
Record Threshold := {
  min : option Q;
  max : option Q
}.

(** [getThresholdForAlert], on the types of the schema. *)
Definition getThresholdForAlert (alertType : AlertType) : option Threshold :=
  match alertType with
  | heart_rate_abnormal => Some {| min := Some 50%Q; max := Some 120%Q |}
  | spo2_low => Some {| min := Some 95%Q; max := None |}
  | temperature_abnormal => Some {| min := Some 35.5%Q; max := Some 38.5%Q |}
  | battery_low => Some {| min := Some 15%Q; max := None |}
  | _ => None
  end.

(** [getUnitForAlert], on the types of the schema. *)
Definition getUnitForAlert (alertType : AlertType) : string :=
  match alertType with
  | heart_rate_abnormal => "bpm"
  | spo2_low => "%"
  | temperature_abnormal => "°C"
  | battery_low => "%"
  | _ => ""
  end.

(** A number lies outside a threshold: below its minimum or above its
    maximum. *)
Definition violates (th : Threshold) (v : Q) : bool :=
  match min th with Some lo => JS.ltb v lo | None => false end
  || match max th with Some hi => JS.gtb v hi | None => false end.

(** [min <= v <= max] of a schema path. *)
Definition inRange (lo hi : Q) (o : option Q) : bool :=
  match o with
  | Some v => Qle_bool lo v && Qle_bool v hi
  | None => true
  end.

(** The [min] and [max] validators of [sensorDataSchema] on the paths the
    evaluator reads, as they run when the reading is saved. *)
Definition schemaValid (this : SensorData.t) : bool :=
  inRange 0 300 (Evaluation.rawValue Evaluation.FHeartRate this)
  && inRange 0 100 (Evaluation.rawValue Evaluation.FSpO2 this)
  && inRange 30 45 (Evaluation.rawValue Evaluation.FTemperature this)
  && inRange 0 100 (Evaluation.rawValue Evaluation.FDevice this).

End Helpers.

(** ** Vocabulary of the history of the collection *)

Module History.

Import Alert Routes Lifecycle.

(** The identifiers in use are below the next fresh one. *)
Definition freshIds (w : World) : Prop :=
  forall k a, alerts w !! k = Some a -> (k < nextId w)%N.

(** What the ingestion writes and every later operation keeps: a severity
    the evaluator gives, the rules and the maximum seeded for it, a level
    from 1 on, and an acknowledgement only on an alert that is no longer
    active. *)
Definition ingested (a : t) : Prop :=
  (severity a = warning \/ severity a = critical) /\
  escalationRules (escalation a) = fst (seeded (severity a)) /\
  maxEscalationLevel (escalation a) = 3 /\
  1 <= level (escalation a) /\
  (acknowledgedAt (response a) <> None -> status a <> active).

(** A later state of the same alert. *)
Definition evolves (a a' : t) : Prop :=
  _id a' = _id a /\ deviceId a' = deviceId a /\
  deviceName a' = deviceName a /\ type a' = type a /\
  severity a' = severity a /\ title a' = title a /\
  message a' = message a /\ createdAt a' = createdAt a /\
  escalationRules (escalation a') = escalationRules (escalation a) /\
  maxEscalationLevel (escalation a')
  = maxEscalationLevel (escalation a) /\
  level (escalation a) <= level (escalation a') /\
  (status a <> active -> status a' <> active) /\
  (acknowledgedAt (response a) <> None ->
   acknowledgedAt (response a') = acknowledgedAt (response a) /\
   acknowledgedBy (response a') = acknowledgedBy (response a) /\
   responseTime (response a') = responseTime (response a)).

(** The state of the server that every run keeps. *)
Definition consistent (w : World) : Prop :=
  wellFormed w /\ freshIds w /\
  forall k a, alerts w !! k = Some a -> ingested a.

(** An operation that wrote at most one stored alert, to a later state of
    it. *)
Definition updated (w w' : World) : Prop :=
  nextId w' = nextId w /\ clock w' = clock w /\
  (alerts w' = alerts w \/
   exists k a a',
     alerts w !! k = Some a /\ alerts w' = <[k := a']> (alerts w) /\
     evolves a a' /\ ingested a' /\ saved k a' /\ bounded a').

(** The alert the ingestion writes for an emergency of a reading. *)
Definition newborn (d : SensorData.t) (e : SensorData.Emergency) (a : t)
  : Prop :=
  deviceId a = SensorData.deviceId d /\
  deviceName a = SensorData.deviceName d /\
  type a = SensorData.type e /\
  severity a = SensorData.severity e /\
  message a = SensorData.message e /\
  status a = active /\
  acknowledgedAt (response a) = None /\
  resolvedAt (response a) = None /\
  level (escalation a) = 1 /\
  escalationRules (escalation a) = fst (seeded (severity a)) /\
  maxEscalationLevel (escalation a) = snd (seeded (severity a)).

(** The alert an operation addresses. *)
Definition target (op : Op) : option ObjectId :=
  match op with
  | PostSensor _ => None
  | PutAcknowledge req | PutResolve req | PutFalsePositive req =>
      Some (alertId req)
  | Escalate k => Some k
  end.

(** What [needsEscalation()] answers at an instant. *)
Definition due (a : t) (now : Z) : bool :=
  Status_eqb (status a) active
  && match nextRule a, createdAt a with
     | Some r, Some c => Methods.reached (minutesSince c now) r
     | _, _ => false
     end.



End History.

(** ** Sample readings *)

Module Samples.

Import SensorData.

(** A reading with nothing but a temperature of 40.5. *)
Definition feverish : t :=
  {| deviceId := "ESP32-1"; deviceName := "LifeLink";
     timestamp := 1700000000000;
     heartRate := None; spO2 := None;
     bodyTemperature := Some {| value := Some 40.5%Q; unit := "°C" |};
     motion := None; device := None |}.

(** A reading with nothing but a battery level of 12. *)
Definition lowish : t :=
  {| deviceId := "ESP32-1"; deviceName := "LifeLink";
     timestamp := 1700000000000;
     heartRate := None; spO2 := None; bodyTemperature := None;
     motion := None;
     device :=
       Some {| batteryLevel := Some 12%Q; signalStrength := None;
               connectionType := "wifi" |} |}.

End Samples.

(** ** Sample users and runs *)

Module Scenes.

Import Routes Lifecycle.

(** A patient who holds another device than the one of the runs. *)
Definition stranger : User :=
  {| id := "user-7"; role := "patient"; devices := ["ESP32-9"%string] |}.

Definition strangerRequest (k : ObjectId) : Request :=
  {| alertId := k; user := stranger; notes := None |}.

(** A longer run: two ingestions of the reading with two breaches, an
    acknowledgement and a resolution of the first alert, an escalation of
    the second. *)
Definition before : list Op :=
  [PostSensor Evaluation.twoBreaches; PutAcknowledge (request 0%N)].

Definition after : list Op :=
  [PutResolve (request 0%N); Escalate 1%N;
   PostSensor Evaluation.twoBreaches; PutAcknowledge (request 0%N);
   PutFalsePositive (request 1%N); Escalate 0%N].

End Scenes.

(** ** routes/alerts.js: the reading routes and the bulk deletion *)

Module Queries.

Import Alert Routes.
Local Open Scope string_scope.

(** The strings of the status and of the severity of a document. *)
Definition statusName (s : Status) : string :=
  match s with
  | active => "active"
  | acknowledged => "acknowledged"
  | resolved => "resolved"
  | false_positive => "false_positive"
  end.

Definition severityName (s : Severity) : string :=
  match s with
  | info => "info"
  | warning => "warning"
  | critical => "critical"
  | emergency => "emergency"
  end.

(** A condition on a string path: equal to a string, or [$in] a list. *)
Inductive Cond :=
| Equals (s : string)
| Among (l : list string).

Definition holds (c : option Cond) (s : string) : bool :=
  match c with
  | None => true
  | Some (Equals s') => String.eqb s s'
  | Some (Among l) => existsb (String.eqb s) l
  end.

(** The query objects the routes build: conditions on [deviceId],
    [status] and [severity], and the bounds [$gte], [$lte] and [$lt] on
    [createdAt]. *)
Record Filter := {
  onDeviceId : option Cond;
  onStatus : option Cond;
  onSeverity : option Cond;
  createdGte : option Z;
  createdLte : option Z;
  createdLt : option Z
}.

(** A bound on [createdAt]: no document without the timestamp passes
    one. *)
Definition bound (cmp : Z -> Z -> bool) (b : option Z) (c : option Z)
  : bool :=
  match b, c with
  | None, _ => true
  | Some _, None => false
  | Some limit, Some created => cmp created limit
  end.

Definition matches (f : Filter) (a : t) : bool :=
  holds (onDeviceId f) (deviceId a)
  && holds (onStatus f) (statusName (status a))
  && holds (onSeverity f) (severityName (severity a))
  && bound Z.geb (createdGte f) (createdAt a)
  && bound Z.leb (createdLte f) (createdAt a)
  && bound Z.ltb (createdLt f) (createdAt a).

(** [{ createdAt: -1 }]: newest first, a document without the timestamp
    last. *)
Definition newerFirst (a b : t) : Prop :=
  match createdAt a, createdAt b with
  | Some x, Some y => (y <= x)%Z
  | None, Some _ => False
  | _, None => True
  end.

#[local] Instance newerFirst_dec : RelDecision newerFirst.
Proof.
  intros a b. unfold newerFirst.
  destruct (createdAt a), (createdAt b); apply _.
Defined.

(** The documents of the collection that match, newest first (the order
    among documents created at the same instant is the one the store
    happens to give). *)
Definition found (f : Filter) (w : World) : list t :=
  merge_sort newerFirst
    (List.filter (matches f) (map snd (map_to_list (alerts w)))).

(** [.limit(limit)] on the documents of a query: a limit of 0 is no
    limit, and a negative limit counts as its absolute value. *)
Definition limited {A} (limit : Z) (l : list A) : list A :=
  if (limit =? 0)%Z then l else firstn (Z.to_nat (Z.abs limit)) l.

(** [Alert.find(query).sort({ createdAt: -1 }).skip(skip).limit(limit)];
    the store rejects a negative [skip]. *)
Definition find (f : Filter) (skip limit : Z) : M (list t) :=
  fun w =>
    if (skip <? 0)%Z then (Throw "MongoServerError: skip", w)
    else (Ok (limited limit (skipn (Z.to_nat skip) (found f w))), w).

(** [Alert.countDocuments(query)]. *)
Definition countDocuments (f : Filter) : M nat :=
  fun w => (Ok (List.length (found f w)), w).

(** [Alert.deleteMany(query)], which yields the number of documents
    deleted. *)
Definition deleteMany (f : Filter) : M nat :=
  fun w =>
    (Ok (size (base.filter (fun kv : ObjectId * t => matches f kv.2 = true)
                 (alerts w))),
     {| alerts :=
          base.filter (fun kv : ObjectId * t => matches f kv.2 <> true)
            (alerts w);
        clock := clock w; reads := reads w; nextId := nextId w |}).

(** What a route answers: a JSON document, or an error. *)
Inductive Reply (A : Type) :=
| Json (a : A)
| Fail (code : Z) (message : string).
Arguments Json {A} a.
Arguments Fail {A} code message.

(** [Math.ceil(a / b)] on whole numbers, [b] not zero. *)
Definition ceilDiv (a b : Z) : Z := (- ((- a) / b))%Z.

(** [Math.ceil(totalCount / limit)]: not a finite number when the limit
    is 0, which the JSON of the answer writes as [null]. *)
Definition pagesOf (totalCount : nat) (limit : Z) : option Z :=
  if (limit =? 0)%Z then None
  else Some (ceilDiv (Z.of_nat totalCount) limit).

Record Pagination := {
  currentPage : Z;
  totalPages : option Z;
  totalCount : nat;
  hasNext : bool;
  hasPrev : bool
}.

Record Listing := {
  items : list t;
  pagination : Pagination
}.

(** The query string of [GET /api/alerts], as the route reads it:
    [status] and [severity] as given, [limit] and [page] as [parseInt]
    yields them, the dates as [new Date] yields them.  A limit, a page
    or a date that does not parse is outside the model. *)
Record ListParams := {
  qStatus : option string;
  qSeverity : option string;
  qLimit : option Z;
  qPage : option Z;
  qStartDate : option Z;
  qEndDate : option Z
}.

(** The part of the query of [GET /api/alerts] that depends on the user:
    an administrator sees every device, another user the devices of the
    account. *)
Definition deviceScope (u : User) : option Cond :=
  if String.eqb (role u) "admin" then None else Some (Among (devices u)).

(** The filter of [status !== 'all'] and [severity !== 'all']. *)
Definition unlessAll (s : string) : option Cond :=
  if negb (String.eqb s "all") then Some (Equals s) else None.

Definition listFilter (u : User) (p : ListParams) : Filter :=
  {| onDeviceId := deviceScope u;
     onStatus := unlessAll (default "all" (qStatus p));
     onSeverity := unlessAll (default "all" (qSeverity p));
     createdGte := qStartDate p;
     createdLte := qEndDate p;
     createdLt := None |}.

(** [GET /api/alerts]. *)
Definition getAlerts (u : User) (p : ListParams) : M (Reply Listing) :=
  tryCatch
    (let limit := default 50%Z (qLimit p) in
     let page := default 1%Z (qPage p) in
     let query := listFilter u p in
     let skip := ((page - 1) * limit)%Z in
     alerts <- find query skip limit ;;
     totalCount <- countDocuments query ;;
     ret (Json
            {| items := alerts;
               pagination :=
                 {| currentPage := page;
                    totalPages := pagesOf totalCount limit;
                    totalCount := totalCount;
                    hasNext :=
                      (skip + Z.of_nat (List.length alerts)
                       <? Z.of_nat totalCount)%Z;
                    hasPrev := (1 <? page)%Z |} |}))
    (fun _ => ret (Fail 500 "Server error while retrieving alerts")).

(** [GET /api/alerts/:alertId]. *)
Definition getAlert (req : Request) : M (Reply t) :=
  tryCatch
    (found <- findById (alertId req) ;;
     match found with
     | None => ret (Fail 404 "Alert not found")
     | Some alert =>
         if accessDenied (user req) alert
         then ret (Fail 403 "Access denied to this alert")
         else ret (Json alert)
     end)
    (fun _ => ret (Fail 500 "Server error while retrieving alert")).

(** [GET /api/alerts/active/count]. *)
Definition getActiveCount (u : User) : M (Reply nat) :=
  tryCatch
    (let query :=
       {| onDeviceId := deviceScope u;
          onStatus := Some (Equals "active");
          onSeverity := None;
          createdGte := None; createdLte := None; createdLt := None |} in
     count <- countDocuments query ;;
     ret (Json count))
    (fun _ => ret (Fail 500 "Server error while counting active alerts")).

(** [s.split(',')]. *)
Fixpoint split (sep : ascii) (s : string) : list string :=
  match s with
  | EmptyString => [EmptyString]
  | String c rest =>
      if Ascii.eqb c sep then EmptyString :: split sep rest
      else
        match split sep rest with
        | [] => [String c EmptyString]
        | h :: tl => String c h :: tl
        end
  end.

(** The query of [DELETE /api/alerts/bulk]: the statuses listed, or the
    two final ones; the documents created before the cutoff, when there is
    one. *)
Definition bulkFilter (status : option string) (cutoff : option Z)
  : Filter :=
  {| onDeviceId := None;
     onStatus :=
       match status with
       | Some s =>
           if JSString.truthy s then Some (Among (split "," s))
           else Some (Among ["resolved"; "false_positive"])
       | None => Some (Among ["resolved"; "false_positive"])
       end;
     onSeverity := None;
     createdGte := None; createdLte := None;
     createdLt := cutoff |}.

(** [DELETE /api/alerts/bulk].  [setDateBack now days] is the instant of
    [cutoffDate.setDate(cutoffDate.getDate() - days)] on the date [now],
    the calendar arithmetic of the runtime; [olderThan] is the number
    [parseInt] reads, when the parameter is given. *)
Definition deleteBulk (setDateBack : Z -> Z -> Z) (u : User)
  (status : option string) (olderThan : option Z) : M (Reply nat) :=
  tryCatch
    (if negb (String.eqb (role u) "admin")
     then ret (Fail 403 "Admin access required")
     else
       cutoff <-
         match olderThan with
         | Some days => now <- Date_now ;; ret (Some (setDateBack now days))
         | None => ret None
         end ;;
       deletedCount <- deleteMany (bulkFilter status cutoff) ;;
       ret (Json deletedCount))
    (fun _ => ret (Fail 500 "Server error while deleting alerts")).

(** The items of a list written one after the other with a separator
    between them. *)
Fixpoint join (sep : string) (items : list string) : string :=
  match items with
  | [] => ""
  | x :: rest =>
      match rest with
      | [] => x
      | _ :: _ => x ++ sep ++ join sep rest
      end
  end.

(** A string without a given character. *)
Fixpoint lacks (c : ascii) (s : string) : bool :=
  match s with
  | EmptyString => true
  | String x rest => negb (Ascii.eqb x c) && lacks c rest
  end.

(** The same query on another page, and the alerts its answer lists. *)
Definition onPage (n : Z) (p : ListParams) : ListParams :=
  {| qStatus := qStatus p; qSeverity := qSeverity p; qLimit := qLimit p;
     qPage := Some n; qStartDate := qStartDate p; qEndDate := qEndDate p |}.

Definition pageItems (u : User) (p : ListParams) (w : World) (n : nat)
  : list t :=
  match fst (getAlerts u (onPage (Z.of_nat n) p) w) with
  | Ok (Json r) => items r
  | _ => []
  end.

(** The documents of the collection. *)
Definition documents (w : World) : list t := map snd (map_to_list (alerts w)).

(** A query for the active alerts, and one for a severity. *)
Definition activeOnly : ListParams :=
  {| qStatus := Some "active"; qSeverity := None; qLimit := None;
     qPage := None; qStartDate := None; qEndDate := None |}.

Definition byOne (n : Z) : ListParams :=
  {| qStatus := None; qSeverity := Some "critical";
     qLimit := Some 1%Z; qPage := Some n;
     qStartDate := None; qEndDate := None |}.

End Queries.

(** ** routes/alerts.js: the path parameter [:alertId] *)

Module Params.

Import Alert Routes.
Local Open Scope string_scope.

(** A request on [/api/alerts/:alertId/...] as it arrives:
    [req.params.alertId] is a string. *)
Record Raw := {
  param : string;
  sender : User;
  text : option string
}.

(** The request once its parameter is read as an identifier. *)
Definition cast (id : ObjectId) (req : Raw) : Request :=
  {| alertId := id; user := sender req; notes := text req |}.

Section Cast.

(** Mongoose's cast of a string to an ObjectId: the identifier the
    string writes, or nothing when it writes none. *)
Variable castObjectId : string -> option ObjectId.

(** [Alert.findById(req.params.alertId)]: the query is rejected with a
    CastError when the parameter is not an ObjectId. *)
Definition findByParam (alertId : string) : M (option Alert.t) :=
  match castObjectId alertId with
  | Some id => findById id
  | None => throw "CastError: Cast to ObjectId failed"
  end.

(** [PUT /api/alerts/:alertId/acknowledge], from the parameter on. *)
Definition putAcknowledgeRaw (req : Raw) : M Res :=
  tryCatch
    (found <- findByParam (param req) ;;
     match found with
     | None => ret (error 404 "Alert not found")
     | Some alert =>
         if accessDenied (sender req) alert
         then ret (error 403 "Access denied to this alert")
         else if negb (Alert.Status_eqb (Alert.status alert) Alert.active)
         then ret (error 400 "Alert is not in active status")
         else
           alert <- Methods.acknowledge alert (id (sender req)) (text req) ;;
           ret (ok "Alert acknowledged successfully" alert)
     end)
    (fun _ => ret (error 500 "Server error while acknowledging alert")).

(** [PUT /api/alerts/:alertId/resolve], from the parameter on. *)
Definition putResolveRaw (req : Raw) : M Res :=
  tryCatch
    (found <- findByParam (param req) ;;
     match found with
     | None => ret (error 404 "Alert not found")
     | Some alert =>
         if accessDenied (sender req) alert
         then ret (error 403 "Access denied to this alert")
         else
           alert <- Methods.resolve alert (id (sender req)) (text req) ;;
           ret (ok "Alert resolved successfully" alert)
     end)
    (fun _ => ret (error 500 "Server error while resolving alert")).

(** [PUT /api/alerts/:alertId/false-positive], from the parameter on. *)
Definition putFalsePositiveRaw (req : Raw) : M Res :=
  tryCatch
    (found <- findByParam (param req) ;;
     match found with
     | None => ret (error 404 "Alert not found")
     | Some alert =>
         if accessDenied (sender req) alert
         then ret (error 403 "Access denied to this alert")
         else
           alert <-
             Methods.markAsFalsePositive alert (id (sender req))
               (text req) ;;
           ret (ok "Alert marked as false positive" alert)
     end)
    (fun _ =>
       ret (error 500 "Server error while marking alert as false positive")).

(** [GET /api/alerts/:alertId], from the parameter on. *)
Definition getAlertRaw (req : Raw) : M (Queries.Reply Alert.t) :=
  tryCatch
    (found <- findByParam (param req) ;;
     match found with
     | None => ret (Queries.Fail 404 "Alert not found")
     | Some alert =>
         if accessDenied (sender req) alert
         then ret (Queries.Fail 403 "Access denied to this alert")
         else ret (Queries.Json alert)
     end)
    (fun _ => ret (Queries.Fail 500 "Server error while retrieving alert")).

End Cast.

(** A cast for the examples: the number that 24 hexadecimal digits
    write. *)
Definition hexDigit (c : ascii) : option N :=
  let n := N_of_ascii c in
  if (48 <=? n)%N && (n <=? 57)%N then Some (n - 48)%N
  else if (97 <=? n)%N && (n <=? 102)%N then Some (n - 87)%N
  else if (65 <=? n)%N && (n <=? 70)%N then Some (n - 55)%N
  else None.

Fixpoint hexValue (acc : N) (s : string) : option N :=
  match s with
  | EmptyString => Some acc
  | String c rest =>
      match hexDigit c with
      | Some d => hexValue (16 * acc + d)%N rest
      | None => None
      end
  end.

Definition hexObjectId (s : string) : option ObjectId :=
  if Nat.eqb (String.length s) 24 then hexValue 0%N s else None.

(** A request of the administrator of the runs. *)
Definition raw (alertId : string) : Raw :=
  {| param := alertId; sender := Lifecycle.operator; text := None |}.

End Params.

(** ** models/User.js: the devices of an account; middleware/auth.js *)

Module UserModel.

Local Open Scope string_scope.

(** [relationship] and [permissions] of an entry of [devices]. *)
Inductive Relationship := owner | caregiver | emergency_contact | doctor.

Inductive Permission :=
| view_data | receive_alerts | modify_settings | emergency_access.

Definition Relationship_eqb (a b : Relationship) : bool :=
  match a, b with
  | owner, owner | caregiver, caregiver
  | emergency_contact, emergency_contact | doctor, doctor => true
  | _, _ => false
  end.

Definition Permission_eqb (a b : Permission) : bool :=
  match a, b with
  | view_data, view_data | receive_alerts, receive_alerts
  | modify_settings, modify_settings
  | emergency_access, emergency_access => true
  | _, _ => false
  end.

(** An entry of [devices]; [addedDate], which no method reads, is left
    out. *)
Record Entry := {
  deviceId : string;
  deviceName : option string;
  relationship : Relationship;
  permissions : list Permission
}.

(** A user document, with the paths the device methods read. *)
Record t := {
  role : string;
  devices : list Entry
}.

(** [this.devices.find(d => d.deviceId === deviceId)]. *)
Definition findDevice (this : t) (id : string) : option Entry :=
  List.find (fun d => String.eqb (deviceId d) id) (devices this).

(** The assignment to the fields of the entry [find] returned: the first
    entry of that identifier. *)
Fixpoint updateFirst (id : string) (e : Entry) (l : list Entry)
  : list Entry :=
  match l with
  | [] => []
  | d :: rest =>
      if String.eqb (deviceId d) id then e :: rest
      else d :: updateFirst id e rest
  end.

(** [userSchema.methods.addDevice], as it leaves the document it then
    saves. *)
Definition addDevice (this : t) (id : string) (name : option string)
  (rel : option Relationship) (perms : option (list Permission)) : t :=
  let rel := default owner rel in
  let perms := default [] perms in
  let e :=
    {| deviceId := id; deviceName := name; relationship := rel;
       permissions := perms |} in
  match findDevice this id with
  | Some _ => {| role := role this; devices := updateFirst id e (devices this) |}
  | None => {| role := role this; devices := devices this ++ [e] |}
  end.

(** [userSchema.methods.removeDevice], as it leaves the document it then
    saves. *)
Definition removeDevice (this : t) (id : string) : t :=
  {| role := role this;
     devices :=
       List.filter (fun d => negb (String.eqb (deviceId d) id))
         (devices this) |}.

(** [userSchema.methods.hasDeviceAccess]. *)
Definition hasDeviceAccess (this : t) (id : string)
  (requiredPermission : option Permission) : bool :=
  let requiredPermission := default view_data requiredPermission in
  match findDevice this id with
  | None => false
  | Some device =>
      if String.eqb (role this) "admin"
         || Relationship_eqb (relationship device) owner
      then true
      else existsb (Permission_eqb requiredPermission) (permissions device)
  end.

(** What a middleware does with a request: it passes it on with the
    device identifier it settled on, or answers with an error. *)
Inductive Gate :=
| Next (deviceId : string)
| Denied (code : Z) (message : string).

(** [a || b] on optional strings: the first that is truthy. *)
Definition orElse (a b : option string) : option string :=
  match a with
  | Some s => if JSString.truthy s then Some s else b
  | None => b
  end.

(** The middleware [deviceAccess(permission)] on the device identifiers of
    the path, the body and the query string, and on [req.user]. *)
Definition deviceAccess (permission : option Permission)
  (params body query : option string) (user : option t) : Gate :=
  let permission := default view_data permission in
  match orElse params (orElse body query) with
  | Some id =>
      if JSString.truthy id then
        match user with
        | None => Denied 401 "Authentication required."
        | Some user =>
            if String.eqb (role user) "admin" then Next id
            else if negb (hasDeviceAccess user id (Some permission))
            then Denied 403
                   "Access denied. You do not have permission to access this device."
            else Next id
        end
      else Denied 400 "Device ID is required."
  | None => Denied 400 "Device ID is required."
  end.

(** A caregiver account with one device. *)
Definition carer : t :=
  {| role := "caregiver";
     devices :=
       [{| deviceId := "ESP32-1"; deviceName := Some "LifeLink";
           relationship := caregiver;
           permissions := [view_data; receive_alerts] |}] |}.

(** An administrator account without devices. *)
Definition root : t := {| role := "admin"; devices := [] |}.

End UserModel.

(** * Properties *)

(** ** Comparisons and truthiness *)

Module JSFacts.

Lemma ltb_lt (x y : Q) : JS.ltb x y = true <-> (x < y)%Q.
Proof.
  unfold JS.ltb. rewrite negb_true_iff. split; intros H.
  - apply Qnot_le_lt. intros Hle. apply Qle_bool_iff in Hle. congruence.
  - destruct (Qle_bool y x) eqn:E; [| reflexivity].
    apply Qle_bool_iff in E. exfalso. exact (Qlt_not_le _ _ H E).
Qed.

Lemma ltb_ge (x y : Q) : JS.ltb x y = false <-> (y <= x)%Q.
Proof.
  unfold JS.ltb. rewrite negb_false_iff. apply Qle_bool_iff.
Qed.

Lemma gtb_gt (x y : Q) : JS.gtb x y = true <-> (y < x)%Q.
Proof. apply ltb_lt. Qed.

Lemma gtb_le (x y : Q) : JS.gtb x y = false <-> (x <= y)%Q.
Proof. apply ltb_ge. Qed.

Lemma truthy_zero (x : Q) : JS.truthy x = false <-> (x == 0)%Q.
Proof.
  unfold JS.truthy. rewrite negb_false_iff. apply Qeq_bool_iff.
Qed.

End JSFacts.

(** ** The threshold evaluator *)

Module EvaluatorFacts.

Import SensorData Evaluation.

Lemma truthyValue_raw (m : option Measurement) :
  truthyValue m =
  match m ≫= value with
  | Some v => if JS.truthy v then Some v else None
  | None => None
  end.
Proof. destruct m as [m|]; [| reflexivity]. simpl. reflexivity. Qed.

Lemma truthyBattery_raw (d : option DeviceStatus) :
  truthyBattery d =
  match d ≫= batteryLevel with
  | Some v => if JS.truthy v then Some v else None
  | None => None
  end.
Proof. destruct d as [d|]; [| reflexivity]. simpl. reflexivity. Qed.

(** The evaluator is the concatenation of its five blocks, each run on
    its own path. *)
Lemma check_blocks (this : t) :
  checkEmergencyConditions this = evaluateInOrder sourceOrder this.
Proof.
  unfold evaluateInOrder, sourceOrder, flat_map, checkEmergencyConditions,
    restrict, JS.push; cbn [heartRate spO2 bodyTemperature motion device
    truthyValue truthyBattery truthyFall].
  destruct (truthyValue (heartRate this)) as [hr|];
    [destruct (JS.ltb hr 50 || JS.gtb hr 120) |];
  (destruct (truthyValue (spO2 this)) as [sp|];
    [destruct (JS.ltb sp 95) |]);
  (destruct (truthyValue (bodyTemperature this)) as [bt|];
    [destruct (JS.gtb bt 38.5 || JS.ltb bt 35.5) |]);
  destruct (truthyFall (motion this));
  (destruct (truthyBattery (device this)) as [bl|];
    [destruct (JS.ltb bl 10) |]);
  reflexivity.
Qed.

(** One block: a classification of the path's type when the path
    breaches its rule, nothing otherwise. *)
Lemma check_restrict (f : Field) (this : t) :
  if breach f this
  then exists e, checkEmergencyConditions (restrict f this) = [e]
                 /\ classified f e
  else checkEmergencyConditions (restrict f this) = [].
Proof.
  destruct f; unfold breach, rawFall, rawValue, checkEmergencyConditions,
    restrict, classified, JS.push;
    cbn [heartRate spO2 bodyTemperature motion device truthyFall];
    rewrite ?truthyValue_raw, ?truthyBattery_raw; cbn [mbind option_bind].
  - destruct (heartRate this ≫= value) as [v|]; cbn; [| reflexivity].
    destruct (JS.truthy v); cbn; [| reflexivity].
    destruct (JS.ltb v 50 || JS.gtb v 120); cbn; [| reflexivity].
    eexists; split; [reflexivity |]. cbn. split; [reflexivity |].
    exists v. split; reflexivity.
  - destruct (spO2 this ≫= value) as [v|]; cbn; [| reflexivity].
    destruct (JS.truthy v); cbn; [| reflexivity].
    destruct (JS.ltb v 95); cbn; [| reflexivity].
    eexists; split; [reflexivity |]. cbn. split; [reflexivity |].
    exists v. split; reflexivity.
  - destruct (bodyTemperature this ≫= value) as [v|]; cbn; [| reflexivity].
    destruct (JS.truthy v); cbn; [| reflexivity].
    destruct (JS.gtb v 38.5 || JS.ltb v 35.5); cbn; [| reflexivity].
    eexists; split; [reflexivity |]. cbn. split; [reflexivity |].
    exists v. split; reflexivity.
  - destruct (motion this) as [m|]; cbn; [| reflexivity].
    destruct (fallDetected m); cbn; [| reflexivity].
    eexists; split; [reflexivity |]. cbn. repeat split.
  - destruct (device this ≫= batteryLevel) as [v|]; cbn; [| reflexivity].
    destruct (JS.truthy v); cbn; [| reflexivity].
    destruct (JS.ltb v 10); cbn; [| reflexivity].
    eexists; split; [reflexivity |]. cbn. split; [reflexivity |].
    exists v. split; reflexivity.
Qed.


Lemma countType_restrict (f g : Field) (this : t) :
  countType (typeOf f) (checkEmergencyConditions (restrict g this))
  = if Field_eqb f g then b2n (breach g this) else 0%nat.
Proof.
  pose proof (check_restrict g this) as H. unfold countType.
  destruct (breach g this).
  - destruct H as (e & -> & Hty & _). cbn. rewrite Hty.
    destruct f, g; reflexivity.
  - rewrite H. destruct (Field_eqb f g); reflexivity.
Qed.

Lemma countType_app (ty : AlertType) (l1 l2 : list Emergency) :
  countType ty (l1 ++ l2) = (countType ty l1 + countType ty l2)%nat.
Proof. unfold countType. rewrite List.filter_app. apply List.length_app. Qed.

(** Each type is counted by its own rule alone. *)
Lemma countType_check (f : Field) (this : t) :
  countType (typeOf f) (checkEmergencyConditions this)
  = b2n (breach f this).
Proof.
  rewrite check_blocks. unfold evaluateInOrder, sourceOrder. cbn [flat_map].
  rewrite !countType_app, !countType_restrict.
  destruct f; cbn; lia.
Qed.

Lemma nominalAt_no_breach (f : Field) (this : t) :
  nominalAt f this -> breach f this = false.
Proof.
  destruct f; unfold nominalAt, breach; intros H.
  - destruct (rawValue FHeartRate this) as [v|]; [| reflexivity].
    destruct (H v eq_refl) as [Hlo Hhi]. cbn.
    apply JSFacts.ltb_ge in Hlo. apply JSFacts.gtb_le in Hhi.
    rewrite Hlo, Hhi. apply andb_false_r.
  - destruct (rawValue FSpO2 this) as [v|]; [| reflexivity].
    pose proof (H v eq_refl) as Hlo. cbn.
    apply JSFacts.ltb_ge in Hlo. rewrite Hlo. apply andb_false_r.
  - destruct (rawValue FTemperature this) as [v|]; [| reflexivity].
    destruct (H v eq_refl) as [Hlo Hhi]. cbn.
    apply JSFacts.ltb_ge in Hlo. apply JSFacts.gtb_le in Hhi.
    rewrite Hlo, Hhi. apply andb_false_r.
  - unfold rawFall. destruct (motion this) as [m|]; [| reflexivity].
    exact (H m eq_refl).
  - destruct (rawValue FDevice this) as [v|]; [| reflexivity].
    pose proof (H v eq_refl) as Hlo. cbn.
    assert (Hten : (10 <= v)%Q).
    { apply Qle_trans with (y := 15%Q); [| exact Hlo].
      unfold Qle; cbn; lia. }
    apply JSFacts.ltb_ge in Hten. rewrite Hten. apply andb_false_r.
Qed.

(** When every other path keeps quiet, the result is that of the one
    block. *)
Lemma check_single (f : Field) (this : t) :
  (forall g, g <> f -> breach g this = false) ->
  checkEmergencyConditions this
  = checkEmergencyConditions (restrict f this).
Proof.
  intros Hq. rewrite check_blocks.
  unfold evaluateInOrder, sourceOrder. cbn [flat_map].
  assert (Hnil : forall g, g <> f ->
            checkEmergencyConditions (restrict g this) = []).
  { intros g Hg. pose proof (check_restrict g this) as H.
    rewrite (Hq g Hg) in H. exact H. }
  destruct f;
    repeat match goal with
           | |- context [checkEmergencyConditions (restrict ?g this)] =>
               rewrite (Hnil g) by discriminate
           end;
    cbn [app]; rewrite ?app_nil_r; reflexivity.
Qed.

Lemma nominal_resting : nominal resting.
Proof.
  intros f; destruct f; cbn.
  - intros v [= <-]. split; unfold Qle; cbn; lia.
  - intros v [= <-]. unfold Qle; cbn; lia.
  - intros v [= <-]. split; unfold Qle; cbn; lia.
  - intros m [= <-]. reflexivity.
  - intros v [= <-]. unfold Qle; cbn; lia.
Qed.

(** The battery rule on a level that is not zero: it fires exactly below
    10, critical exactly below 5. *)
Lemma battery_low_when_not_zero (this : t) (v : Q) :
  rawValue FDevice this = Some v -> ~ (v == 0)%Q ->
  (breach FDevice this = true <-> (v < 10)%Q) /\
  (severe FDevice v = true <-> (v < 5)%Q).
Proof.
  intros Hv Hnz. unfold breach. rewrite Hv. cbn. split.
  - destruct (JS.truthy v) eqn:Ht.
    + cbn. apply JSFacts.ltb_lt.
    + apply JSFacts.truthy_zero in Ht. contradiction.
  - apply JSFacts.ltb_lt.
Qed.

(** C1. For every reading in which every present field is nominal
    (heart rate in [50,120], SpO2 at least 95, temperature in
    [35.5,38.5], fall flag false, battery at least 15),
    [checkEmergencyConditions] returns the empty list. *)
Theorem nominal_reading_no_emergencies (this : t) :
  nominal this -> checkEmergencyConditions this = [].
Proof.
  intros Hn.
  rewrite (check_single FHeartRate).
  - pose proof (check_restrict FHeartRate this) as H.
    rewrite (nominalAt_no_breach _ _ (Hn FHeartRate)) in H. exact H.
  - intros g _. apply nominalAt_no_breach, Hn.
Qed.

Lemma nominal_reading_no_emergencies_witness :
  nominal resting /\ checkEmergencyConditions resting = [].
Proof.
  split; [exact nominal_resting |].
  apply (nominal_reading_no_emergencies resting). exact nominal_resting.
Defined.

Lemma quiet_withHeartRate (v : Q) (base : t) :
  nominal base ->
  forall g, g <> FHeartRate -> breach g (withHeartRate v base) = false.
Proof.
  intros Hn g Hg. destruct g; [congruence | | | |].
  - exact (nominalAt_no_breach FSpO2 base (Hn FSpO2)).
  - exact (nominalAt_no_breach FTemperature base (Hn FTemperature)).
  - exact (nominalAt_no_breach FMotion base (Hn FMotion)).
  - exact (nominalAt_no_breach FDevice base (Hn FDevice)).
Qed.

Lemma quiet_withSpO2 (v : Q) (base : t) :
  nominal base ->
  forall g, g <> FSpO2 -> breach g (withSpO2 v base) = false.
Proof.
  intros Hn g Hg. destruct g; [| congruence | | |].
  - exact (nominalAt_no_breach FHeartRate base (Hn FHeartRate)).
  - exact (nominalAt_no_breach FTemperature base (Hn FTemperature)).
  - exact (nominalAt_no_breach FMotion base (Hn FMotion)).
  - exact (nominalAt_no_breach FDevice base (Hn FDevice)).
Qed.

(** C2. On a reading whose other fields are nominal, a heart rate of 45
    gives exactly one classification, heart_rate_abnormal with severity
    warning, and a heart rate of 35 the same with severity critical; an
    SpO2 of 92 gives exactly one, spo2_low with severity warning, and an
    SpO2 of 85 the same with severity critical. *)
Theorem heart_rate_and_spo2_examples (base : t) :
  nominal base ->
  (exists c, checkEmergencyConditions (withHeartRate 45 base) = [c]
             /\ type c = heart_rate_abnormal /\ severity c = warning) /\
  (exists c, checkEmergencyConditions (withHeartRate 35 base) = [c]
             /\ type c = heart_rate_abnormal /\ severity c = critical) /\
  (exists c, checkEmergencyConditions (withSpO2 92 base) = [c]
             /\ type c = spo2_low /\ severity c = warning) /\
  (exists c, checkEmergencyConditions (withSpO2 85 base) = [c]
             /\ type c = spo2_low /\ severity c = critical).
Proof.
  intros Hn. repeat split.
  - rewrite (check_single FHeartRate) by (apply quiet_withHeartRate, Hn).
    eexists. split; [vm_compute; reflexivity |]. split; reflexivity.
  - rewrite (check_single FHeartRate) by (apply quiet_withHeartRate, Hn).
    eexists. split; [vm_compute; reflexivity |]. split; reflexivity.
  - rewrite (check_single FSpO2) by (apply quiet_withSpO2, Hn).
    eexists. split; [vm_compute; reflexivity |]. split; reflexivity.
  - rewrite (check_single FSpO2) by (apply quiet_withSpO2, Hn).
    eexists. split; [vm_compute; reflexivity |]. split; reflexivity.
Qed.

Lemma heart_rate_and_spo2_examples_witness :
  nominal resting /\
  exists c, checkEmergencyConditions (withHeartRate 45 resting) = [c]
            /\ type c = heart_rate_abnormal /\ severity c = warning.
Proof.
  split; [exact nominal_resting |].
  exact (proj1 (heart_rate_and_spo2_examples resting nominal_resting)).
Defined.



(** C4, on the code: a battery level of 0 is below 10 and yet raises no
    battery_low classification, whatever the rest of the reading. *)
Theorem battery_level_zero_raises_nothing (base : t) :
  JS.ltb 0 10 = true /\
  rawValue FDevice (withBatteryLevel 0 base) = Some 0%Q /\
  countType battery_low
    (checkEmergencyConditions (withBatteryLevel 0 base)) = 0%nat.
Proof.
  split; [reflexivity |]. split; [reflexivity |].
  exact (countType_check FDevice (withBatteryLevel 0 base)).
Qed.

(** C10. A heart rate, SpO2 or battery level of exactly 0 lies below the
    minimum threshold of its rule and yet gives no classification of that
    rule's type: the presence check takes it for absent.  (The same holds
    of a temperature of 0.) *)
Theorem zero_value_treated_as_absent (f : Field) (this : t) (v : Q) :
  rawValue f this = Some v -> (v == 0)%Q ->
  outOfRange f v = true /\
  countType (typeOf f) (checkEmergencyConditions this) = 0%nat.
Proof.
  intros Hv Hz. split.
  - assert (Hlt : forall c : Q, (0 < c)%Q -> JS.ltb v c = true).
    { intros c Hc. apply JSFacts.ltb_lt. rewrite Hz. exact Hc. }
    destruct f; cbn in Hv |- *; try discriminate;
      rewrite ?Hlt by reflexivity; rewrite ?orb_true_r; reflexivity.
  - rewrite countType_check. unfold breach.
    apply JSFacts.truthy_zero in Hz.
    destruct f; try (cbn in Hv; discriminate); rewrite Hv, Hz;
      reflexivity.
Qed.

Lemma zero_value_treated_as_absent_witness :
  rawValue FHeartRate (withHeartRate 0 resting) = Some 0%Q /\
  (0 == 0)%Q /\
  countType heart_rate_abnormal
    (checkEmergencyConditions (withHeartRate 0 resting)) = 0%nat.
Proof.
  split; [reflexivity |]. split; [reflexivity |].
  exact (proj2 (zero_value_treated_as_absent FHeartRate
                  (withHeartRate 0 resting) 0%Q eq_refl (Qeq_refl 0))).
Defined.

End EvaluatorFacts.

(** ** The alert document and its lifecycle *)

Module AlertFacts.

Import Alert Routes Lifecycle.

Lemma preSave_old (a : t) : isNew a = false -> preSave a = a.
Proof. intros H. unfold preSave. rewrite H. reflexivity. Qed.

(** Saving a document that was saved before writes it as it is. *)
Lemma save_old (a : t) (w : World) :
  isNew a = false ->
  Methods.save a w = (Ok a, withAlerts (<[_id a := a]> (alerts w)) w).
Proof.
  intros H. unfold Methods.save. rewrite (preSave_old a H), H.
  reflexivity.
Qed.

(** The first save runs the hook, stamps the creation time and clears
    [isNew]. *)
Lemma save_new (a : t) (w : World) :
  isNew a = true -> Methods.required a = true ->
  let a' :=
    set_saved (match createdAt (preSave a) with
               | Some c => Some c
               | None => Some (clock w (reads w))
               end) (preSave a) in
  Methods.save a w
  = (Ok a', later 1 (withAlerts (<[_id a := a']> (alerts w)) w)).
Proof.
  intros H Hreq. unfold Methods.save. rewrite Hreq, andb_false_r.
  assert (Hn : isNew (preSave a) = true).
  { unfold preSave. rewrite H.
    destruct (Z.of_nat _ =? 0); cbn; [destruct (severity a) |];
      cbn; assumption. }
  assert (Hid : _id (preSave a) = _id a).
  { unfold preSave.
    destruct (isNew a && _); [destruct (severity a) |]; reflexivity. }
  rewrite Hn. cbn. unfold bind, Date_now, Lifecycle.later, withAlerts.
  cbn. rewrite Hid. reflexivity.
Qed.

(** The first save of a document with an empty required path is
    rejected, and writes nothing. *)
Lemma save_invalid (a : t) (w : World) :
  isNew a = true -> Methods.required a = false ->
  Methods.save a w
  = (Throw "ValidationError: Alert validation failed", w).
Proof.
  intros H Hreq. unfold Methods.save. rewrite H, Hreq. reflexivity.
Qed.

(** [acknowledge] on a stored document. *)
Lemma acknowledge_saved (a : t) (by_ : string) (n : option string)
  (w : World) (c : Z) :
  isNew a = false -> createdAt a = Some c ->
  let a' :=
    set_response
      {| acknowledgedBy := Some by_;
         acknowledgedAt := Some (clock w (reads w));
         resolvedBy := resolvedBy (response a);
         resolvedAt := resolvedAt (response a);
         responseTime :=
           Some (secondsSince c (clock w (S (reads w))));
         Alert.notes :=
           if JSString.truthy (default ""%string n)
           then Some (default ""%string n) else Alert.notes (response a) |}
      (set_status acknowledged a) in
  Methods.acknowledge a by_ n w
  = (Ok a', later 2 (withAlerts (<[_id a := a']> (alerts w)) w)).
Proof.
  intros Hn Hc. unfold Methods.acknowledge, bind, Date_now, getTime.
  cbn. rewrite Hc. cbn. rewrite save_old by exact Hn. reflexivity.
Qed.

(** [resolve] on a stored document. *)
Lemma resolve_saved (a : t) (by_ : string) (n : option string)
  (w : World) :
  isNew a = false ->
  exists a',
    Methods.resolve a by_ n w
    = (Ok a', later 1 (withAlerts (<[_id a := a']> (alerts w)) w))
    /\ status a' = resolved /\ _id a' = _id a /\ isNew a' = false
    /\ createdAt a' = createdAt a /\ escalation a' = escalation a
    /\ resolvedBy (response a') = Some by_
    /\ resolvedAt (response a') = Some (clock w (reads w)).
Proof.
  intros Hn. unfold Methods.resolve, bind, Date_now. cbn.
  rewrite save_old by exact Hn. eexists. split; [reflexivity |].
  cbn. repeat split. exact Hn.
Qed.

(** [markAsFalsePositive] on a stored document. *)
Lemma markAsFalsePositive_saved (a : t) (by_ : string)
  (n : option string) (w : World) :
  isNew a = false ->
  exists a',
    Methods.markAsFalsePositive a by_ n w
    = (Ok a', later 1 (withAlerts (<[_id a := a']> (alerts w)) w))
    /\ status a' = false_positive /\ _id a' = _id a /\ isNew a' = false
    /\ createdAt a' = createdAt a /\ escalation a' = escalation a
    /\ resolvedBy (response a') = Some by_
    /\ resolvedAt (response a') = Some (clock w (reads w)).
Proof.
  intros Hn. unfold Methods.markAsFalsePositive, bind, Date_now. cbn.
  rewrite save_old by exact Hn. eexists. split; [reflexivity |].
  cbn. repeat split. exact Hn.
Qed.

(** [escalate] on a stored document below its maximum level. *)
Lemma escalate_below (a : t) (w : World) :
  isNew a = false ->
  level (escalation a) < maxEscalationLevel (escalation a) ->
  let a' :=
    set_escalation
      {| level := level (escalation a) + 1;
         escalatedAt := Some (clock w (reads w));
         escalationRules := escalationRules (escalation a);
         maxEscalationLevel := maxEscalationLevel (escalation a) |} a in
  Methods.escalate a w
  = (Ok a', later 1 (withAlerts (<[_id a := a']> (alerts w)) w)).
Proof.
  intros Hn Hlt. unfold Methods.escalate.
  apply Z.ltb_lt in Hlt. rewrite Hlt.
  unfold bind, Date_now. cbn. rewrite save_old by exact Hn. reflexivity.
Qed.

(** [escalate] at the maximum level: nothing happens. *)
Lemma escalate_at_max (a : t) (w : World) :
  maxEscalationLevel (escalation a) <= level (escalation a) ->
  Methods.escalate a w = (Ok a, w).
Proof.
  intros Hge. unfold Methods.escalate.
  apply Z.ltb_ge in Hge. rewrite Hge. reflexivity.
Qed.

(** *** Stored documents stay saved and bounded *)

Lemma wellFormed_insert (w w' : World) (a' : t) :
  wellFormed w -> saved (_id a') a' -> bounded a' ->
  alerts w' = <[_id a' := a']> (alerts w) ->
  wellFormed w'.
Proof.
  intros Hwf Hs Hb Heq k a Hk. rewrite Heq in Hk.
  destruct (decide (_id a' = k)) as [<- | Hne].
  - rewrite lookup_insert_eq in Hk. injection Hk as <-. split; assumption.
  - rewrite lookup_insert_ne in Hk by exact Hne. exact (Hwf k a Hk).
Qed.

(** The goal is the well-formedness of a world whose collection is that
    of [w] with one more write. *)
Ltac insert_wellFormed w Hwf :=
  match goal with
  | |- wellFormed ?w1 =>
      match w1 with
      | context [<[_ := ?x]> (alerts w)] =>
          apply (wellFormed_insert w w1 x Hwf); [| | reflexivity]
      end
  end.

Lemma wellFormed_start (clk : nat -> Z) : wellFormed (start clk).
Proof. intros k a Hk. cbn in Hk. rewrite lookup_empty in Hk. discriminate. Qed.

(** A document built with the schema's level and maximum is, once saved,
    a stored document within its maximum. *)
Lemma created_good (k : ObjectId) (i : Input) (now : Z) :
  in_level i = None -> in_maxEscalationLevel i = None ->
  let a' :=
    set_saved (match createdAt (preSave (new k i)) with
               | Some c => Some c
               | None => Some now
               end) (preSave (new k i)) in
  _id a' = k /\ saved (_id a') a' /\ bounded a'.
Proof.
  intros Hl Hm. unfold preSave, new, saved, bounded. cbn.
  rewrite Hl, Hm. cbn.
  destruct (Z.of_nat _ =? 0); cbn;
    [destruct (default warning (in_severity i)) |]; cbn;
    repeat split; eauto; lia.
Qed.

Lemma createAlerts_wellFormed (d : SensorData.t)
  (es : list SensorData.Emergency) (w : World) :
  wellFormed w ->
  exists r w', createAlerts d es w = (r, w') /\ wellFormed w'
               /\ clock w' = clock w.
Proof.
  revert w. induction es as [| e es IH]; intros w Hwf.
  - exists (Ok tt), w.
    split; [reflexivity | split; [exact Hwf | reflexivity]].
  - cbn [createAlerts]. unfold bind at 1. unfold freshId at 1.
    unfold bind at 1.
    destruct (Methods.required (new (nextId w) (alertInput d e))) eqn:Hreq.
    + rewrite save_new by (reflexivity || exact Hreq).
      cbv zeta.
      match goal with
      | |- context [createAlerts d es ?w1] =>
          destruct (IH w1) as (r & w' & Hrun & Hwf' & Hclk)
      end.
      * destruct (created_good (nextId w) (alertInput d e)
                    (clock w (reads w)) eq_refl eq_refl)
          as (Hid & Hs & Hb).
        eapply wellFormed_insert; [exact Hwf | exact Hs | exact Hb |].
        rewrite Hid. reflexivity.
      * exists r, w'. rewrite Hrun.
        split; [reflexivity | split; [exact Hwf' | exact Hclk]].
    + rewrite save_invalid by (reflexivity || exact Hreq).
      eexists. eexists. split; [reflexivity |].
      split; [exact Hwf | reflexivity].
Qed.

(** The ingestion, branch by branch: refused by the validators of the
    request, failed at the save of the device or of the reading, or run
    through the creation of the alerts. *)
Lemma postSensor_run (d : SensorData.t) (w : World) :
  postSensor d w
  = if negb (sensorDataValidation d)
    then (Ok (error 400 "Validation failed"), w)
    else if negb (minMax 0 100
                    (s ← SensorData.device d; SensorData.batteryLevel s)
                  && enum ["wifi"; "gsm"; "offline"]%string
                       (connectionTypeOr d))
    then (Ok (error 500 "Server error while processing sensor data"),
          later 2 w)
    else if negb (validSensorData d)
    then (Ok (error 500 "Server error while processing sensor data"),
          later 2 w)
    else
      match createAlerts (stamped (clock w (reads w)) d)
              (SensorData.checkEmergencyConditions d) (later 3 w) with
      | (Ok _, w') =>
          (Ok {| statusCode := 201;
                 body := SensorBody "Sensor data received successfully"
                           (List.length
                              (SensorData.checkEmergencyConditions d)) |},
           w')
      | (Throw _, w') =>
          (Ok (error 500 "Server error while processing sensor data"), w')
      end.
Proof.
  unfold postSensor, tryCatch.
  destruct (sensorDataValidation d); cbn [negb]; [| reflexivity].
  unfold bind at 1. unfold Date_now at 1. cbv iota beta.
  unfold bind at 1. unfold updateStatus.
  unfold bind at 1. unfold Date_now at 1. cbv iota beta.
  destruct (minMax 0 100 _ && enum _ (connectionTypeOr d));
    cbn [negb]; [| reflexivity].
  unfold ret at 1. cbv iota beta.
  unfold bind at 1. unfold saveSensorData.
  change (validSensorData (stamped (clock w (reads w)) d))
    with (validSensorData d).
  destruct (validSensorData d); cbn [negb]; [| reflexivity].
  unfold bind at 1. unfold Date_now at 1. cbv iota beta.
  unfold ret at 1. cbv iota beta.
  change (SensorData.checkEmergencyConditions
            (stamped (clock w (reads w)) d))
    with (SensorData.checkEmergencyConditions d).
  unfold bind at 1. unfold Lifecycle.later. cbn [Nat.add].
  cbn [alerts clock reads nextId].
  destruct (createAlerts _ _ _) as [[[] | e] w']; reflexivity.
Qed.

Lemma wellFormed_later (n : nat) (w : World) :
  wellFormed w -> wellFormed (later n w).
Proof. intros H. exact H. Qed.

Lemma postSensor_wellFormed (d : SensorData.t) (w : World) :
  wellFormed w -> wellFormed (snd (postSensor d w)).
Proof.
  intros Hwf. rewrite postSensor_run.
  destruct (negb (sensorDataValidation d)); [exact Hwf |].
  destruct (negb (minMax 0 100 _ && _)); [exact Hwf |].
  destruct (negb (validSensorData d)); [exact Hwf |].
  destruct (createAlerts_wellFormed (stamped (clock w (reads w)) d)
              (SensorData.checkEmergencyConditions d) (later 3 w)
              (wellFormed_later 3 w Hwf))
    as (r & w' & -> & Hwf' & _).
  destruct r; exact Hwf'.
Qed.

Lemma putAcknowledge_wellFormed (req : Request) (w : World) :
  wellFormed w -> wellFormed (snd (putAcknowledge req w)).
Proof.
  intros Hwf. unfold putAcknowledge, tryCatch, bind, findById.
  destruct (alerts w !! alertId req) as [alert |] eqn:E; [| exact Hwf].
  destruct (accessDenied (user req) alert); [exact Hwf |].
  destruct (negb (Status_eqb (status alert) active)); [exact Hwf |].
  destruct (Hwf _ _ E) as ((Hid & Hn & c & Hc) & Hb).
  rewrite (acknowledge_saved alert _ _ w c Hn Hc).
  cbn. insert_wellFormed w Hwf.
  - repeat split; cbn; [exact Hn | eauto].
  - exact Hb.
Qed.

Lemma putResolve_wellFormed (req : Request) (w : World) :
  wellFormed w -> wellFormed (snd (putResolve req w)).
Proof.
  intros Hwf. unfold putResolve, tryCatch, bind, findById.
  destruct (alerts w !! alertId req) as [alert |] eqn:E; [| exact Hwf].
  destruct (accessDenied (user req) alert); [exact Hwf |].
  destruct (Hwf _ _ E) as ((Hid & Hn & Hc) & Hb).
  destruct (resolve_saved alert (id (user req)) (Routes.notes req) w Hn)
    as (a' & -> & _ & Hid' & Hn' & Hc' & He' & _).
  cbn. eapply wellFormed_insert with (a' := a'); [exact Hwf | | |].
  - repeat split; [exact Hn' | rewrite Hc'; exact Hc].
  - unfold bounded. rewrite He'. exact Hb.
  - cbn. rewrite Hid'. reflexivity.
Qed.

Lemma putFalsePositive_wellFormed (req : Request) (w : World) :
  wellFormed w -> wellFormed (snd (putFalsePositive req w)).
Proof.
  intros Hwf. unfold putFalsePositive, tryCatch, bind, findById.
  destruct (alerts w !! alertId req) as [alert |] eqn:E; [| exact Hwf].
  destruct (accessDenied (user req) alert); [exact Hwf |].
  destruct (Hwf _ _ E) as ((Hid & Hn & Hc) & Hb).
  destruct (markAsFalsePositive_saved alert (id (user req))
              (Routes.notes req) w Hn)
    as (a' & -> & _ & Hid' & Hn' & Hc' & He' & _).
  cbn. eapply wellFormed_insert with (a' := a'); [exact Hwf | | |].
  - repeat split; [exact Hn' | rewrite Hc'; exact Hc].
  - unfold bounded. rewrite He'. exact Hb.
  - cbn. rewrite Hid'. reflexivity.
Qed.

Lemma escalateStored_wellFormed (k : ObjectId) (w : World) :
  wellFormed w -> wellFormed (snd (escalateStored k w)).
Proof.
  intros Hwf. unfold escalateStored, bind, findById.
  destruct (alerts w !! k) as [alert |] eqn:E; [| exact Hwf].
  destruct (Hwf _ _ E) as ((Hid & Hn & Hc) & Hb).
  destruct (Z_lt_le_dec (level (escalation alert))
              (maxEscalationLevel (escalation alert))) as [Hlt | Hge].
  - rewrite (escalate_below alert w Hn Hlt).
    cbn. insert_wellFormed w Hwf.
    + repeat split; cbn; assumption.
    + unfold bounded. cbn. lia.
  - rewrite (escalate_at_max alert w Hge). exact Hwf.
Qed.

Lemma step_wellFormed (op : Op) (w : World) :
  wellFormed w -> wellFormed (step op w).
Proof.
  destruct op; cbn [step].
  - apply postSensor_wellFormed.
  - apply putAcknowledge_wellFormed.
  - apply putResolve_wellFormed.
  - apply putFalsePositive_wellFormed.
  - apply escalateStored_wellFormed.
Qed.

(** Whatever the operations since the start, the collection is
    well-formed. *)
Lemma run_wellFormed (ops : list Op) (w : World) :
  wellFormed w -> wellFormed (run ops w).
Proof.
  revert w. induction ops as [| op ops IH]; intros w Hwf; [exact Hwf |].
  cbn. apply IH, step_wellFormed, Hwf.
Qed.

(** *** Acknowledgement *)

(** C5. On a stored alert the requester may access, when the alert is
    active, the acknowledge request sets its status to acknowledged,
    records the acknowledging user and the instant of acknowledgement,
    and sets responseTime to the whole seconds from the alert's creation
    to the clock reading the call takes for it (the reading that follows
    the one kept in acknowledgedAt); when the alert is not active, the
    request fails with the error "Alert is not in active status" (400)
    and nothing changes. *)
Theorem acknowledge_only_when_active (req : Request) (w : World)
  (alert : t) :
  wellFormed w ->
  alerts w !! alertId req = Some alert ->
  accessDenied (user req) alert = false ->
  match status alert with
  | active =>
      exists a' c,
        createdAt alert = Some c /\
        putAcknowledge req w
        = (Ok (ok "Alert acknowledged successfully" a'),
           later 2 (withAlerts (<[alertId req := a']> (alerts w)) w)) /\
        status a' = acknowledged /\
        acknowledgedBy (response a') = Some (id (user req)) /\
        acknowledgedAt (response a') = Some (clock w (reads w)) /\
        responseTime (response a')
        = Some (secondsSince c (clock w (S (reads w))))
  | _ =>
      putAcknowledge req w
      = (Ok (error 400 "Alert is not in active status"), w)
  end.
Proof.
  intros Hwf E Hacc.
  destruct (Hwf _ _ E) as ((Hid & Hn & c & Hc) & _).
  unfold putAcknowledge, tryCatch, bind, findById. rewrite E, Hacc.
  destruct (status alert) eqn:Hst; cbn [Status_eqb negb];
    try reflexivity.
  rewrite (acknowledge_saved alert _ _ w c Hn Hc). rewrite Hid.
  eexists. exists c. split; [exact Hc |].
  split; [reflexivity |]. cbn. repeat split.
Qed.

Lemma acknowledge_only_when_active_witness :
  (exists alert a',
      alerts afterIngest !! 0%N = Some alert /\ status alert = active /\
      alerts (snd (putAcknowledge (request 0%N) afterIngest)) !! 0%N
      = Some a' /\
      status a' = acknowledged /\
      responseTime (response a') = Some 183) /\
  putAcknowledge (request 0%N) afterAcknowledge
  = (Ok (error 400 "Alert is not in active status"), afterAcknowledge).
Proof.
  assert (Hwf1 : wellFormed afterIngest)
    by apply run_wellFormed, wellFormed_start.
  assert (Hwf2 : wellFormed afterAcknowledge)
    by apply run_wellFormed, wellFormed_start.
  split.
  - destruct (alerts afterIngest !! 0%N) as [alert |] eqn:E;
      [| vm_compute in E; discriminate].
    pose proof (acknowledge_only_when_active (request 0%N) afterIngest
                  alert Hwf1 E) as H.
    vm_compute in E. injection E as <-.
    specialize (H eq_refl). cbn [status] in H.
    destruct H as (a' & c & Hc & Hrun & Hst & _ & _ & Hrt).
    injection Hc as <-.
    eexists. exists a'. split; [reflexivity |]. split; [reflexivity |].
    rewrite Hrun. cbn [snd later withAlerts alerts request alertId].
    rewrite lookup_insert_eq. split; [reflexivity |].
    split; [exact Hst |]. rewrite Hrt. vm_compute. reflexivity.
  - destruct (alerts afterAcknowledge !! 0%N) as [alert |] eqn:E;
      [| vm_compute in E; discriminate].
    pose proof (acknowledge_only_when_active (request 0%N)
                  afterAcknowledge alert Hwf2 E) as H.
    vm_compute in E. injection E as <-.
    exact (H eq_refl).
Defined.

(** *** Resolution and false positives *)

(** The resolve request goes through whatever the status of the stored
    alert. *)
Lemma putResolve_any_status (req : Request) (w : World) (alert : t) :
  wellFormed w ->
  alerts w !! alertId req = Some alert ->
  accessDenied (user req) alert = false ->
  exists a',
    putResolve req w
    = (Ok (ok "Alert resolved successfully" a'),
       later 1 (withAlerts (<[alertId req := a']> (alerts w)) w))
    /\ status a' = resolved
    /\ resolvedAt (response a') = Some (clock w (reads w)).
Proof.
  intros Hwf E Hacc.
  destruct (Hwf _ _ E) as ((Hid & Hn & _) & _).
  unfold putResolve, tryCatch, bind, findById. rewrite E, Hacc.
  destruct (resolve_saved alert (id (user req)) (Routes.notes req) w Hn)
    as (a' & -> & Hst & _ & _ & _ & _ & _ & Hat).
  exists a'. rewrite Hid. split; [reflexivity |]. split; assumption.
Qed.

(** So does the false-positive request. *)
Lemma putFalsePositive_any_status (req : Request) (w : World)
  (alert : t) :
  wellFormed w ->
  alerts w !! alertId req = Some alert ->
  accessDenied (user req) alert = false ->
  exists a',
    putFalsePositive req w
    = (Ok (ok "Alert marked as false positive" a'),
       later 1 (withAlerts (<[alertId req := a']> (alerts w)) w))
    /\ status a' = false_positive
    /\ resolvedAt (response a') = Some (clock w (reads w)).
Proof.
  intros Hwf E Hacc.
  destruct (Hwf _ _ E) as ((Hid & Hn & _) & _).
  unfold putFalsePositive, tryCatch, bind, findById. rewrite E, Hacc.
  destruct (markAsFalsePositive_saved alert (id (user req))
              (Routes.notes req) w Hn)
    as (a' & -> & Hst & _ & _ & _ & _ & _ & Hat).
  exists a'. rewrite Hid. split; [reflexivity |]. split; assumption.
Qed.

(** C6, on the code: an alert that was resolved is moved to
    false_positive by the false-positive request, and its resolution
    timestamp is overwritten. *)
Theorem resolved_alert_leaves_terminal_state :
  exists a a',
    alerts afterResolve !! 0%N = Some a /\
    status a = resolved /\
    terminal (status a) = true /\
    alerts (step (PutFalsePositive (request 0%N)) afterResolve) !! 0%N
    = Some a' /\
    status a' = false_positive /\
    resolvedAt (response a) = Some (clk0 5) /\
    resolvedAt (response a') = Some (clk0 6).
Proof.
  do 2 eexists.
  split; [vm_compute; reflexivity |].
  split; [reflexivity |]. split; [reflexivity |].
  split; [vm_compute; reflexivity |].
  split; [reflexivity |]. split; reflexivity.
Qed.

(** *** Creation *)

Lemma truthy_nonempty (s : string) :
  s <> ""%string -> JSString.truthy s = true.
Proof. destruct s; [congruence | reflexivity]. Qed.

Lemma blank_false (parts : list SensorData.Part) (p : SensorData.Part) :
  In p parts -> p <> SensorData.Text "" -> Methods.blank parts = false.
Proof.
  intros Hin Hp. unfold Methods.blank.
  induction parts as [| q parts IH]; [destruct Hin |].
  cbn [forallb]. destruct Hin as [-> | Hin].
  - destruct p as [s | q]; [| reflexivity].
    destruct s; [congruence | reflexivity].
  - rewrite (IH Hin). apply andb_false_r.
Qed.

(** A creation whose required paths are filled passes the validation. *)
Lemma required_new (k : ObjectId) (i : Input) (p : SensorData.Part) :
  in_deviceId i <> ""%string -> in_deviceName i <> ""%string ->
  in_title i <> ""%string ->
  In p (in_message i) -> p <> SensorData.Text "" ->
  Methods.required (new k i) = true.
Proof.
  intros Hd Hn Ht Hin Hp. unfold Methods.required, Methods.present, new.
  cbn [deviceId deviceName title message].
  rewrite !truthy_nonempty by assumption.
  rewrite (blank_false _ p Hin Hp). reflexivity.
Qed.

(** C7, on the code: a creation that supplies no rules but a maximum
    level of 5 keeps that maximum; the hook seeds the rules of the
    severity and leaves the maximum of an emergency as it finds it. *)
Lemma supplied_maximum_is_kept :
  (exists a,
      in_escalationRules fiveLevels = [] /\
      fst (Methods.save (new 7%N fiveLevels) (start clk0)) = Ok a /\
      severity a = emergency /\
      pairs (escalationRules (escalation a))
      = [(Some 1, Some 0); (Some 2, Some 2); (Some 3, Some 5)] /\
      maxEscalationLevel (escalation a) = 5) /\
  ~ maximumFromSeverity.
Proof.
  split.
  - eexists. split; [reflexivity |]. split; [vm_compute; reflexivity |].
    repeat split.
  - intros H.
    pose proof (save_new (new 7%N fiveLevels) (start clk0) eq_refl eq_refl)
      as E.
    cbv zeta in E.
    pose proof (H 7%N fiveLevels (start clk0) _ _ eq_refl E) as Hmax.
    vm_compute in Hmax. discriminate.
Qed.

(** C7. A creation whose required paths are filled and that supplies no
    escalation rules is stored by its first save with the rules of its
    severity: emergency gets (1,0),(2,2),(3,5), critical (1,0),(2,5),
    (3,15), warning (1,0),(2,15),(3,60), any other severity (1,0),(2,60),
    all without contacts.  The maximum level is set to 2 for the other
    severities; for emergency, critical and warning the hook does not
    write it, so that it is the one the creator supplied, and the
    schema's 3 when none was supplied. *)
Theorem escalation_rules_seeded_by_severity (k : ObjectId) (i : Input)
  (w : World) (p : SensorData.Part) :
  in_escalationRules i = [] ->
  in_deviceId i <> ""%string -> in_deviceName i <> ""%string ->
  in_title i <> ""%string ->
  In p (in_message i) -> p <> SensorData.Text "" ->
  exists a,
    Methods.save (new k i) w
    = (Ok a, later 1 (withAlerts (<[k := a]> (alerts w)) w)) /\
    severity a = default warning (in_severity i) /\
    pairs (escalationRules (escalation a))
    = match severity a with
      | emergency => [(Some 1, Some 0); (Some 2, Some 2); (Some 3, Some 5)]
      | critical => [(Some 1, Some 0); (Some 2, Some 5); (Some 3, Some 15)]
      | warning => [(Some 1, Some 0); (Some 2, Some 15); (Some 3, Some 60)]
      | info => [(Some 1, Some 0); (Some 2, Some 60)]
      end /\
    Forall (fun r => Rule.contacts r = []) (escalationRules (escalation a))
    /\
    maxEscalationLevel (escalation a)
    = match severity a with
      | info => 2
      | _ => default 3 (in_maxEscalationLevel i)
      end /\
    (in_maxEscalationLevel i = None ->
     maxEscalationLevel (escalation a)
     = match severity a with info => 2 | _ => 3 end).
Proof.
  intros Hr Hd Hn Ht Hin Hp.
  rewrite save_new
    by (reflexivity || exact (required_new k i p Hd Hn Ht Hin Hp)).
  cbv zeta.
  eexists. split; [reflexivity |].
  unfold preSave, new. cbn. rewrite Hr. cbn.
  destruct (default warning (in_severity i)); cbn;
    (split; [reflexivity |]); (split; [reflexivity |]);
    (split; [repeat constructor |]); (split; [reflexivity |]);
    intros Hm; rewrite ?Hm; reflexivity.
Qed.

Lemma escalation_rules_seeded_by_severity_witness :
  in_escalationRules (bare (Some emergency)) = [] /\
  exists a,
    fst (Methods.save (new 7%N (bare (Some emergency))) (start clk0))
    = Ok a /\
    pairs (escalationRules (escalation a))
    = [(Some 1, Some 0); (Some 2, Some 2); (Some 3, Some 5)] /\
    maxEscalationLevel (escalation a) = 3.
Proof.
  split; [reflexivity |].
  destruct (escalation_rules_seeded_by_severity 7%N
              (bare (Some emergency)) (start clk0)
              (SensorData.Text "Emergency button pressed") eq_refl)
    as (a & Hrun & Hsev & Hrules & _ & _ & Hmax);
    [discriminate | discriminate | discriminate | left; reflexivity
    | discriminate |].
  exists a. rewrite Hrun. split; [reflexivity |].
  rewrite Hrules, (Hmax eq_refl), Hsev. split; reflexivity.
Defined.

(** *** Escalation *)

Lemma Status_eqb_active (s : Status) :
  negb (Status_eqb s active) = false <-> s = active.
Proof. destruct s; cbn; split; congruence. Qed.

Lemma isRuleFor_level (lvl : Z) (r : Rule.t) :
  Methods.isRuleFor lvl r = true <-> Rule.level r = Some lvl.
Proof.
  unfold Methods.isRuleFor. destruct (Rule.level r) as [l |].
  - rewrite Z.eqb_eq. split; congruence.
  - split; discriminate.
Qed.

(** [find] yields the first element that passes the test. *)
Lemma find_first {A} (p : A -> bool) (l : list A) (x : A) :
  List.find p l = Some x <->
  exists front rest,
    l = front ++ x :: rest /\ p x = true /\
    forall y, In y front -> p y = false.
Proof.
  induction l as [| y l IH]; cbn.
  - split; [discriminate |].
    intros (front & rest & Hl & _). destruct front; discriminate.
  - destruct (p y) eqn:Hy.
    + split.
      * intros [= <-]. exists [], l. split; [reflexivity |].
        split; [exact Hy |]. intros z [].
      * intros (front & rest & Hl & Hx & Hfront).
        destruct front as [| z front]; cbn in Hl.
        -- congruence.
        -- injection Hl as <- _.
           rewrite (Hfront y (or_introl eq_refl)) in Hy. discriminate.
    + rewrite IH. split.
      * intros (front & rest & -> & Hx & Hfront).
        exists (y :: front), rest. split; [reflexivity |].
        split; [exact Hx |]. intros z [<- | Hz]; auto.
      * intros (front & rest & Hl & Hx & Hfront).
        destruct front as [| z front]; cbn in Hl.
        -- injection Hl as -> _. congruence.
        -- injection Hl as <- ->. exists front, rest.
           split; [reflexivity |]. split; [exact Hx |].
           intros z Hz. apply Hfront. right. exact Hz.
Qed.

(** C8. On an alert with a creation timestamp, [needsEscalation()]
    returns true exactly when the status is active, the escalation rules
    hold a rule whose level is the current level plus one, and the whole
    minutes elapsed since the creation reach the time threshold of the
    first such rule; on an alert that is not active, resolved for one, it
    returns false whatever the time. *)
Theorem needsEscalation_exactly (a : t) (w : World) (c : Z) :
  createdAt a = Some c ->
  exists b w',
    Methods.needsEscalation a w = (Ok b, w') /\
    alerts w' = alerts w /\
    (b = true <->
     status a = active /\
     exists front r rest th,
       escalationRules (escalation a) = front ++ r :: rest /\
       (forall r', In r' front ->
                   Rule.level r' <> Some (level (escalation a) + 1)) /\
       Rule.level r = Some (level (escalation a) + 1) /\
       Rule.timeThreshold r = Some th /\
       th <= minutesSince c (clock w (reads w))) /\
    (status a <> active -> b = false /\ w' = w).
Proof.
  intros Hc.
  assert (Hfind : forall r,
             List.find (Methods.isRuleFor (level (escalation a) + 1))
               (escalationRules (escalation a)) = Some r <->
             exists front rest,
               escalationRules (escalation a) = front ++ r :: rest /\
               (forall r', In r' front ->
                  Rule.level r' <> Some (level (escalation a) + 1)) /\
               Rule.level r = Some (level (escalation a) + 1)).
  { intros r. rewrite find_first. split.
    - intros (front & rest & Hl & Hr & Hfront). exists front, rest.
      split; [exact Hl |]. split; [| apply isRuleFor_level, Hr].
      intros r' Hin Hlev. apply isRuleFor_level in Hlev.
      rewrite (Hfront r' Hin) in Hlev. discriminate.
    - intros (front & rest & Hl & Hfront & Hr). exists front, rest.
      split; [exact Hl |]. split; [apply isRuleFor_level, Hr |].
      intros r' Hin.
      destruct (Methods.isRuleFor (level (escalation a) + 1) r') eqn:E;
        [| reflexivity].
      apply isRuleFor_level in E. destruct (Hfront r' Hin E). }
  unfold Methods.needsEscalation.
  destruct (negb (Status_eqb (status a) active)) eqn:Hst.
  - assert (Hna : status a <> active).
    { intros Ha. apply Status_eqb_active in Ha. congruence. }
    exists false, w. split; [reflexivity |]. split; [reflexivity |].
    split; [| intros _; split; reflexivity].
    split; [discriminate | intros [Ha _]; contradiction].
  - apply Status_eqb_active in Hst.
    destruct (List.find (Methods.isRuleFor (level (escalation a) + 1))
                (escalationRules (escalation a))) as [r |] eqn:Hr.
    + unfold Methods.ageInMinutes, bind, Date_now, getTime.
      rewrite Hc. cbn.
      eexists. eexists. split; [reflexivity |]. split; [reflexivity |].
      split; [| intros Hna; contradiction].
      unfold Methods.reached, minutesSince.
      destruct (Rule.timeThreshold r) as [th |] eqn:Hth.
      * rewrite Z.leb_le. split.
        -- intros Hle. split; [exact Hst |].
           destruct (proj1 (Hfind r) eq_refl)
             as (front & rest & Hl & Hfront & Hlev).
           exists front, r, rest, th. auto 6.
        -- intros (_ & front & r' & rest & th' & Hl & Hfront & Hlev
                   & Hth' & Hle).
           assert (E : Some r = Some r').
           { apply (proj2 (Hfind r')). exists front, rest. auto. }
           injection E as <-. rewrite Hth in Hth'. injection Hth' as <-.
           exact Hle.
      * split; [discriminate |].
        intros (_ & front & r' & rest & th' & Hl & Hfront & Hlev
                & Hth' & _).
        assert (E : Some r = Some r').
        { apply (proj2 (Hfind r')). exists front, rest. auto. }
        injection E as <-. congruence.
    + exists false, w. split; [reflexivity |]. split; [reflexivity |].
      split; [| intros Hna; contradiction].
      split; [discriminate |].
      intros (_ & front & r & rest & th & Hl & Hfront & Hlev & _).
      assert (E : None = Some r).
      { apply (proj2 (Hfind r)). exists front, rest. auto. }
      discriminate.
Qed.

Lemma needsEscalation_exactly_witness :
  exists a,
    alerts afterResolve !! 1%N = Some a /\
    is_Some (createdAt a) /\
    fst (Methods.needsEscalation a (later 10 afterResolve)) = Ok true.
Proof.
  destruct (alerts afterResolve !! 1%N) as [a |] eqn:E;
    [| vm_compute in E; discriminate].
  destruct (createdAt a) as [c |] eqn:Hc;
    [| vm_compute in E; injection E as <-; discriminate].
  exists a. split; [reflexivity |].
  split; [rewrite Hc; eexists; reflexivity |].
  destruct (needsEscalation_exactly a (later 10 afterResolve) c Hc)
    as (b & w' & Hrun & _ & Hiff & _).
  rewrite Hrun. cbn [fst]. f_equal. apply Hiff.
  vm_compute in E. injection E as <-. injection Hc as <-.
  split; [reflexivity |].
  exists [rule 1 0], (rule 2 5), [rule 3 15], 5.
  split; [reflexivity |].
  split; [intros r' [<- | []]; discriminate |].
  split; [reflexivity |]. split; [reflexivity |].
  vm_compute. discriminate.
Defined.

(** [escalate()] is not gated by the status: on the resolved alert of
    the run it raises the level from 1 to 2. *)
Lemma escalate_runs_on_resolved_alert :
  (exists a a',
      alerts afterResolve !! 0%N = Some a /\
      status a = resolved /\
      fst (Methods.escalate a afterResolve) = Ok a' /\
      level (escalation a) = 1 /\
      level (escalation a') = 2) /\
  ~ escalateOnlyWhileActive.
Proof.
  assert (H : exists a a',
             alerts afterResolve !! 0%N = Some a /\
             status a = resolved /\
             fst (Methods.escalate a afterResolve) = Ok a' /\
             level (escalation a) = 1 /\
             level (escalation a') = 2).
  { do 2 eexists. split; [vm_compute; reflexivity |].
    split; [reflexivity |]. split; [vm_compute; reflexivity |].
    split; reflexivity. }
  split; [exact H |].
  destruct H as (a & a' & _ & Hst & Hrun & Hl & Hl').
  intros Hgate.
  assert (Hna : status a <> active) by (rewrite Hst; discriminate).
  destruct (Methods.escalate a afterResolve) as [out w'] eqn:Hesc.
  cbn [fst] in Hrun. subst out.
  pose proof (Hgate a a' afterResolve w' Hna Hesc) as Heq.
  rewrite Hl, Hl' in Heq. discriminate.
Qed.

(** C9. [escalate()] looks at the level alone, not at the status: on a
    stored alert whose level is below its maximum it raises the level by
    exactly 1 and records the instant of the escalation, and at the
    maximum it changes nothing; so, whatever the operations since the
    start of the server, the escalation level of a stored alert never
    exceeds the alert's maximum. *)
Theorem escalation_level_bounded (clk : nat -> Z) (ops : list Op)
  (k : ObjectId) (a : t) (w : World) :
  alerts (run ops (start clk)) !! k = Some a ->
  bounded a /\
  if level (escalation a) <? maxEscalationLevel (escalation a) then
    exists a',
      Methods.escalate a w
      = (Ok a', later 1 (withAlerts (<[k := a']> (alerts w)) w)) /\
      level (escalation a') = level (escalation a) + 1 /\
      escalatedAt (escalation a') = Some (clock w (reads w)) /\
      maxEscalationLevel (escalation a')
      = maxEscalationLevel (escalation a) /\
      status a' = status a /\
      bounded a'
  else Methods.escalate a w = (Ok a, w).
Proof.
  intros E.
  destruct (run_wellFormed ops (start clk) (wellFormed_start clk) k a E)
    as ((Hid & Hn & _) & Hb).
  split; [exact Hb |].
  destruct (level (escalation a) <? maxEscalationLevel (escalation a))
    eqn:Hlt.
  - apply Z.ltb_lt in Hlt.
    rewrite (escalate_below a w Hn Hlt), Hid.
    eexists. split; [reflexivity |]. cbn.
    repeat split. unfold bounded. cbn. lia.
  - apply Z.ltb_ge in Hlt. apply escalate_at_max, Hlt.
Qed.

Lemma escalation_level_bounded_witness :
  exists a,
    alerts (run [PostSensor Evaluation.twoBreaches;
                 PutResolve (request 0%N); Escalate 0%N; Escalate 0%N;
                 Escalate 0%N] (start clk0)) !! 0%N = Some a /\
    level (escalation a) = 3 /\
    bounded a.
Proof.
  eexists. split; [vm_compute; reflexivity |]. split; [reflexivity |].
  refine (proj1 (escalation_level_bounded clk0
                   [PostSensor Evaluation.twoBreaches;
                    PutResolve (request 0%N); Escalate 0%N; Escalate 0%N;
                    Escalate 0%N] 0%N _ (start clk0) _)).
  vm_compute. reflexivity.
Defined.

End AlertFacts.

(** ** More on the threshold evaluator *)

Module EvaluatorMore.

Import SensorData Evaluation Helpers.

(** The block of a numeric path on a number that is not zero. *)
Lemma block_value (f : Field) (this : t) (v : Q) :
  rawValue f this = Some v -> JS.truthy v = true ->
  if outOfRange f v
  then exists m,
      checkEmergencyConditions (restrict f this)
      = [{| type := typeOf f;
            severity := if severe f v then critical else warning;
            evalue := VNum v; message := m |}]
  else checkEmergencyConditions (restrict f this) = [].
Proof.
  intros Hv Ht.
  destruct f; cbn in Hv; try discriminate;
    unfold checkEmergencyConditions, restrict, JS.push;
    cbn [heartRate spO2 bodyTemperature motion device truthyFall].
  - destruct (heartRate this) as [m |]; cbn in Hv |- *; [| discriminate].
    rewrite Hv, Ht.
    destruct (JS.ltb v 50 || JS.gtb v 120); cbn; [| reflexivity].
    eexists; reflexivity.
  - destruct (spO2 this) as [m |]; cbn in Hv |- *; [| discriminate].
    rewrite Hv, Ht.
    destruct (JS.ltb v 95); cbn; [| reflexivity]. eexists; reflexivity.
  - destruct (bodyTemperature this) as [m |]; cbn in Hv |- *;
      [| discriminate].
    rewrite Hv, Ht.
    destruct (JS.gtb v 38.5 || JS.ltb v 35.5); cbn; [| reflexivity].
    eexists; reflexivity.
  - destruct (device this) as [m |]; cbn in Hv |- *; [| discriminate].
    rewrite Hv, Ht.
    destruct (JS.ltb v 10); cbn; [| reflexivity]. eexists; reflexivity.
Qed.

Lemma in_check (e : Emergency) (this : t) :
  In e (checkEmergencyConditions this) <->
  exists f, In e (checkEmergencyConditions (restrict f this)).
Proof.
  rewrite EvaluatorFacts.check_blocks. unfold evaluateInOrder.
  rewrite in_flat_map. split.
  - intros (f & _ & H). exists f. exact H.
  - intros (f & H). exists f. split; [| exact H].
    destruct f; cbn; auto 6.
Qed.


Lemma truthy_not_zero (v : Q) : ~ (v == 0)%Q -> JS.truthy v = true.
Proof.
  intros Hnz. destruct (JS.truthy v) eqn:Ht; [reflexivity |].
  apply JSFacts.truthy_zero in Ht. contradiction.
Qed.

(** A present number that is not zero is classified exactly when it is out
    of range: one classification of the path's type, carrying the number,
    critical exactly in the critical band; otherwise none of that type. *)
Theorem present_value_classified (f : Field) (this : t) (v : Q) :
  rawValue f this = Some v -> ~ (v == 0)%Q ->
  if outOfRange f v
  then countType (typeOf f) (checkEmergencyConditions this) = 1%nat /\
       exists e, In e (checkEmergencyConditions this) /\
                 type e = typeOf f /\ evalue e = VNum v /\
                 severity e = if severe f v then critical else warning
  else countType (typeOf f) (checkEmergencyConditions this) = 0%nat.
Proof.
  intros Hv Hnz. pose proof (truthy_not_zero v Hnz) as Ht.
  pose proof (block_value f this v Hv Ht) as Hb.
  rewrite EvaluatorFacts.countType_check.
  assert (Hbr : breach f this = outOfRange f v).
  { unfold breach. destruct f; cbn in Hv; try discriminate;
      cbn [rawValue]; rewrite Hv, Ht; reflexivity. }
  rewrite Hbr. destruct (outOfRange f v); [| reflexivity].
  split; [reflexivity |]. destruct Hb as (m & Hb).
  eexists. split; [apply in_check; exists f; rewrite Hb; left; reflexivity |].
  cbn. repeat split.
Qed.

Lemma present_value_classified_witness :
  rawValue FTemperature Samples.feverish = Some 40.5%Q /\
  ~ (40.5 == 0)%Q /\
  countType temperature_abnormal
    (checkEmergencyConditions Samples.feverish) = 1%nat.
Proof.
  assert (Hnz : ~ (40.5 == 0)%Q) by discriminate.
  split; [reflexivity |]. split; [exact Hnz |].
  exact (proj1 (present_value_classified FTemperature Samples.feverish
                  40.5%Q eq_refl Hnz)).
Defined.


Lemma in_check_classified (e : Emergency) (this : t) :
  In e (checkEmergencyConditions this) ->
  exists f, breach f this = true /\ classified f e.
Proof.
  intros H. apply in_check in H. destruct H as (f & H). exists f.
  pose proof (EvaluatorFacts.check_restrict f this) as Hr.
  destruct (breach f this).
  - destruct Hr as (e' & He & Hc). rewrite He in H.
    destruct H as [<- | []]. split; [reflexivity | exact Hc].
  - rewrite Hr in H. destruct H.
Qed.

(** The evaluator only gives the severities warning and critical, never
    info or emergency, and a fall is always critical with the value
    true. *)
Theorem severity_warning_or_critical (e : Emergency) (this : t) :
  In e (checkEmergencyConditions this) ->
  (severity e = warning \/ severity e = critical) /\
  (type e = fall_detected ->
   severity e = critical /\ evalue e = VBool true).
Proof.
  intros H. destruct (in_check_classified e this H) as (f & _ & Hty & Hc).
  destruct f; cbn in Hty.
  1-3, 5: destruct Hc as (v & _ & Hs); split;
    [rewrite Hs; match goal with
                 | |- context [if ?b then _ else _] => destruct b
                 end; auto
    | rewrite Hty; discriminate].
  destruct Hc as (Hs & Hv). split; [right; exact Hs | intros _; auto].
Qed.

Lemma severity_warning_or_critical_witness :
  exists e,
    In e (checkEmergencyConditions twoBreaches) /\
    type e = battery_low /\ severity e = critical.
Proof.
  eexists. split; [vm_compute; right; left; reflexivity |].
  split; [reflexivity |].
  match goal with
  | |- severity ?e = _ =>
      destruct (severity_warning_or_critical e twoBreaches) as [[H | H] _];
        [vm_compute; right; left; reflexivity | discriminate H | exact H]
  end.
Defined.

(** Every numeric classification lies outside the threshold that
    [getThresholdForAlert] records for its type, and is of a type with a
    unit; only a fall has neither threshold nor unit. *)
Theorem classification_violates_recorded_threshold (e : Emergency)
  (this : t) :
  In e (checkEmergencyConditions this) ->
  match getThresholdForAlert (type e) with
  | Some th =>
      exists v, evalue e = VNum v /\ violates th v = true /\
                getUnitForAlert (type e) <> ""%string
  | None => type e = fall_detected /\ getUnitForAlert (type e) = ""%string
  end.
Proof.
  intros H. apply in_check in H. destruct H as (f & H).
  destruct f.
  5: { (* the battery: below 10, hence below the recorded 15 *)
    unfold checkEmergencyConditions, restrict, JS.push in H;
      cbn [heartRate spO2 bodyTemperature motion device truthyFall
           truthyValue] in H.
    destruct (truthyBattery (device this)) as [v |]; [| destruct H].
    destruct (JS.ltb v 10) eqn:Hlt; [| destruct H].
    destruct H as [<- | []]. cbn. exists v. split; [reflexivity |].
    split; [| discriminate].
    unfold violates. cbn. rewrite orb_false_r.
    apply JSFacts.ltb_lt. apply JSFacts.ltb_lt in Hlt.
    apply Qlt_trans with (y := 10%Q); [exact Hlt | reflexivity]. }
  4: { unfold checkEmergencyConditions, restrict, JS.push in H;
      cbn [heartRate spO2 bodyTemperature motion device truthyBattery
           truthyValue] in H.
    destruct (truthyFall (motion this)); [| destruct H].
    destruct H as [<- | []]. cbn. split; reflexivity. }
  all: unfold checkEmergencyConditions, restrict, JS.push in H;
    cbn [heartRate spO2 bodyTemperature motion device truthyBattery
         truthyFall] in H; cbn [truthyValue] in H.
  - destruct (truthyValue (heartRate this)) as [v |]; [| destruct H].
    destruct (JS.ltb v 50 || JS.gtb v 120) eqn:Hc; [| destruct H].
    destruct H as [<- | []]. cbn. exists v. split; [reflexivity |].
    split; [exact Hc | discriminate].
  - destruct (truthyValue (spO2 this)) as [v |]; [| destruct H].
    destruct (JS.ltb v 95) eqn:Hc; [| destruct H].
    destruct H as [<- | []]. cbn. exists v. split; [reflexivity |].
    split; [unfold violates; cbn; rewrite Hc; reflexivity | discriminate].
  - destruct (truthyValue (bodyTemperature this)) as [v |]; [| destruct H].
    destruct (JS.gtb v 38.5 || JS.ltb v 35.5) eqn:Hc; [| destruct H].
    destruct H as [<- | []]. cbn. exists v. split; [reflexivity |].
    split; [| discriminate].
    unfold violates. cbn. rewrite orb_comm. exact Hc.
Qed.

Lemma classification_violates_recorded_threshold_witness :
  exists e v,
    In e (checkEmergencyConditions twoBreaches) /\
    type e = battery_low /\ evalue e = VNum v /\
    JS.ltb v 15 = true.
Proof.
  eexists. eexists.
  split; [vm_compute; right; left; reflexivity |].
  split; [reflexivity |]. split; [reflexivity |].
  match goal with
  | |- JS.ltb ?v 15 = true =>
      pose proof (classification_violates_recorded_threshold
                    {| type := battery_low; severity := critical;
                       evalue := VNum v;
                       message :=
                         [Text "Device battery level is critically low: ";
                          Num v; Text "%"] |} twoBreaches) as H
  end.
  cbn in H. destruct H as (v' & [= <-] & Hv & _).
  - vm_compute. right; left; reflexivity.
  - reflexivity.
Defined.

(** The two battery thresholds disagree: a level from 10 up to, but not
    including, 15 is below the minimum recorded with battery alerts and
    yet raises none. *)
Theorem battery_between_the_two_thresholds (this : t) (v : Q) :
  rawValue FDevice this = Some v -> (10 <= v)%Q -> (v < 15)%Q ->
  (exists th, getThresholdForAlert battery_low = Some th
              /\ violates th v = true) /\
  countType battery_low (checkEmergencyConditions this) = 0%nat.
Proof.
  intros Hv Hlo Hhi. split.
  - eexists. split; [reflexivity |]. unfold violates. cbn.
    rewrite orb_false_r. apply JSFacts.ltb_lt. exact Hhi.
  - rewrite (EvaluatorFacts.countType_check FDevice).
    unfold breach. rewrite Hv. cbn.
    apply JSFacts.ltb_ge in Hlo. rewrite Hlo, andb_false_r. reflexivity.
Qed.

Lemma battery_between_the_two_thresholds_witness :
  rawValue FDevice Samples.lowish = Some 12%Q /\
  countType battery_low (checkEmergencyConditions Samples.lowish) = 0%nat.
Proof.
  split; [reflexivity |].
  apply (battery_between_the_two_thresholds Samples.lowish 12%Q eq_refl).
  - unfold Qle. cbn. lia.
  - reflexivity.
Defined.

Lemma inRange_bounds (lo hi v : Q) :
  inRange lo hi (Some v) = true -> (lo <= v)%Q /\ (v <= hi)%Q.
Proof.
  unfold inRange. rewrite andb_true_iff, !Qle_bool_iff. tauto.
Qed.

(** On a reading that passes the schema's bounds, the only numbers that
    are out of range for their rule and yet not classified are a heart
    rate, an SpO2 or a battery level of zero: a temperature, at least 30,
    is never missed. *)
Theorem schema_valid_blind_spot (f : Field) (this : t) (v : Q) :
  schemaValid this = true -> rawValue f this = Some v ->
  (outOfRange f v = true /\
   countType (typeOf f) (checkEmergencyConditions this) = 0%nat)
  <-> ((v == 0)%Q /\ f <> FTemperature).
Proof.
  intros Hs Hv. rewrite EvaluatorFacts.countType_check.
  assert (Hbr : breach f this = JS.truthy v && outOfRange f v).
  { unfold breach. destruct f; cbn in Hv; try discriminate;
      cbn [rawValue]; rewrite Hv; reflexivity. }
  rewrite Hbr. unfold schemaValid in Hs.
  rewrite !andb_true_iff in Hs. destruct Hs as (((_ & _) & Htemp) & _).
  split.
  - intros [Ho Hc]. rewrite Ho, andb_true_r in Hc.
    destruct (JS.truthy v) eqn:Ht; [discriminate |].
    apply JSFacts.truthy_zero in Ht. split; [exact Ht |].
    intros ->. rewrite Hv in Htemp.
    apply inRange_bounds in Htemp. destruct Htemp as [Hlo _].
    rewrite Ht in Hlo. revert Hlo. unfold Qle. cbn. lia.
  - intros [Hz Hf].
    assert (Ht : JS.truthy v = false) by (apply JSFacts.truthy_zero, Hz).
    rewrite Ht. split; [| reflexivity].
    assert (Hlt : forall c : Q, (0 < c)%Q -> JS.ltb v c = true).
    { intros c Hc. apply JSFacts.ltb_lt. rewrite Hz. exact Hc. }
    destruct f; cbn in Hv |- *; try discriminate; try contradiction;
      rewrite Hlt by reflexivity; reflexivity.
Qed.

Lemma schema_valid_blind_spot_witness :
  schemaValid (withBatteryLevel 0 resting) = true /\
  rawValue FDevice (withBatteryLevel 0 resting) = Some 0%Q /\
  outOfRange FDevice 0 = true /\
  countType battery_low
    (checkEmergencyConditions (withBatteryLevel 0 resting)) = 0%nat.
Proof.
  split; [reflexivity |]. split; [reflexivity |].
  apply (schema_valid_blind_spot FDevice (withBatteryLevel 0 resting) 0%Q
           eq_refl eq_refl).
  split; [reflexivity | discriminate].
Defined.

End EvaluatorMore.

(** ** The history of the collection *)

Module HistoryFacts.

Import Alert Routes Lifecycle History AlertFacts.

Lemma evolves_refl (a : t) : evolves a a.
Proof. unfold evolves. repeat split; auto; lia. Qed.

Lemma evolves_trans (a b c : t) : evolves a b -> evolves b c -> evolves a c.
Proof.
  unfold evolves.
  intros (H1 & H2 & H3 & H4 & H5 & H6 & H7 & H8 & H9 & H10 & H11 & H12 & H13)
         (G1 & G2 & G3 & G4 & G5 & G6 & G7 & G8 & G9 & G10 & G11 & G12 & G13).
  repeat match goal with |- _ /\ _ => split end;
    try congruence; try lia.
  - intros Ha. exact (G12 (H12 Ha)).
  - intros Ha. destruct (H13 Ha) as (E1 & E2 & E3).
    assert (Hb : acknowledgedAt (response b) <> None) by congruence.
    destruct (G13 Hb) as (F1 & F2 & F3).
    repeat split; congruence.
Qed.

Lemma updated_same (w w' : World) :
  nextId w' = nextId w -> clock w' = clock w -> alerts w' = alerts w ->
  updated w w'.
Proof. intros H1 H2 H3. split; [| split]; auto. Qed.

Lemma updated_consistent (w w' : World) :
  consistent w -> updated w w' -> consistent w'.
Proof.
  intros (Hwf & Hfr & Hin) (Hn & _ & [Heq | Hw]).
  - unfold consistent, wellFormed, freshIds. rewrite Heq, Hn. auto.
  - destruct Hw as (k & a & a' & Hk & Heq & _ & Hi & Hs & Hb).
    assert (Hcase : forall j b,
               alerts w' !! j = Some b ->
               (j = k /\ b = a') \/ alerts w !! j = Some b).
    { intros j b Hj. rewrite Heq in Hj.
      destruct (decide (k = j)) as [<- | Hne].
      - rewrite lookup_insert_eq in Hj. injection Hj as <-. left. auto.
      - rewrite lookup_insert_ne in Hj by exact Hne. right. exact Hj. }
    split; [| split].
    + intros j b Hj. destruct (Hcase j b Hj) as [[-> ->] | Hold].
      * split; assumption.
      * exact (Hwf _ _ Hold).
    + intros j b Hj. rewrite Hn.
      destruct (Hcase j b Hj) as [[-> ->] | Hold].
      * exact (Hfr _ _ Hk).
      * exact (Hfr _ _ Hold).
    + intros j b Hj. destruct (Hcase j b Hj) as [[-> ->] | Hold].
      * exact Hi.
      * exact (Hin _ _ Hold).
Qed.

Lemma updated_lookup (w w' : World) (k : ObjectId) (a : t) :
  updated w w' -> alerts w !! k = Some a ->
  exists a', alerts w' !! k = Some a' /\ evolves a a'.
Proof.
  intros (_ & _ & [Heq | Hw]) Hk.
  - exists a. rewrite Heq. split; [exact Hk | apply evolves_refl].
  - destruct Hw as (j & b & b' & Hj & Heq & He & _).
    rewrite Heq. destruct (decide (j = k)) as [<- | Hne].
    + rewrite lookup_insert_eq. exists b'. split; [reflexivity |].
      rewrite Hk in Hj. injection Hj as <-. exact He.
    + rewrite lookup_insert_ne by exact Hne. exists a.
      split; [exact Hk | apply evolves_refl].
Qed.

(** [resolve] on a stored document, in full. *)
Lemma resolve_run (a : t) (by_ : string) (n : option string) (w : World) :
  isNew a = false ->
  let a' :=
    set_response
      {| acknowledgedBy := acknowledgedBy (response a);
         acknowledgedAt := acknowledgedAt (response a);
         resolvedBy := Some by_;
         resolvedAt := Some (clock w (reads w));
         responseTime := responseTime (response a);
         Alert.notes :=
           if JSString.truthy (default ""%string n)
           then Some (JSString.orEmpty (Alert.notes (response a))
                      ++ JSString.nl ++ default ""%string n)%string
           else Alert.notes (response a) |}
      (set_status resolved a) in
  Methods.resolve a by_ n w
  = (Ok a', later 1 (withAlerts (<[_id a := a']> (alerts w)) w)).
Proof.
  intros Hn. unfold Methods.resolve, bind, Date_now. cbn.
  rewrite save_old by exact Hn. reflexivity.
Qed.

(** [markAsFalsePositive] on a stored document, in full. *)
Lemma markAsFalsePositive_run (a : t) (by_ : string) (n : option string)
  (w : World) :
  isNew a = false ->
  let a' :=
    set_response
      {| acknowledgedBy := acknowledgedBy (response a);
         acknowledgedAt := acknowledgedAt (response a);
         resolvedBy := Some by_;
         resolvedAt := Some (clock w (reads w));
         responseTime := responseTime (response a);
         Alert.notes :=
           Some (JSString.orEmpty (Alert.notes (response a))
                 ++ JSString.nl ++ "Marked as false positive: "
                 ++ default ""%string n)%string |}
      (set_status false_positive a) in
  Methods.markAsFalsePositive a by_ n w
  = (Ok a', later 1 (withAlerts (<[_id a := a']> (alerts w)) w)).
Proof.
  intros Hn. unfold Methods.markAsFalsePositive, bind, Date_now. cbn.
  rewrite save_old by exact Hn. reflexivity.
Qed.

(** The goal is [updated w w'] where [w'] holds one write over [w]. *)
Ltac one_write k a :=
  split; [reflexivity | split; [reflexivity | right]];
  eexists k, a, _; split; [eassumption | split; [reflexivity |]].

Lemma putAcknowledge_updated (req : Request) (w : World) :
  consistent w -> updated w (snd (putAcknowledge req w)).
Proof.
  intros (Hwf & _ & Hin). unfold putAcknowledge, tryCatch, bind, findById.
  destruct (alerts w !! alertId req) as [alert |] eqn:E;
    [| apply updated_same; reflexivity].
  destruct (accessDenied (user req) alert);
    [apply updated_same; reflexivity |].
  destruct (negb (Status_eqb (status alert) active)) eqn:Hst;
    [apply updated_same; reflexivity |].
  apply Status_eqb_active in Hst.
  destruct (Hwf _ _ E) as ((Hid & Hn & c & Hc) & Hb).
  destruct (Hin _ _ E) as (Hsev & Hrules & Hmax & Hlvl & Hack).
  rewrite (acknowledge_saved alert _ _ w c Hn Hc). cbn [snd].
  rewrite Hid. one_write (alertId req) alert.
  split; [| split; [| split]].
  - unfold evolves. cbn.
    repeat match goal with |- _ /\ _ => split end;
      try reflexivity; try lia.
    + intros Hna. contradiction.
    + intros Ha. exfalso. exact (Hack Ha Hst).
  - unfold ingested. cbn. repeat split; try assumption. discriminate.
  - repeat split; cbn; [exact Hid | exact Hn | eauto].
  - exact Hb.
Qed.

Lemma putResolve_updated (req : Request) (w : World) :
  consistent w -> updated w (snd (putResolve req w)).
Proof.
  intros (Hwf & _ & Hin). unfold putResolve, tryCatch, bind, findById.
  destruct (alerts w !! alertId req) as [alert |] eqn:E;
    [| apply updated_same; reflexivity].
  destruct (accessDenied (user req) alert);
    [apply updated_same; reflexivity |].
  destruct (Hwf _ _ E) as ((Hid & Hn & Hc) & Hb).
  destruct (Hin _ _ E) as (Hsev & Hrules & Hmax & Hlvl & Hack).
  rewrite (resolve_run alert _ _ w Hn). cbn [snd].
  rewrite Hid. one_write (alertId req) alert.
  split; [| split; [| split]].
  - unfold evolves. cbn.
    repeat match goal with |- _ /\ _ => split end;
      try reflexivity; try lia.
    + intros _. discriminate.
    + intros _. repeat split.
  - unfold ingested. cbn. repeat split; try assumption. discriminate.
  - repeat split; cbn; assumption.
  - exact Hb.
Qed.

Lemma putFalsePositive_updated (req : Request) (w : World) :
  consistent w -> updated w (snd (putFalsePositive req w)).
Proof.
  intros (Hwf & _ & Hin).
  unfold putFalsePositive, tryCatch, bind, findById.
  destruct (alerts w !! alertId req) as [alert |] eqn:E;
    [| apply updated_same; reflexivity].
  destruct (accessDenied (user req) alert);
    [apply updated_same; reflexivity |].
  destruct (Hwf _ _ E) as ((Hid & Hn & Hc) & Hb).
  destruct (Hin _ _ E) as (Hsev & Hrules & Hmax & Hlvl & Hack).
  rewrite (markAsFalsePositive_run alert _ _ w Hn). cbn [snd].
  rewrite Hid. one_write (alertId req) alert.
  split; [| split; [| split]].
  - unfold evolves. cbn.
    repeat match goal with |- _ /\ _ => split end;
      try reflexivity; try lia.
    + intros _. discriminate.
    + intros _. repeat split.
  - unfold ingested. cbn. repeat split; try assumption. discriminate.
  - repeat split; cbn; assumption.
  - exact Hb.
Qed.

Lemma escalateStored_updated (k : ObjectId) (w : World) :
  consistent w -> updated w (snd (escalateStored k w)).
Proof.
  intros (Hwf & _ & Hin). unfold escalateStored, bind, findById.
  destruct (alerts w !! k) as [alert |] eqn:E;
    [| apply updated_same; reflexivity].
  destruct (Hwf _ _ E) as ((Hid & Hn & Hc) & Hb).
  destruct (Hin _ _ E) as (Hsev & Hrules & Hmax & Hlvl & Hack).
  destruct (Z_lt_le_dec (level (escalation alert))
              (maxEscalationLevel (escalation alert))) as [Hlt | Hge].
  - rewrite (escalate_below alert w Hn Hlt). cbn [snd].
    rewrite Hid. one_write k alert.
    split; [| split; [| split]].
    + unfold evolves. cbn.
      repeat match goal with |- _ /\ _ => split end;
        try reflexivity; try lia.
      * intros Hna; exact Hna.
      * intros _. repeat split.
    + unfold ingested. cbn. repeat split; try assumption. lia.
    + repeat split; cbn; assumption.
    + unfold bounded. cbn. lia.
  - rewrite (escalate_at_max alert w Hge). apply updated_same; reflexivity.
Qed.

(** The document the ingestion saves for an emergency. *)
Lemma first_save_newborn (k : ObjectId) (d : SensorData.t)
  (e : SensorData.Emergency) (w : World) :
  SensorData.severity e = warning \/ SensorData.severity e = critical ->
  Methods.required (new k (alertInput d e)) = true ->
  exists a',
    Methods.save (new k (alertInput d e)) w
    = (Ok a', later 1 (withAlerts (<[k := a']> (alerts w)) w)) /\
    newborn d e a' /\ createdAt a' = Some (clock w (reads w)) /\
    saved k a' /\ bounded a' /\ ingested a'.
Proof.
  intros Hsev Hreq. rewrite save_new by (reflexivity || exact Hreq).
  cbv zeta.
  eexists. split; [reflexivity |].
  unfold newborn, saved, bounded, ingested, preSave, new, alertInput.
  cbn. destruct Hsev as [-> | ->]; cbn;
    repeat match goal with |- _ /\ _ => split end;
    try reflexivity; try lia; eauto; try discriminate;
    intros H; contradiction.
Qed.



Lemma check_severities (d : SensorData.t) (e : SensorData.Emergency) :
  In e (SensorData.checkEmergencyConditions d) ->
  SensorData.severity e = warning \/ SensorData.severity e = critical.
Proof.
  intros H.
  destruct (EvaluatorMore.in_check_classified e d H) as (f & _ & Hty & Hc).
  destruct f; cbn in Hc;
    try (destruct Hc as (v & _ & ->);
         match goal with
         | |- context [if ?b then _ else _] => destruct b
         end; auto).
  destruct Hc as (-> & _). auto.
Qed.


Lemma consistent_later (n : nat) (w : World) :
  consistent w -> consistent (later n w).
Proof. intros H. exact H. Qed.

(** The loop of the ingestion, whether it runs through or stops at a
    save that is rejected, keeps the state consistent and every stored
    alert as it is. *)
Lemma createAlerts_keeps (d : SensorData.t)
  (es : list SensorData.Emergency) (w : World) :
  (forall e, In e es ->
             SensorData.severity e = warning
             \/ SensorData.severity e = critical) ->
  consistent w ->
  exists r w',
    createAlerts d es w = (r, w') /\ consistent w' /\
    clock w' = clock w /\
    forall k a, alerts w !! k = Some a -> alerts w' !! k = Some a.
Proof.
  revert w. induction es as [| e es IH]; intros w Hsev Hc.
  - exists (Ok tt), w. cbn. auto.
  - cbn [createAlerts]. unfold bind at 1. unfold freshId at 1.
    unfold bind at 1. destruct Hc as (Hwf & Hfr & Hin).
    destruct (Methods.required (new (nextId w) (alertInput d e)))
      eqn:Hreq.
    + destruct (first_save_newborn (nextId w) d e
                  {| alerts := alerts w; clock := clock w;
                     reads := reads w; nextId := N.succ (nextId w) |}
                  (Hsev e (or_introl eq_refl)) Hreq)
        as (a0 & Hrun & _ & _ & Hsv & Hbd & Hig).
      rewrite Hrun.
      match goal with
      | |- context [createAlerts d es ?w1] =>
          destruct (IH w1 (fun e' He' => Hsev e' (or_intror He')))
            as (r & w' & Hrun' & Hc' & Hclk & Hkeep)
      end.
      * split; [| split]; intros k a Hk; cbn in Hk |- *.
        -- destruct (decide (nextId w = k)) as [<- | Hne].
           ++ rewrite lookup_insert_eq in Hk. injection Hk as <-.
              split; assumption.
           ++ rewrite lookup_insert_ne in Hk by exact Hne.
              exact (Hwf _ _ Hk).
        -- destruct (decide (nextId w = k)) as [<- | Hne]; [lia |].
           rewrite lookup_insert_ne in Hk by exact Hne.
           apply Hfr in Hk. lia.
        -- destruct (decide (nextId w = k)) as [<- | Hne].
           ++ rewrite lookup_insert_eq in Hk. injection Hk as <-.
              exact Hig.
           ++ rewrite lookup_insert_ne in Hk by exact Hne.
              exact (Hin _ _ Hk).
      * exists r, w'. rewrite Hrun'. split; [reflexivity |].
        split; [exact Hc' |]. split; [exact Hclk |].
        intros k a Hk. apply Hkeep. cbn.
        rewrite lookup_insert_ne; [exact Hk |].
        apply Hfr in Hk. lia.
    + rewrite AlertFacts.save_invalid by (reflexivity || exact Hreq).
      eexists. eexists. split; [reflexivity |].
      split; [| split; [reflexivity | intros k a Hk; exact Hk]].
      split; [exact Hwf |]. split; [| exact Hin].
      intros k a Hk. cbn in Hk |- *. apply Hfr in Hk. lia.
Qed.

(** The ingestion keeps the state consistent and every stored alert as it
    is. *)
Lemma postSensor_consistent (d : SensorData.t) (w : World) :
  consistent w ->
  consistent (snd (postSensor d w)) /\
  clock (snd (postSensor d w)) = clock w /\
  forall k a, alerts w !! k = Some a ->
              alerts (snd (postSensor d w)) !! k = Some a.
Proof.
  intros Hc. rewrite AlertFacts.postSensor_run.
  destruct (negb (sensorDataValidation d)); [cbn; auto |].
  destruct (negb (minMax 0 100 _ && _)); [cbn; auto |].
  destruct (negb (validSensorData d)); [cbn; auto |].
  destruct (createAlerts_keeps (stamped (clock w (reads w)) d)
              (SensorData.checkEmergencyConditions d) (later 3 w)
              (check_severities d) (consistent_later 3 w Hc))
    as (r & w' & -> & Hc' & Hclk & Hkeep).
  destruct r; cbn [snd]; auto.
Qed.

Lemma consistent_start (clk : nat -> Z) : consistent (start clk).
Proof.
  split; [apply wellFormed_start |].
  split; intros k a Hk; cbn in Hk; rewrite lookup_empty in Hk;
    discriminate.
Qed.

Lemma step_consistent (op : Op) (w : World) :
  consistent w -> consistent (step op w).
Proof.
  intros Hc. destruct op; cbn [step].
  - apply postSensor_consistent, Hc.
  - exact (updated_consistent _ _ Hc (putAcknowledge_updated _ _ Hc)).
  - exact (updated_consistent _ _ Hc (putResolve_updated _ _ Hc)).
  - exact (updated_consistent _ _ Hc (putFalsePositive_updated _ _ Hc)).
  - exact (updated_consistent _ _ Hc (escalateStored_updated _ _ Hc)).
Qed.

Lemma step_evolves (op : Op) (w : World) (k : ObjectId) (a : t) :
  consistent w -> alerts w !! k = Some a ->
  exists a', alerts (step op w) !! k = Some a' /\ evolves a a'.
Proof.
  intros Hc Hk. destruct op; cbn [step].
  - exists a. split; [| apply evolves_refl].
    apply (proj2 (proj2 (postSensor_consistent sensorData w Hc))), Hk.
  - exact (updated_lookup _ _ _ _ (putAcknowledge_updated _ _ Hc) Hk).
  - exact (updated_lookup _ _ _ _ (putResolve_updated _ _ Hc) Hk).
  - exact (updated_lookup _ _ _ _ (putFalsePositive_updated _ _ Hc) Hk).
  - exact (updated_lookup _ _ _ _ (escalateStored_updated _ _ Hc) Hk).
Qed.

Lemma run_consistent (ops : list Op) (w : World) :
  consistent w -> consistent (run ops w).
Proof.
  revert w. induction ops as [| op ops IH]; intros w Hc; [exact Hc |].
  cbn. apply IH, step_consistent, Hc.
Qed.

(** Whatever the operations, a stored alert is still stored afterwards,
    in a later state. *)
Lemma run_evolves (ops : list Op) (w : World) (k : ObjectId) (a : t) :
  consistent w -> alerts w !! k = Some a ->
  exists a', alerts (run ops w) !! k = Some a' /\ evolves a a'.
Proof.
  revert w a. induction ops as [| op ops IH]; intros w a Hc Hk.
  - exists a. split; [exact Hk | apply evolves_refl].
  - cbn. destruct (step_evolves op w k a Hc Hk) as (a1 & Hk1 & He1).
    destruct (IH (step op w) a1 (step_consistent op w Hc) Hk1)
      as (a' & Hk' & He').
    exists a'. split; [exact Hk' | exact (evolves_trans _ _ _ He1 He')].
Qed.

Lemma run_app (ops1 ops2 : list Op) (w : World) :
  run (ops1 ++ ops2) w = run ops2 (run ops1 w).
Proof. unfold run. apply fold_left_app. Qed.

(** *** Requests that are refused *)

(** Whatever identifiers Mongoose's cast reads: a request whose
    [:alertId] is no ObjectId is answered 500 by each of the three
    lifecycle routes and by the route that fetches an alert, the
    CastError of the query being caught; a request whose [:alertId] is
    the identifier of no stored alert is answered 404 "Alert not found";
    both change nothing.  On an identifier the routes are the ones of the
    request read. *)
Theorem unknown_alert_not_found (castObjectId : string -> option ObjectId)
  (req : Params.Raw) (w : World) :
  (castObjectId (Params.param req) = None ->
   Params.putAcknowledgeRaw castObjectId req w
   = (Ok (error 500 "Server error while acknowledging alert"), w) /\
   Params.putResolveRaw castObjectId req w
   = (Ok (error 500 "Server error while resolving alert"), w) /\
   Params.putFalsePositiveRaw castObjectId req w
   = (Ok (error 500 "Server error while marking alert as false positive"),
      w) /\
   Params.getAlertRaw castObjectId req w
   = (Ok (Queries.Fail 500 "Server error while retrieving alert"), w)) /\
  (forall k, castObjectId (Params.param req) = Some k ->
     Params.putAcknowledgeRaw castObjectId req w
     = putAcknowledge (Params.cast k req) w /\
     Params.putResolveRaw castObjectId req w
     = putResolve (Params.cast k req) w /\
     Params.putFalsePositiveRaw castObjectId req w
     = putFalsePositive (Params.cast k req) w /\
     Params.getAlertRaw castObjectId req w
     = Queries.getAlert (Params.cast k req) w) /\
  (forall k, castObjectId (Params.param req) = Some k ->
     alerts w !! k = None ->
     Params.putAcknowledgeRaw castObjectId req w
     = (Ok (error 404 "Alert not found"), w) /\
     Params.putResolveRaw castObjectId req w
     = (Ok (error 404 "Alert not found"), w) /\
     Params.putFalsePositiveRaw castObjectId req w
     = (Ok (error 404 "Alert not found"), w) /\
     Params.getAlertRaw castObjectId req w
     = (Ok (Queries.Fail 404 "Alert not found"), w)).
Proof.
  unfold Params.putAcknowledgeRaw, Params.putResolveRaw, Params.putFalsePositiveRaw,
    Params.getAlertRaw, Params.findByParam.
  split; [| split].
  - intros ->. repeat split.
  - intros k ->. repeat split.
  - intros k -> E. unfold tryCatch, bind, findById. rewrite E.
    repeat split.
Qed.

Lemma unknown_alert_not_found_witness :
  Params.hexObjectId "not-an-id" = None /\
  Params.putResolveRaw Params.hexObjectId (Params.raw "not-an-id") afterIngest
  = (Ok (error 500 "Server error while resolving alert"), afterIngest) /\
  Params.hexObjectId "000000000000000000000009" = Some 9%N /\
  alerts afterIngest !! 9%N = None /\
  Params.putResolveRaw Params.hexObjectId
    (Params.raw "000000000000000000000009") afterIngest
  = (Ok (error 404 "Alert not found"), afterIngest).
Proof.
  assert (Hbad : Params.hexObjectId "not-an-id" = None) by reflexivity.
  assert (Hgood : Params.hexObjectId "000000000000000000000009"
                  = Some 9%N) by reflexivity.
  assert (E : alerts afterIngest !! 9%N = None)
    by (vm_compute; reflexivity).
  destruct (unknown_alert_not_found Params.hexObjectId
              (Params.raw "not-an-id") afterIngest) as (H500 & _ & _).
  destruct (unknown_alert_not_found Params.hexObjectId
              (Params.raw "000000000000000000000009") afterIngest)
    as (_ & _ & H404).
  split; [exact Hbad |].
  split; [exact (proj1 (proj2 (H500 Hbad))) |].
  split; [exact Hgood |]. split; [exact E |].
  exact (proj1 (proj2 (H404 9%N Hgood E))).
Defined.

Lemma accessDenied_true (u : User) (a : t) :
  accessDenied u a = true <->
  role u <> "admin"%string /\ ~ In (deviceId a) (devices u).
Proof.
  unfold accessDenied.
  destruct (String.eqb_spec (role u) "admin") as [Hr | Hr]; cbn.
  - split; [discriminate | intros [H _]; contradiction].
  - rewrite negb_true_iff. split.
    + intros Hex. split; [exact Hr |]. intros Hin.
      assert (Ht : existsb (fun d => String.eqb d (deviceId a)) (devices u)
                   = true).
      { apply existsb_exists. exists (deviceId a).
        split; [exact Hin | apply String.eqb_refl]. }
      congruence.
    + intros [_ Hnin].
      destruct (existsb (fun d => String.eqb d (deviceId a)) (devices u))
        eqn:Hex; [| reflexivity].
      apply existsb_exists in Hex. destruct Hex as (d & Hd & Heq).
      apply String.eqb_eq in Heq. subst d. contradiction.
Qed.

(** A user who is not an administrator and holds no device with the
    alert's device identifier is answered 403 by each of the three
    lifecycle routes, and the alert stays as it is. *)
Theorem foreign_alert_refused (req : Request) (w : World) (alert : t) :
  alerts w !! alertId req = Some alert ->
  role (user req) <> "admin"%string ->
  ~ In (deviceId alert) (devices (user req)) ->
  putAcknowledge req w
  = (Ok (error 403 "Access denied to this alert"), w) /\
  putResolve req w = (Ok (error 403 "Access denied to this alert"), w) /\
  putFalsePositive req w
  = (Ok (error 403 "Access denied to this alert"), w).
Proof.
  intros E Hr Hd.
  assert (Hacc : accessDenied (user req) alert = true)
    by (apply accessDenied_true; split; assumption).
  unfold putAcknowledge, putResolve, putFalsePositive, tryCatch, bind,
    findById.
  rewrite E, Hacc. repeat split.
Qed.

Lemma foreign_alert_refused_witness :
  exists alert,
    alerts afterIngest !! 0%N = Some alert /\
    putFalsePositive (Scenes.strangerRequest 0%N) afterIngest
    = (Ok (error 403 "Access denied to this alert"), afterIngest).
Proof.
  destruct (alerts afterIngest !! 0%N) as [alert |] eqn:E;
    [| vm_compute in E; discriminate].
  exists alert. split; [reflexivity |].
  refine (proj2 (proj2 (foreign_alert_refused (Scenes.strangerRequest 0%N)
                          afterIngest alert E _ _))).
  - discriminate.
  - vm_compute in E. injection E as <-. cbn.
    intros [H | []]. discriminate.
Defined.

(** *** What an operation leaves alone *)

Lemma lifecycle_frame (op : Op) (w : World) (t0 : ObjectId) :
  wellFormed w -> target op = Some t0 ->
  alerts (step op w) = alerts w \/
  exists a', alerts (step op w) = <[t0 := a']> (alerts w).
Proof.
  intros Hwf Ht. destruct op as [d | req | req | req | j]; cbn in Ht;
    try discriminate; injection Ht as <-; cbn [step].
  - unfold putAcknowledge, tryCatch, bind, findById.
    destruct (alerts w !! alertId req) as [alert |] eqn:E; [| left; reflexivity].
    destruct (accessDenied (user req) alert); [left; reflexivity |].
    destruct (negb (Status_eqb (status alert) active));
      [left; reflexivity |].
    destruct (Hwf _ _ E) as ((Hid & Hn & c & Hc) & _).
    rewrite (acknowledge_saved alert _ _ w c Hn Hc). cbn [snd].
    rewrite Hid. right. eexists. reflexivity.
  - unfold putResolve, tryCatch, bind, findById.
    destruct (alerts w !! alertId req) as [alert |] eqn:E; [| left; reflexivity].
    destruct (accessDenied (user req) alert); [left; reflexivity |].
    destruct (Hwf _ _ E) as ((Hid & Hn & _) & _).
    rewrite (resolve_run alert _ _ w Hn). cbn [snd].
    rewrite Hid. right. eexists. reflexivity.
  - unfold putFalsePositive, tryCatch, bind, findById.
    destruct (alerts w !! alertId req) as [alert |] eqn:E; [| left; reflexivity].
    destruct (accessDenied (user req) alert); [left; reflexivity |].
    destruct (Hwf _ _ E) as ((Hid & Hn & _) & _).
    rewrite (markAsFalsePositive_run alert _ _ w Hn). cbn [snd].
    rewrite Hid. right. eexists. reflexivity.
  - unfold escalateStored, bind, findById.
    destruct (alerts w !! j) as [alert |] eqn:E; [| left; reflexivity].
    destruct (Hwf _ _ E) as ((Hid & Hn & _) & _).
    destruct (Z_lt_le_dec (level (escalation alert))
                (maxEscalationLevel (escalation alert))) as [Hlt | Hge].
    + rewrite (escalate_below alert w Hn Hlt). cbn [snd].
      rewrite Hid. right. eexists. reflexivity.
    + rewrite (escalate_at_max alert w Hge). left. reflexivity.
Qed.

(** A lifecycle request or an escalation changes no alert but the one it
    addresses, creates none and deletes none. *)
Theorem operation_touches_only_its_alert (ops : list Op)
  (clk : nat -> Z) (op : Op) (t0 k : ObjectId) :
  target op = Some t0 -> k <> t0 ->
  alerts (step op (run ops (start clk))) !! k
  = alerts (run ops (start clk)) !! k /\
  dom (alerts (step op (run ops (start clk))))
  = dom (alerts (run ops (start clk))).
Proof.
  intros Ht Hne.
  assert (Hc : consistent (run ops (start clk)))
    by apply run_consistent, consistent_start.
  pose proof (lifecycle_frame op _ t0 (proj1 Hc) Ht) as Hf.
  assert (Hup : updated (run ops (start clk))
                  (step op (run ops (start clk)))).
  { destruct op; cbn in Ht; try discriminate; cbn [step].
    - apply putAcknowledge_updated, Hc.
    - apply putResolve_updated, Hc.
    - apply putFalsePositive_updated, Hc.
    - apply escalateStored_updated, Hc. }
  split.
  - destruct Hf as [-> | (a' & ->)]; [reflexivity |].
    apply lookup_insert_ne. congruence.
  - destruct Hup as (_ & _ & [-> | (j & a & a' & Hj & -> & _)]);
      [reflexivity |].
    rewrite dom_insert_L. apply subseteq_union_1_L.
    apply singleton_subseteq_l, elem_of_dom. eauto.
Qed.

Lemma operation_touches_only_its_alert_witness :
  alerts (step (PutResolve (request 0%N)) (run Scenes.before (start clk0)))
    !! 1%N
  = alerts (run Scenes.before (start clk0)) !! 1%N.
Proof.
  refine (proj1 (operation_touches_only_its_alert Scenes.before clk0
                   (PutResolve (request 0%N)) 0%N 1%N eq_refl _)).
  discriminate.
Defined.

(** *** Ingestion *)
















(** *** What every run keeps *)

Lemma reachable_evolves (clk : nat -> Z) (ops1 ops2 : list Op)
  (k : ObjectId) (a : t) :
  alerts (run ops1 (start clk)) !! k = Some a ->
  exists a',
    alerts (run ops2 (run ops1 (start clk))) !! k = Some a' /\
    evolves a a' /\ ingested a /\ bounded a /\ bounded a'.
Proof.
  intros Hk.
  assert (Hc : consistent (run ops1 (start clk)))
    by apply run_consistent, consistent_start.
  destruct (run_evolves ops2 _ k a Hc Hk) as (a' & Hk' & He).
  exists a'. split; [exact Hk' |]. split; [exact He |].
  split; [exact (proj2 (proj2 Hc) _ _ Hk) |].
  split; [exact (proj2 (proj1 Hc _ _ Hk)) |].
  pose proof (run_consistent ops2 _ Hc) as Hc'.
  exact (proj2 (proj1 Hc' _ _ Hk')).
Qed.

(** No ingestion, lifecycle request or escalation deletes a stored alert
    or changes what identifies it: its device, type, severity, title,
    message, creation timestamp, escalation rules and maximum level stay
    as they were, whatever the operations that follow. *)
Theorem stored_alert_kept_with_its_identity (clk : nat -> Z)
  (ops1 ops2 : list Op) (k : ObjectId) (a : t) :
  alerts (run ops1 (start clk)) !! k = Some a ->
  exists a',
    alerts (run ops2 (run ops1 (start clk))) !! k = Some a' /\
    deviceId a' = deviceId a /\ deviceName a' = deviceName a /\
    type a' = type a /\ severity a' = severity a /\
    title a' = title a /\ message a' = message a /\
    createdAt a' = createdAt a /\
    escalationRules (escalation a') = escalationRules (escalation a) /\
    maxEscalationLevel (escalation a') = maxEscalationLevel (escalation a).
Proof.
  intros Hk.
  destruct (reachable_evolves clk ops1 ops2 k a Hk) as (a' & Hk' & He & _).
  destruct He as (_ & H2 & H3 & H4 & H5 & H6 & H7 & H8 & H9 & H10 & _).
  exists a'. repeat split; assumption.
Qed.

Lemma stored_alert_kept_with_its_identity_witness :
  exists a a',
    alerts (run Scenes.before (start clk0)) !! 0%N = Some a /\
    alerts (run Scenes.after (run Scenes.before (start clk0))) !! 0%N
    = Some a' /\
    createdAt a' = createdAt a /\ severity a' = severity a.
Proof.
  destruct (alerts (run Scenes.before (start clk0)) !! 0%N) as [a |] eqn:E;
    [| vm_compute in E; discriminate].
  destruct (stored_alert_kept_with_its_identity clk0 Scenes.before
              Scenes.after 0%N a E)
    as (a' & Hk' & _ & _ & _ & Hs & _ & _ & Hc & _).
  exists a, a'. repeat split; assumption.
Defined.

(** An alert that has left the active state never returns to it: no
    operation sets the status back to active. *)
Theorem alert_never_returns_to_active (clk : nat -> Z)
  (ops1 ops2 : list Op) (k : ObjectId) (a : t) :
  alerts (run ops1 (start clk)) !! k = Some a ->
  status a <> active ->
  exists a',
    alerts (run ops2 (run ops1 (start clk))) !! k = Some a' /\
    status a' <> active.
Proof.
  intros Hk Hst.
  destruct (reachable_evolves clk ops1 ops2 k a Hk) as (a' & Hk' & He & _).
  exists a'. split; [exact Hk' |].
  exact (proj1 (proj2 (proj2 (proj2 (proj2 (proj2 (proj2 (proj2 (proj2
           (proj2 (proj2 (proj2 He))))))))))) Hst).
Qed.

Lemma alert_never_returns_to_active_witness :
  exists a a',
    alerts (run Scenes.before (start clk0)) !! 0%N = Some a /\
    status a = acknowledged /\
    alerts (run Scenes.after (run Scenes.before (start clk0))) !! 0%N
    = Some a' /\
    status a' <> active.
Proof.
  destruct (alerts (run Scenes.before (start clk0)) !! 0%N) as [a |] eqn:E;
    [| vm_compute in E; discriminate].
  assert (Hst : status a = acknowledged)
    by (vm_compute in E; injection E as <-; reflexivity).
  destruct (alert_never_returns_to_active clk0 Scenes.before Scenes.after
              0%N a E) as (a' & Hk' & Hst').
  - rewrite Hst. discriminate.
  - exists a, a'. repeat split; assumption.
Defined.

(** An acknowledgement is recorded once: from the moment an alert carries
    an acknowledgement timestamp, that timestamp, the acknowledging user
    and the response time never change, whatever the requests that
    follow. *)
Theorem acknowledgement_recorded_once (clk : nat -> Z)
  (ops1 ops2 : list Op) (k : ObjectId) (a : t) (at_ : Z) :
  alerts (run ops1 (start clk)) !! k = Some a ->
  acknowledgedAt (response a) = Some at_ ->
  status a <> active /\
  exists a',
    alerts (run ops2 (run ops1 (start clk))) !! k = Some a' /\
    acknowledgedAt (response a') = Some at_ /\
    acknowledgedBy (response a') = acknowledgedBy (response a) /\
    responseTime (response a') = responseTime (response a).
Proof.
  intros Hk Hat.
  destruct (reachable_evolves clk ops1 ops2 k a Hk)
    as (a' & Hk' & He & Hig & _).
  assert (Hne : acknowledgedAt (response a) <> None) by congruence.
  split; [exact (proj2 (proj2 (proj2 (proj2 Hig))) Hne) |].
  exists a'. split; [exact Hk' |].
  destruct (proj2 (proj2 (proj2 (proj2 (proj2 (proj2 (proj2 (proj2 (proj2
             (proj2 (proj2 (proj2 He))))))))))) Hne) as (H1 & H2 & H3).
  repeat split; congruence.
Qed.

Lemma acknowledgement_recorded_once_witness :
  exists a a',
    alerts (run Scenes.before (start clk0)) !! 0%N = Some a /\
    acknowledgedAt (response a) = Some (clk0 5) /\
    alerts (run Scenes.after (run Scenes.before (start clk0))) !! 0%N
    = Some a' /\
    acknowledgedAt (response a') = Some (clk0 5).
Proof.
  destruct (alerts (run Scenes.before (start clk0)) !! 0%N) as [a |] eqn:E;
    [| vm_compute in E; discriminate].
  assert (Hat : acknowledgedAt (response a) = Some (clk0 5))
    by (vm_compute in E; injection E as <-; reflexivity).
  destruct (acknowledgement_recorded_once clk0 Scenes.before Scenes.after
              0%N a (clk0 5) E Hat) as (_ & a' & Hk' & Hat' & _).
  exists a, a'. repeat split; assumption.
Defined.

(** The escalation level of a stored alert starts at 1, never decreases
    and stays within the maximum level 3 of the alerts the ingestion
    creates. *)
Theorem escalation_level_never_decreases (clk : nat -> Z)
  (ops1 ops2 : list Op) (k : ObjectId) (a : t) :
  alerts (run ops1 (start clk)) !! k = Some a ->
  exists a',
    alerts (run ops2 (run ops1 (start clk))) !! k = Some a' /\
    1 <= level (escalation a) /\
    level (escalation a) <= level (escalation a') /\
    level (escalation a') <= 3.
Proof.
  intros Hk.
  destruct (reachable_evolves clk ops1 ops2 k a Hk)
    as (a' & Hk' & He & Hig & Hb & Hb').
  exists a'. split; [exact Hk' |].
  destruct Hig as (_ & _ & Hmax & Hlvl & _).
  destruct He as (_ & _ & _ & _ & _ & _ & _ & _ & _ & Hmax' & Hle & _).
  unfold bounded in Hb'. repeat split; lia.
Qed.

Lemma escalation_level_never_decreases_witness :
  exists a a',
    alerts (run Scenes.before (start clk0)) !! 1%N = Some a /\
    alerts (run Scenes.after (run Scenes.before (start clk0))) !! 1%N
    = Some a' /\
    level (escalation a) <= level (escalation a').
Proof.
  destruct (alerts (run Scenes.before (start clk0)) !! 1%N) as [a |] eqn:E;
    [| vm_compute in E; discriminate].
  destruct (escalation_level_never_decreases clk0 Scenes.before
              Scenes.after 1%N a E) as (a' & Hk' & _ & Hle & _).
  exists a, a'. repeat split; assumption.
Defined.

(** *** Escalation *)

(** What [needsEscalation()] answers, on an alert with a creation
    timestamp. *)
Lemma needsEscalation_due (a : t) (w : World) (c : Z) :
  createdAt a = Some c ->
  fst (Methods.needsEscalation a w) = Ok (due a (clock w (reads w))).
Proof.
  intros Hc. unfold Methods.needsEscalation, due. fold (nextRule a).
  destruct (Status_eqb (status a) active); cbn [negb andb];
    [| reflexivity].
  destruct (nextRule a) as [r |]; [| reflexivity].
  unfold Methods.ageInMinutes, bind, Date_now, getTime. rewrite Hc.
  reflexivity.
Qed.

Lemma nextRule_seeded (a : t) :
  ingested a -> bounded a ->
  (exists r, nextRule a = Some r) <->
  level (escalation a) < maxEscalationLevel (escalation a).
Proof.
  intros (Hsev & Hrules & Hmax & Hlvl & _) Hb. unfold bounded in Hb.
  unfold nextRule. rewrite Hrules, Hmax in *.
  assert (Hl : level (escalation a) = 1 \/ level (escalation a) = 2
               \/ level (escalation a) = 3) by lia.
  destruct Hsev as [-> | ->]; destruct Hl as [-> | [-> | ->]]; cbn;
    split; intros H; try lia; try (eexists; reflexivity);
    destruct H as (r & H); discriminate.
Qed.

(** On a stored alert, [needsEscalation()] never asks for an escalation
    that [escalate()] would ignore: a rule for the next level exists
    exactly while the level is below the maximum, so when the predicate
    answers true, [escalate()] raises the level by one. *)
Theorem due_alert_can_escalate (clk : nat -> Z) (ops : list Op)
  (k : ObjectId) (a : t) (w1 w2 : World) :
  alerts (run ops (start clk)) !! k = Some a ->
  fst (Methods.needsEscalation a w1) = Ok true ->
  status a = active /\
  level (escalation a) < maxEscalationLevel (escalation a) /\
  exists a',
    fst (Methods.escalate a w2) = Ok a' /\
    level (escalation a') = level (escalation a) + 1.
Proof.
  intros Hk Hdue.
  assert (Hc : consistent (run ops (start clk)))
    by apply run_consistent, consistent_start.
  destruct (proj1 Hc _ _ Hk) as ((_ & Hn & c & Hcr) & Hb).
  pose proof (proj2 (proj2 Hc) _ _ Hk) as Hig.
  rewrite (needsEscalation_due a w1 c Hcr) in Hdue.
  injection Hdue as Hdue. unfold due in Hdue.
  apply andb_true_iff in Hdue. destruct Hdue as [Hst Hr].
  assert (Hst' : status a = active)
    by (destruct (status a); try discriminate; reflexivity).
  assert (Hlt : level (escalation a) < maxEscalationLevel (escalation a)).
  { apply (nextRule_seeded a Hig Hb).
    destruct (nextRule a) as [r |]; [eauto | discriminate]. }
  split; [exact Hst' |]. split; [exact Hlt |].
  rewrite (escalate_below a w2 Hn Hlt). eexists. split; reflexivity.
Qed.

Lemma due_alert_can_escalate_witness :
  exists a a',
    alerts afterResolve !! 1%N = Some a /\
    fst (Methods.needsEscalation a (later 10 afterResolve)) = Ok true /\
    fst (Methods.escalate a afterResolve) = Ok a' /\
    level (escalation a') = 2.
Proof.
  destruct (alerts afterResolve !! 1%N) as [a |] eqn:E;
    [| vm_compute in E; discriminate].
  assert (Hdue : fst (Methods.needsEscalation a (later 10 afterResolve))
                 = Ok true)
    by (vm_compute in E; injection E as <-; vm_compute; reflexivity).
  assert (Hl : level (escalation a) = 1)
    by (vm_compute in E; injection E as <-; reflexivity).
  destruct (due_alert_can_escalate clk0
              [PostSensor Evaluation.twoBreaches; PutResolve (request 0%N)]
              1%N a (later 10 afterResolve) afterResolve E Hdue)
    as (_ & _ & a' & Hrun & Hl').
  exists a, a'. rewrite Hl in Hl'. repeat split; assumption.
Defined.

Lemma minutesSince_mono (c t1 t2 : Z) :
  t1 <= t2 -> minutesSince c t1 <= minutesSince c t2.
Proof.
  intros H. unfold minutesSince. apply Z.div_le_mono; lia.
Qed.

(** Once [needsEscalation()] answers true for an alert, it answers true at
    every later instant, as long as the alert is not changed. *)
Theorem needsEscalation_stays_true (a : t) (w1 w2 : World) (c : Z) :
  createdAt a = Some c ->
  clock w1 (reads w1) <= clock w2 (reads w2) ->
  fst (Methods.needsEscalation a w1) = Ok true ->
  fst (Methods.needsEscalation a w2) = Ok true.
Proof.
  intros Hc Hle. rewrite !(needsEscalation_due a _ c Hc).
  intros [= Hdue]. f_equal. unfold due in *. rewrite Hc in *.
  apply andb_true_iff in Hdue. destruct Hdue as [-> Hr]. cbn.
  destruct (nextRule a) as [r |]; [| discriminate].
  unfold Methods.reached in *.
  destruct (Rule.timeThreshold r) as [th |]; [| discriminate].
  apply Z.leb_le in Hr. apply Z.leb_le.
  pose proof (minutesSince_mono c _ _ Hle). lia.
Qed.

Lemma needsEscalation_stays_true_witness :
  exists a,
    alerts afterResolve !! 1%N = Some a /\
    createdAt a = Some (clk0 4) /\
    fst (Methods.needsEscalation a (later 20 afterResolve)) = Ok true.
Proof.
  destruct (alerts afterResolve !! 1%N) as [a |] eqn:E;
    [| vm_compute in E; discriminate].
  assert (Hc : createdAt a = Some (clk0 4))
    by (vm_compute in E; injection E as <-; reflexivity).
  assert (Hdue : fst (Methods.needsEscalation a (later 10 afterResolve))
                 = Ok true)
    by (vm_compute in E; injection E as <-; vm_compute; reflexivity).
  exists a. split; [reflexivity |]. split; [exact Hc |].
  apply (needsEscalation_stays_true a (later 10 afterResolve)
           (later 20 afterResolve) (clk0 4) Hc); [| exact Hdue].
  vm_compute. discriminate.
Defined.

(** *** Response time *)

(** When the clock does not go back between the two readings of an
    acknowledgement, the virtual [responseTimeMinutes] of the acknowledged
    alert is at most the whole minutes of its [responseTime] in seconds,
    and equal to them when both readings agree; before an acknowledgement
    the virtual is [null]. *)
Theorem response_minutes_within_response_seconds (a : t) (by_ : string)
  (n : option string) (w w2 : World) (c : Z) :
  isNew a = false -> createdAt a = Some c ->
  clock w (reads w) <= clock w (S (reads w)) ->
  exists a' m s,
    fst (Methods.acknowledge a by_ n w) = Ok a' /\
    fst (Helpers.responseTimeMinutes a' w2) = Ok (Some m) /\
    responseTime (response a') = Some s /\
    m <= s / 60 /\
    (clock w (S (reads w)) = clock w (reads w) -> m = s / 60) /\
    (acknowledgedAt (response a) = None ->
     fst (Helpers.responseTimeMinutes a w2) = Ok None).
Proof.
  intros Hn Hc Hle. rewrite (acknowledge_saved a by_ n w c Hn Hc).
  cbv zeta. eexists. eexists. eexists.
  split; [reflexivity |].
  unfold Helpers.responseTimeMinutes, bind, getTime. cbn. rewrite Hc. cbn.
  split; [reflexivity |]. split; [reflexivity |].
  unfold secondsSince. rewrite Z.div_div by lia.
  split; [apply Z.div_le_mono; lia |].
  split; [intros ->; reflexivity |].
  intros ->. reflexivity.
Qed.

Lemma response_minutes_within_response_seconds_witness :
  exists a a' m,
    alerts afterIngest !! 0%N = Some a /\
    fst (Methods.acknowledge a "admin-1" None afterIngest) = Ok a' /\
    fst (Helpers.responseTimeMinutes a' afterIngest) = Ok (Some m) /\
    m <= 3.
Proof.
  destruct (alerts afterIngest !! 0%N) as [a |] eqn:E;
    [| vm_compute in E; discriminate].
  assert (Hn : isNew a = false)
    by (vm_compute in E; injection E as <-; reflexivity).
  assert (Hc : createdAt a = Some (clk0 3))
    by (vm_compute in E; injection E as <-; reflexivity).
  destruct (response_minutes_within_response_seconds a "admin-1" None
              afterIngest afterIngest (clk0 3) Hn Hc)
    as (a' & m & s & Hrun & Hm & Hs & Hle & _).
  - vm_compute. discriminate.
  - exists a, a', m. split; [reflexivity |]. split; [exact Hrun |].
    split; [exact Hm |].
    rewrite (acknowledge_saved a _ _ afterIngest (clk0 3) Hn Hc) in Hrun.
    cbv zeta in Hrun. cbn [fst] in Hrun. injection Hrun as <-.
    cbn in Hs. injection Hs as <-.
    etransitivity; [exact Hle |]. vm_compute. discriminate.
Defined.

(** *** Notes *)

Lemma putAcknowledge_run (req : Request) (w : World) (alert : t) (c : Z) :
  alerts w !! alertId req = Some alert -> _id alert = alertId req ->
  isNew alert = false -> createdAt alert = Some c ->
  accessDenied (user req) alert = false -> status alert = active ->
  let a' :=
    set_response
      {| acknowledgedBy := Some (id (user req));
         acknowledgedAt := Some (clock w (reads w));
         resolvedBy := resolvedBy (response alert);
         resolvedAt := resolvedAt (response alert);
         responseTime := Some (secondsSince c (clock w (S (reads w))));
         Alert.notes :=
           if JSString.truthy (default ""%string (Routes.notes req))
           then Some (default ""%string (Routes.notes req))
           else Alert.notes (response alert) |}
      (set_status acknowledged alert) in
  step (PutAcknowledge req) w
  = later 2 (withAlerts (<[alertId req := a']> (alerts w)) w).
Proof.
  intros E Hid Hn Hc Hacc Hst. cbn [step].
  unfold putAcknowledge, tryCatch, bind, findById.
  rewrite E, Hacc, Hst. cbn [Status_eqb negb].
  rewrite (acknowledge_saved alert _ _ w c Hn Hc), Hid. reflexivity.
Qed.

Lemma putResolve_run (req : Request) (w : World) (alert : t) :
  alerts w !! alertId req = Some alert -> _id alert = alertId req ->
  isNew alert = false -> accessDenied (user req) alert = false ->
  let a' :=
    set_response
      {| acknowledgedBy := acknowledgedBy (response alert);
         acknowledgedAt := acknowledgedAt (response alert);
         resolvedBy := Some (id (user req));
         resolvedAt := Some (clock w (reads w));
         responseTime := responseTime (response alert);
         Alert.notes :=
           if JSString.truthy (default ""%string (Routes.notes req))
           then Some (JSString.orEmpty (Alert.notes (response alert))
                      ++ JSString.nl
                      ++ default ""%string (Routes.notes req))%string
           else Alert.notes (response alert) |}
      (set_status resolved alert) in
  step (PutResolve req) w
  = later 1 (withAlerts (<[alertId req := a']> (alerts w)) w).
Proof.
  intros E Hid Hn Hacc. cbn [step].
  unfold putResolve, tryCatch, bind, findById.
  rewrite E, Hacc, (resolve_run alert _ _ w Hn), Hid. reflexivity.
Qed.

Lemma putFalsePositive_run (req : Request) (w : World) (alert : t) :
  alerts w !! alertId req = Some alert -> _id alert = alertId req ->
  isNew alert = false -> accessDenied (user req) alert = false ->
  let a' :=
    set_response
      {| acknowledgedBy := acknowledgedBy (response alert);
         acknowledgedAt := acknowledgedAt (response alert);
         resolvedBy := Some (id (user req));
         resolvedAt := Some (clock w (reads w));
         responseTime := responseTime (response alert);
         Alert.notes :=
           Some (JSString.orEmpty (Alert.notes (response alert))
                 ++ JSString.nl ++ "Marked as false positive: "
                 ++ default ""%string (Routes.notes req))%string |}
      (set_status false_positive alert) in
  step (PutFalsePositive req) w
  = later 1 (withAlerts (<[alertId req := a']> (alerts w)) w).
Proof.
  intros E Hid Hn Hacc. cbn [step].
  unfold putFalsePositive, tryCatch, bind, findById.
  rewrite E, Hacc, (markAsFalsePositive_run alert _ _ w Hn), Hid.
  reflexivity.
Qed.

Lemma append_assoc (a b c : string) :
  ((a ++ b) ++ c = a ++ (b ++ c))%string.
Proof.
  induction a as [| x a IH]; [reflexivity |].
  change (String x ((a ++ b) ++ c) = String x (a ++ (b ++ c)))%string.
  f_equal. exact IH.
Qed.

(** Through a whole lifecycle the notes pile up: after an acknowledgement
    with notes [n1], a resolution with notes [n2] and a false-positive
    mark with notes [n3] by a user with access, an active alert carries
    [n1] (the acknowledgement replaces what notes there were), a line
    feed, [n2], a line feed and "Marked as false positive: " followed by
    [n3]; it ends as false_positive, with the acknowledgement of the
    first request and the resolution timestamp of the last. *)
Theorem lifecycle_notes_accumulate (w : World) (k : ObjectId) (a : t)
  (u : User) (n1 n2 n3 : string) :
  wellFormed w -> alerts w !! k = Some a ->
  status a = active -> accessDenied u a = false ->
  n1 <> ""%string -> n2 <> ""%string ->
  exists a',
    alerts
      (run [PutAcknowledge
              {| alertId := k; user := u; Routes.notes := Some n1 |};
            PutResolve
              {| alertId := k; user := u; Routes.notes := Some n2 |};
            PutFalsePositive
              {| alertId := k; user := u; Routes.notes := Some n3 |}] w)
      !! k = Some a' /\
    status a' = false_positive /\
    Alert.notes (response a')
    = Some (n1 ++ JSString.nl ++ n2 ++ JSString.nl
            ++ "Marked as false positive: " ++ n3)%string /\
    acknowledgedAt (response a') = Some (clock w (reads w)) /\
    resolvedAt (response a') = Some (clock w (3 + reads w)%nat).
Proof.
  intros Hwf Hk Hst Hacc Hn1 Hn2.
  destruct (Hwf _ _ Hk) as ((Hid & Hn & c & Hc) & _).
  assert (Ht : forall s : string, s <> ""%string -> JSString.truthy s = true)
    by (intros [| x s] Hs; [contradiction | reflexivity]).
  unfold run. cbn [fold_left].
  rewrite (putAcknowledge_run
             {| alertId := k; user := u; Routes.notes := Some n1 |}
             w a c Hk Hid Hn Hc Hacc Hst).
  cbv zeta.
  match goal with
  | |- context [step (PutResolve ?r) ?w1] =>
      rewrite (putResolve_run r w1
                 (set_response _ (set_status acknowledged a))
                 (lookup_insert_eq _ _ _) Hid Hn Hacc)
  end.
  cbv zeta.
  match goal with
  | |- context [step (PutFalsePositive ?r) ?w1] =>
      rewrite (putFalsePositive_run r w1
                 (set_response _ (set_status resolved
                    (set_response _ (set_status acknowledged a))))
                 (lookup_insert_eq _ _ _) Hid Hn Hacc)
  end.
  cbv zeta. cbn [alertId alerts later withAlerts].
  rewrite lookup_insert_eq. eexists. split; [reflexivity |].
  cbn. rewrite (Ht n2 Hn2), (Ht n1 Hn1). cbn. rewrite (Ht n1 Hn1).
  assert (Ha : forall s r : string,
             s <> ""%string -> JSString.truthy (s ++ r) = true)
    by (intros [| x s] r Hs; [contradiction | reflexivity]).
  rewrite (Ha n1 _ Hn1). repeat split.
  rewrite !append_assoc. reflexivity.
Qed.

Lemma lifecycle_notes_accumulate_witness :
  exists a a',
    alerts afterIngest !! 0%N = Some a /\
    alerts
      (run [PutAcknowledge
              {| alertId := 0%N; user := operator;
                 Routes.notes := Some "seen"%string |};
            PutResolve
              {| alertId := 0%N; user := operator;
                 Routes.notes := Some "rested"%string |};
            PutFalsePositive
              {| alertId := 0%N; user := operator;
                 Routes.notes := Some "loose strap"%string |}] afterIngest)
      !! 0%N = Some a' /\
    status a' = false_positive.
Proof.
  destruct (alerts afterIngest !! 0%N) as [a |] eqn:E;
    [| vm_compute in E; discriminate].
  assert (Hwf : wellFormed afterIngest)
    by apply run_wellFormed, wellFormed_start.
  destruct (lifecycle_notes_accumulate afterIngest 0%N a operator
              "seen" "rested" "loose strap" Hwf E)
    as (a' & Hk' & Hst' & _);
    try (vm_compute in E; injection E as <-; reflexivity);
    try discriminate.
  exists a, a'. repeat split; assumption.
Defined.

End HistoryFacts.

(** ** The reading routes and the bulk deletion *)

Module QueryFacts.

Import Alert Routes Lifecycle Queries.

Lemma in_firstn {A} (n : nat) (l : list A) (x : A) :
  In x (firstn n l) -> In x l.
Proof.
  intros H. rewrite <- (firstn_skipn n l). apply in_or_app. left. exact H.
Qed.

Lemma in_skipn {A} (n : nat) (l : list A) (x : A) :
  In x (skipn n l) -> In x l.
Proof.
  intros H. rewrite <- (firstn_skipn n l). apply in_or_app. right. exact H.
Qed.

Lemma in_found (f : Filter) (w : World) (a : t) :
  In a (found f w) <->
  (exists k, alerts w !! k = Some a) /\ matches f a = true.
Proof.
  unfold found.
  rewrite <- !list_elem_of_In, merge_sort_Permutation, !list_elem_of_In.
  rewrite filter_In, in_map_iff. split.
  - intros [((k & b) & <- & Hin) Hm]. split; [| exact Hm].
    exists k. apply list_elem_of_In, elem_of_map_to_list in Hin. exact Hin.
  - intros [(k & Hk) Hm]. split; [| exact Hm].
    exists (k, a). split; [reflexivity |].
    apply list_elem_of_In, elem_of_map_to_list. exact Hk.
Qed.

Lemma length_found (f : Filter) (w : World) :
  List.length (found f w)
  = List.length (List.filter (matches f) (documents w)).
Proof.
  unfold found, documents. apply Permutation_length, merge_sort_Permutation.
Qed.

Lemma scope_access (u : User) (a : t) :
  holds (deviceScope u) (deviceId a) = negb (accessDenied u a).
Proof.
  unfold deviceScope, accessDenied, holds.
  destruct (String.eqb (role u) "admin"); cbn; [reflexivity |].
  rewrite negb_involutive. induction (devices u) as [| d l IH];
    [reflexivity |].
  cbn. rewrite IH, (String.eqb_sym d). reflexivity.
Qed.

Lemma in_limited {A} (limit : Z) (l : list A) (x : A) :
  In x (limited limit l) -> In x l.
Proof.
  unfold limited. destruct (limit =? 0); [auto | apply in_firstn].
Qed.

Lemma limited_positive {A} (limit : Z) (l : list A) :
  1 <= limit -> limited limit l = firstn (Z.to_nat limit) l.
Proof.
  intros H. unfold limited.
  destruct (Z.eqb_spec limit 0); [lia |].
  rewrite Z.abs_eq by lia. reflexivity.
Qed.

Lemma getAlerts_run (u : User) (p : ListParams) (w : World) :
  let limit := default 50 (qLimit p) in
  let page := default 1 (qPage p) in
  let all := found (listFilter u p) w in
  let skip := (page - 1) * limit in
  getAlerts u p w
  = if skip <? 0
    then (Ok (Fail 500 "Server error while retrieving alerts"), w)
    else
      (Ok (Json
             {| items := limited limit (skipn (Z.to_nat skip) all);
                pagination :=
                  {| currentPage := page;
                     totalPages := pagesOf (List.length all) limit;
                     totalCount := List.length all;
                     hasNext :=
                       skip + Z.of_nat
                                (List.length
                                   (limited limit
                                      (skipn (Z.to_nat skip) all)))
                       <? Z.of_nat (List.length all);
                     hasPrev := 1 <? page |} |}), w).
Proof.
  cbv zeta. unfold getAlerts, tryCatch, bind, find, countDocuments.
  destruct ((default 1 (qPage p) - 1) * default 50 (qLimit p) <? 0);
    reflexivity.
Qed.

(** The list route shows a user only stored alerts of the user's own
    devices (any device for an administrator) that pass the status and
    severity asked for, and changes nothing. *)
Theorem listing_shows_only_accessible_alerts (u : User) (p : ListParams)
  (w w' : World) (r : Listing) (a : t) :
  getAlerts u p w = (Ok (Json r), w') -> In a (items r) ->
  w' = w /\
  (exists k, alerts w !! k = Some a) /\
  accessDenied u a = false /\
  (forall s, qStatus p = Some s -> s <> "all"%string ->
             statusName (status a) = s) /\
  (forall s, qSeverity p = Some s -> s <> "all"%string ->
             severityName (severity a) = s).
Proof.
  rewrite getAlerts_run. cbv zeta.
  destruct (_ <? 0); [discriminate |].
  intros [= <- <-] Hin. cbn [items] in Hin.
  apply in_limited, in_skipn in Hin.
  apply in_found in Hin. destruct Hin as [Hst Hm].
  split; [reflexivity |]. split; [exact Hst |].
  unfold matches, listFilter in Hm. cbn in Hm.
  rewrite !andb_true_iff in Hm.
  destruct Hm as (((((Hd & Hs) & Hv) & _) & _) & _).
  rewrite scope_access in Hd. apply negb_true_iff in Hd.
  split; [exact Hd |]. split.
  - intros s Hq Hne. rewrite Hq in Hs. cbn in Hs. unfold unlessAll in Hs.
    destruct (String.eqb_spec s "all"); [contradiction |]. cbn in Hs.
    apply String.eqb_eq in Hs. exact Hs.
  - intros s Hq Hne. rewrite Hq in Hv. cbn in Hv. unfold unlessAll in Hv.
    destruct (String.eqb_spec s "all"); [contradiction |]. cbn in Hv.
    apply String.eqb_eq in Hv. exact Hv.
Qed.

Lemma listing_shows_only_accessible_alerts_witness :
  exists r1 r2,
    getAlerts Scenes.stranger activeOnly afterIngest
    = (Ok (Json r1), afterIngest) /\
    items r1 = [] /\
    getAlerts operator activeOnly afterIngest
    = (Ok (Json r2), afterIngest) /\
    forall b, In b (items r2) -> accessDenied operator b = false.
Proof.
  eexists. eexists.
  split; [rewrite getAlerts_run; cbv zeta; cbn [Z.ltb]; reflexivity |].
  split; [vm_compute; reflexivity |].
  split; [rewrite getAlerts_run; cbv zeta; cbn [Z.ltb]; reflexivity |].
  intros b Hb.
  refine (proj1 (proj2 (proj2
            (listing_shows_only_accessible_alerts operator activeOnly
               afterIngest afterIngest _ b _ Hb)))).
  rewrite getAlerts_run. reflexivity.
Defined.

Lemma ceilDiv_bounds (a b : Z) :
  0 < b -> a <= ceilDiv a b * b /\ ceilDiv a b * b < a + b.
Proof.
  intros Hb. unfold ceilDiv.
  pose proof (Z.mul_div_le (- a) b Hb).
  pose proof (Z.mul_succ_div_gt (- a) b Hb). nia.
Qed.

(** For a page and a limit of at least 1, the list route answers with at
    most [limit] alerts and a pagination that fits the listing:
    [totalPages] is the least number of pages of [limit] alerts that hold
    the [totalCount] alerts found, [hasNext] is set exactly on the pages
    before the last one, [hasPrev] exactly after the first one, and a
    page beyond the last one is empty. *)
Theorem pagination_fits_the_listing (u : User) (p : ListParams)
  (w : World) :
  1 <= default 1 (qPage p) -> 1 <= default 50 (qLimit p) ->
  exists r pages,
    getAlerts u p w = (Ok (Json r), w) /\
    totalCount (pagination r)
    = List.length (found (listFilter u p) w) /\
    currentPage (pagination r) = default 1 (qPage p) /\
    Z.of_nat (List.length (items r)) <= default 50 (qLimit p) /\
    totalPages (pagination r) = Some pages /\
    Z.of_nat (totalCount (pagination r))
    <= pages * default 50 (qLimit p) /\
    pages * default 50 (qLimit p)
    < Z.of_nat (totalCount (pagination r)) + default 50 (qLimit p) /\
    (hasNext (pagination r) = true <->
     currentPage (pagination r) < pages) /\
    (hasPrev (pagination r) = true <-> 1 < currentPage (pagination r)) /\
    (pages < currentPage (pagination r) -> items r = []).
Proof.
  intros Hp HL. rewrite getAlerts_run. cbv zeta.
  set (L := default 50 (qLimit p)) in *.
  set (P := default 1 (qPage p)) in *.
  set (all := found (listFilter u p) w).
  assert (Hskip : 0 <= (P - 1) * L) by nia.
  destruct ((P - 1) * L <? 0) eqn:Hneg; [apply Z.ltb_lt in Hneg; lia |].
  rewrite limited_positive by exact HL.
  unfold pagesOf. destruct (Z.eqb_spec L 0) as [HL0 | _]; [lia |].
  eexists. eexists. split; [reflexivity |]. cbn.
  destruct (ceilDiv_bounds (Z.of_nat (List.length all)) L) as [Hlo Hhi];
    [lia |].
  pose proof (length_firstn (Z.to_nat L)
                (skipn (Z.to_nat ((P - 1) * L)) all)) as Hlen.
  rewrite length_skipn in Hlen.
  split; [reflexivity |]. split; [reflexivity |].
  split; [rewrite Hlen; lia |].
  split; [reflexivity |].
  split; [exact Hlo |]. split; [exact Hhi |].
  split; [| split].
  - rewrite Z.ltb_lt, Hlen. split; intros H; nia.
  - apply Z.ltb_lt.
  - intros Hbeyond. apply List.length_zero_iff_nil. rewrite Hlen. nia.
Qed.

Lemma pagination_fits_the_listing_witness :
  exists r,
    getAlerts operator (byOne 2) afterIngest = (Ok (Json r), afterIngest) /\
    totalPages (pagination r) = Some 2 /\
    hasNext (pagination r) = false /\ hasPrev (pagination r) = true.
Proof.
  destruct (pagination_fits_the_listing operator (byOne 2) afterIngest)
    as (r & pages & Hrun & _).
  - vm_compute. discriminate.
  - vm_compute. discriminate.
  - exists r. split; [exact Hrun |].
    rewrite getAlerts_run in Hrun. cbv zeta in Hrun.
    cbn [Z.ltb byOne qPage qLimit default] in Hrun.
    injection Hrun as <-. vm_compute. repeat split.
Defined.

Lemma firstn_plus {A} (a b : nat) (l : list A) :
  firstn (a + b) l = firstn a l ++ firstn b (skipn a l).
Proof.
  revert l. induction a as [| a IH]; intros l; [reflexivity |].
  destruct l as [| x l]; cbn; [destruct b; reflexivity |].
  rewrite IH. reflexivity.
Qed.

(** Slicing a list into pages of [L] and gluing them again. *)
Lemma pages_from {A} (L : nat) (l : list A) (N k : nat) :
  flat_map (fun i => firstn L (skipn (i * L) l)) (seq k N)
  = firstn (N * L) (skipn (k * L) l).
Proof.
  revert k. induction N as [| N IH]; intros k; [reflexivity |].
  cbn [seq flat_map]. rewrite IH.
  replace (S N * L)%nat with (L + N * L)%nat by lia.
  rewrite firstn_plus, skipn_skipn.
  replace (L + k * L)%nat with (S k * L)%nat by lia. reflexivity.
Qed.

Lemma pages_glue {A} (L : nat) (l : list A) (N : nat) :
  (List.length l <= N * L)%nat ->
  flat_map (fun i => firstn L (skipn (i * L) l)) (seq 0 N) = l.
Proof.
  intros Hlen. rewrite pages_from. cbn [Nat.mul skipn].
  apply firstn_all2. exact Hlen.
Qed.

Lemma getAlerts_page (u : User) (p : ListParams) (w : World) :
  1 <= default 1 (qPage p) -> 1 <= default 50 (qLimit p) ->
  exists r,
    fst (getAlerts u p w) = Ok (Json r) /\
    items r
    = firstn (Z.to_nat (default 50 (qLimit p)))
        (skipn (Z.to_nat ((default 1 (qPage p) - 1)
                          * default 50 (qLimit p)))
           (found (listFilter u p) w)).
Proof.
  intros Hp HL. rewrite getAlerts_run. cbv zeta.
  destruct (_ <? 0) eqn:Hneg; [apply Z.ltb_lt in Hneg; nia |].
  rewrite limited_positive by exact HL.
  eexists. split; reflexivity.
Qed.

Lemma pageItems_S (u : User) (p : ListParams) (w : World) (i : nat) :
  1 <= default 50 (qLimit p) ->
  pageItems u p w (S i)
  = firstn (Z.to_nat (default 50 (qLimit p)))
      (skipn (i * Z.to_nat (default 50 (qLimit p)))
         (found (listFilter u p) w)).
Proof.
  intros HL. unfold pageItems.
  destruct (getAlerts_page u (onPage (Z.of_nat (S i)) p) w)
    as (r & -> & ->).
  - change (default 1 (qPage (onPage (Z.of_nat (S i)) p)))
      with (Z.of_nat (S i)). lia.
  - exact HL.
  - change (default 1 (qPage (onPage (Z.of_nat (S i)) p)))
      with (Z.of_nat (S i)).
    change (qLimit (onPage (Z.of_nat (S i)) p)) with (qLimit p).
    change (listFilter u (onPage (Z.of_nat (S i)) p))
      with (listFilter u p).
    f_equal. f_equal. lia.
Qed.

#[local] Instance newerFirst_total : Total newerFirst.
Proof.
  intros a b. unfold newerFirst.
  destruct (createdAt a), (createdAt b); auto; lia.
Qed.

#[local] Instance newerFirst_trans : Transitive newerFirst.
Proof.
  intros a b c. unfold newerFirst.
  destruct (createdAt a), (createdAt b), (createdAt c); auto; try lia;
    contradiction.
Qed.

Lemma newerFirst_antisym (a b : t) :
  newerFirst a b -> newerFirst b a -> createdAt a = createdAt b.
Proof.
  unfold newerFirst. destruct (createdAt a), (createdAt b);
    intros H1 H2; try contradiction; [f_equal; lia | reflexivity].
Qed.

(** Two sorted arrangements of the same elements agree when the order
    tells the elements apart. *)
Lemma sorted_unique {A} (R : relation A) (l1 l2 : list A) :
  (forall x y, In x l1 -> In y l1 -> R x y -> R y x -> x = y) ->
  StronglySorted R l1 -> StronglySorted R l2 -> Permutation l1 l2 ->
  l1 = l2.
Proof.
  revert l2. induction l1 as [| x l1 IH]; intros l2 Hanti H1 H2 Hp.
  - apply Permutation_nil in Hp. congruence.
  - destruct l2 as [| y l2];
      [apply Permutation_sym, Permutation_nil in Hp; discriminate |].
    inversion H1 as [| ? ? H1' Hx]; subst.
    inversion H2 as [| ? ? H2' Hy]; subst.
    rewrite List.Forall_forall in Hx, Hy.
    assert (E : x = y).
    { assert (Hx2 : In x (y :: l2))
        by (apply (Permutation_in _ Hp); left; reflexivity).
      assert (Hy1 : In y (x :: l1))
        by (apply (Permutation_in _ (Permutation_sym Hp)); left;
            reflexivity).
      destruct Hx2 as [-> | Hx2]; [reflexivity |].
      destruct Hy1 as [-> | Hy1]; [reflexivity |].
      apply Hanti; [left; reflexivity | right; exact Hy1 | |].
      - apply Hx, Hy1.
      - apply Hy, Hx2. }
    subst y. f_equal. apply IH.
    + intros a b Ha Hb. apply Hanti; right; assumption.
    + exact H1'.
    + exact H2'.
    + apply Permutation_cons_inv in Hp. exact Hp.
Qed.

Lemma NoDup_map_same {A B} (f : A -> B) (l : list A) (a b : A) :
  List.NoDup (map f l) -> In a l -> In b l -> f a = f b -> a = b.
Proof.
  induction l as [| x l IH]; cbn; intros Hnd Ha Hb E; [destruct Ha |].
  inversion Hnd as [| ? ? Hnotin Hnd']; subst.
  destruct Ha as [-> | Ha], Hb as [-> | Hb]; auto.
  - exfalso. apply Hnotin. rewrite E. apply in_map, Hb.
  - exfalso. apply Hnotin. rewrite <- E. apply in_map, Ha.
Qed.

(** With a limit of at least 1 and no two of the alerts found created at
    the same instant, the order of the listing is the only one that is
    newest first, whatever the order the store keeps the documents in,
    and the pages of the listing, from the first to the last, glued
    together are the alerts found: every alert found is on exactly one
    page, in its place. *)
Theorem pages_partition_the_listing (u : User) (p : ListParams)
  (w : World) :
  1 <= default 50 (qLimit p) ->
  List.NoDup
    (map createdAt (List.filter (matches (listFilter u p)) (documents w)))
  ->
  (forall l,
     Permutation l (List.filter (matches (listFilter u p)) (documents w))
     -> StronglySorted newerFirst l -> l = found (listFilter u p) w) /\
  flat_map (pageItems u p w)
    (seq 1 (Z.to_nat
              (ceilDiv (Z.of_nat (List.length (found (listFilter u p) w)))
                 (default 50 (qLimit p)))))
  = found (listFilter u p) w.
Proof.
  intros HL Hnd. split.
  - intros l Hp Hs. apply (sorted_unique newerFirst).
    + intros a b Ha Hb Hab Hba.
      apply (NoDup_map_same createdAt l);
        [| exact Ha | exact Hb | exact (newerFirst_antisym a b Hab Hba)].
      apply (Permutation_NoDup (l := map createdAt
                                       (List.filter
                                          (matches (listFilter u p))
                                          (documents w))));
        [| exact Hnd].
      apply Permutation_map, Permutation_sym, Hp.
    + exact Hs.
    + unfold found. apply StronglySorted_merge_sort; apply _.
    + unfold found, documents in *.
      etransitivity; [exact Hp |].
      symmetry. apply merge_sort_Permutation.
  - set (L := default 50 (qLimit p)) in *.
    set (all := found (listFilter u p) w).
    rewrite <- seq_shift, flat_map_concat_map, map_map,
      <- flat_map_concat_map.
    rewrite (flat_map_ext _ _ (fun i => pageItems_S u p w i HL)).
    fold L all. apply pages_glue.
    destruct (ceilDiv_bounds (Z.of_nat (List.length all)) L)
      as [Hlo _]; [lia |].
    assert (0 <= ceilDiv (Z.of_nat (List.length all)) L) by nia.
    nia.
Qed.

Lemma pages_partition_the_listing_witness :
  1 <= default 50 (qLimit (byOne 1)) /\
  List.length (found (listFilter operator (byOne 1)) afterIngest) = 2%nat
  /\
  flat_map (pageItems operator (byOne 1) afterIngest) (seq 1 2)
  = found (listFilter operator (byOne 1)) afterIngest.
Proof.
  assert (HL : 1 <= default 50 (qLimit (byOne 1))) by (cbn; lia).
  split; [exact HL |]. split; [vm_compute; reflexivity |].
  refine (proj2 (pages_partition_the_listing operator (byOne 1)
                   afterIngest HL _)).
  vm_compute. repeat constructor; cbn; intuition discriminate.
Defined.

Lemma StronglySorted_skipn {A} (R : relation A) (n : nat) (l : list A) :
  StronglySorted R l -> StronglySorted R (skipn n l).
Proof.
  revert l. induction n as [| n IH]; intros l Hs; [exact Hs |].
  destruct l as [| x l]; [constructor |].
  apply IH. inversion Hs; assumption.
Qed.

Lemma StronglySorted_firstn {A} (R : relation A) (n : nat) (l : list A) :
  StronglySorted R l -> StronglySorted R (firstn n l).
Proof.
  revert l. induction n as [| n IH]; intros l Hs; [constructor |].
  destruct l as [| x l]; [constructor |].
  inversion Hs as [| y m Hm Hall]; subst. cbn. constructor.
  - apply IH, Hm.
  - rewrite List.Forall_forall in *. intros z Hz.
    apply Hall. exact (in_firstn _ _ _ Hz).
Qed.

Lemma StronglySorted_limited {A} (R : relation A) (limit : Z)
  (l : list A) :
  StronglySorted R l -> StronglySorted R (limited limit l).
Proof.
  intros Hs. unfold limited.
  destruct (limit =? 0); [exact Hs | apply StronglySorted_firstn, Hs].
Qed.

(** Every page of the list route is in descending order of creation: each
    alert on it was created no earlier than every alert after it. *)
Theorem listing_is_newest_first (u : User) (p : ListParams) (w w' : World)
  (r : Listing) :
  getAlerts u p w = (Ok (Json r), w') ->
  StronglySorted newerFirst (items r).
Proof.
  rewrite getAlerts_run. cbv zeta.
  destruct (_ <? 0); [discriminate |]. intros [= <- <-]. cbn [items].
  apply StronglySorted_limited, StronglySorted_skipn.
  unfold found. apply StronglySorted_merge_sort; apply _.
Qed.

Lemma listing_is_newest_first_witness :
  exists r,
    getAlerts operator activeOnly afterIngest = (Ok (Json r), afterIngest) /\
    List.length (items r) = 2%nat /\
    StronglySorted newerFirst (items r).
Proof.
  eexists.
  split; [rewrite getAlerts_run; cbv zeta; cbn [Z.ltb]; reflexivity |].
  split; [vm_compute; reflexivity |].
  apply (listing_is_newest_first operator activeOnly afterIngest
           afterIngest).
  rewrite getAlerts_run. reflexivity.
Defined.

(** The count of active alerts is the number of stored alerts that are
    active and that the user may access, that is, those an acknowledge
    request of that user would accept; it is also the [totalCount] the
    list route gives for the status "active". *)
Theorem active_count_counts_acknowledgeable_alerts (u : User) (w : World) :
  exists n r,
    getActiveCount u w = (Ok (Json n), w) /\
    n = List.length
          (List.filter
             (fun a => Status_eqb (status a) active
                       && negb (accessDenied u a))
             (documents w)) /\
    getAlerts u activeOnly w = (Ok (Json r), w) /\
    totalCount (pagination r) = n.
Proof.
  eexists. eexists.
  split; [reflexivity |]. split; [| split].
  - rewrite length_found. f_equal. apply List.filter_ext. intros a.
    unfold matches. cbn. rewrite scope_access, !andb_true_r.
    rewrite andb_comm. f_equal. destruct (status a); reflexivity.
  - rewrite getAlerts_run. cbv zeta. cbn [Z.ltb activeOnly]. reflexivity.
  - reflexivity.
Qed.

(** Every alert the list route shows a user can be fetched by that user
    through [GET /:alertId], which answers with the same document. *)
Theorem listed_alert_can_be_fetched (u : User) (p : ListParams)
  (w w' : World) (r : Listing) (a : t) :
  wellFormed w ->
  getAlerts u p w = (Ok (Json r), w') -> In a (items r) ->
  getAlert {| alertId := _id a; user := u; Routes.notes := None |} w
  = (Ok (Json a), w).
Proof.
  intros Hwf. rewrite getAlerts_run. cbv zeta.
  destruct (_ <? 0); [discriminate |].
  intros [= <- <-] Hin. cbn [items] in Hin.
  apply in_limited, in_skipn, in_found in Hin.
  destruct Hin as [(k & Hk) Hm].
  destruct (Hwf _ _ Hk) as ((Hid & _) & _). subst k.
  unfold matches, listFilter in Hm. cbn in Hm.
  rewrite !andb_true_iff in Hm.
  destruct Hm as (((((Hd & _) & _) & _) & _) & _).
  rewrite scope_access in Hd. apply negb_true_iff in Hd.
  unfold getAlert, tryCatch, bind, findById. cbn [alertId user].
  rewrite Hk, Hd. reflexivity.
Qed.

Lemma listed_alert_can_be_fetched_witness :
  exists r,
    getAlerts operator activeOnly afterIngest = (Ok (Json r), afterIngest) /\
    forall a, In a (items r) ->
      getAlert {| alertId := _id a; user := operator; Routes.notes := None |}
        afterIngest
      = (Ok (Json a), afterIngest).
Proof.
  eexists.
  split; [rewrite getAlerts_run; cbv zeta; cbn [Z.ltb]; reflexivity |].
  intros a Ha.
  eapply (listed_alert_can_be_fetched operator activeOnly afterIngest
            afterIngest); [| | exact Ha].
  - apply AlertFacts.run_wellFormed, AlertFacts.wellFormed_start.
  - rewrite getAlerts_run. reflexivity.
Defined.

(** *** Bulk deletion *)

Lemma deleteBulk_refused (setDateBack : Z -> Z -> Z) (u : User)
  (status : option string) (olderThan : option Z) (w : World) :
  role u <> "admin"%string ->
  deleteBulk setDateBack u status olderThan w
  = (Ok (Fail 403 "Admin access required"), w).
Proof.
  intros Hr. unfold deleteBulk, tryCatch.
  destruct (String.eqb_spec (role u) "admin"); [contradiction |].
  reflexivity.
Qed.

(** A user who is not an administrator is answered 403 "Admin access
    required" by the bulk deletion, whatever the parameters, and nothing
    is deleted. *)
Theorem bulk_delete_admin_only (setDateBack : Z -> Z -> Z) (u : User)
  (status : option string) (olderThan : option Z) (w : World) :
  role u <> "admin"%string ->
  deleteBulk setDateBack u status olderThan w
  = (Ok (Fail 403 "Admin access required"), w).
Proof.
  apply deleteBulk_refused.
Qed.

Lemma bulk_delete_admin_only_witness :
  role Scenes.stranger <> "admin"%string /\
  deleteBulk (fun now days => now - 86400000 * days) Scenes.stranger
    (Some "active"%string) None afterResolve
  = (Ok (Fail 403 "Admin access required"), afterResolve).
Proof.
  assert (Hr : role Scenes.stranger <> "admin"%string) by discriminate.
  split; [exact Hr |].
  exact (bulk_delete_admin_only _ Scenes.stranger _ None afterResolve Hr).
Defined.

Lemma deleteBulk_run (setDateBack : Z -> Z -> Z) (u : User)
  (status : option string) (olderThan : option Z) (w : World) :
  role u = "admin"%string ->
  let f :=
    bulkFilter status (setDateBack (clock w (reads w)) <$> olderThan) in
  exists w',
    deleteBulk setDateBack u status olderThan w
    = (Ok (Json (size (base.filter
                         (fun kv : ObjectId * t => matches f kv.2 = true)
                         (alerts w)))), w') /\
    alerts w'
    = base.filter (fun kv : ObjectId * t => matches f kv.2 <> true)
        (alerts w).
Proof.
  intros Hr. cbv zeta. unfold deleteBulk, tryCatch. rewrite Hr. cbn [negb].
  destruct olderThan as [days |]; unfold bind, Date_now, deleteMany, ret;
    cbn; eexists; split; reflexivity.
Qed.

Lemma split_cons (s : string) : exists h tl, split "," s = h :: tl.
Proof.
  induction s as [| c s (h & tl & IH)]; cbn [split]; [eauto |].
  destruct (Ascii.eqb c ","); [eauto |]. rewrite IH. eauto.
Qed.

Lemma split_join (s : string) : join "," (split "," s) = s.
Proof.
  induction s as [| c s IH]; [reflexivity |].
  cbn [split]. destruct (split_cons s) as (h & tl & E).
  rewrite E in IH |- *.
  destruct (Ascii.eqb_spec c ","%char) as [-> | Hc].
  - change (join "," (EmptyString :: h :: tl))
      with (String ","%char (join "," (h :: tl))).
    rewrite IH. reflexivity.
  - destruct tl as [| h' tl].
    + cbn in IH |- *. rewrite IH. reflexivity.
    + change (join "," (String c h :: h' :: tl))
        with (String c (join "," (h :: h' :: tl))).
      rewrite IH. reflexivity.
Qed.

Lemma split_lacks (s : string) :
  Forall (fun x => lacks "," x = true) (split "," s).
Proof.
  induction s as [| c s IH]; [repeat constructor |].
  cbn [split]. destruct (Ascii.eqb_spec c ","%char) as [-> | Hc].
  - constructor; [reflexivity | exact IH].
  - destruct (split "," s) as [| h tl].
    + constructor; [| constructor]. cbn.
      destruct (Ascii.eqb_spec c ","%char); [contradiction | reflexivity].
    + inversion IH as [| ? ? Hh Htl]; subst. constructor; [| exact Htl].
      cbn. destruct (Ascii.eqb_spec c ","%char); [contradiction |].
      exact Hh.
Qed.

Lemma among_In (l : list string) (s : string) :
  holds (Some (Among l)) s = true <-> In s l.
Proof.
  cbn. rewrite existsb_exists. split.
  - intros (x & Hx & E). apply String.eqb_eq in E. subst. exact Hx.
  - intros H. exists s. split; [exact H | apply String.eqb_refl].
Qed.

(** The statuses a bulk deletion names. *)
Lemma bulk_matches (statuses : option string) (cutoff : option Z) (a : t) :
  matches (bulkFilter statuses cutoff) a = true <->
  In (statusName (status a))
    match statuses with
    | Some s =>
        if JSString.truthy s then split "," s
        else ["resolved"; "false_positive"]%string
    | None => ["resolved"; "false_positive"]%string
    end /\
  forall limit, cutoff = Some limit ->
                exists c, createdAt a = Some c /\ c < limit.
Proof.
  unfold matches, bulkFilter.
  cbn [onDeviceId onStatus onSeverity createdGte createdLte createdLt
       holds bound].
  rewrite !andb_true_r. cbn [andb].
  assert (Hb : bound Z.ltb cutoff (createdAt a) = true <->
               forall limit, cutoff = Some limit ->
                             exists c, createdAt a = Some c /\ c < limit).
  { unfold bound. destruct cutoff as [limit |].
    - destruct (createdAt a) as [c |].
      + rewrite Z.ltb_lt. split.
        * intros H l [= <-]. exists c. auto.
        * intros H. destruct (H limit eq_refl) as (c' & [= <-] & Hlt).
          exact Hlt.
      + split; [discriminate |].
        intros H. destruct (H limit eq_refl) as (c' & Hc & _).
        discriminate.
    - split; [intros _ l; discriminate | reflexivity]. }
  rewrite andb_true_iff, Hb.
  destruct statuses as [s |]; [destruct (JSString.truthy s) |];
    rewrite <- among_In; reflexivity.
Qed.

(** For an administrator the bulk deletion removes exactly the alerts
    whose status is one of those the [status] parameter lists between
    its commas (resolved and false_positive when the parameter is absent
    or empty) and, when [olderThan] is given, that were created before
    the cutoff; it answers with their number and leaves every other alert
    as it is. *)
Theorem bulk_delete_removes_exactly_the_matching
  (setDateBack : Z -> Z -> Z) (u : User) (statuses : option string)
  (olderThan : option Z) (w : World) :
  role u = "admin"%string ->
  exists n w' listed,
    deleteBulk setDateBack u statuses olderThan w = (Ok (Json n), w') /\
    (forall s, statuses = Some s -> s <> ""%string ->
       join "," listed = s /\
       Forall (fun x => lacks "," x = true) listed) /\
    (statuses = None \/ statuses = Some ""%string ->
     listed = ["resolved"; "false_positive"]%string) /\
    (n + size (alerts w') = size (alerts w))%nat /\
    (forall k, alerts w !! k = None -> alerts w' !! k = None) /\
    (forall k a, alerts w !! k = Some a ->
       alerts w' !! k = None \/ alerts w' !! k = Some a) /\
    (forall k a, alerts w !! k = Some a ->
       (alerts w' !! k = None <->
        In (statusName (status a)) listed /\
        forall days, olderThan = Some days ->
          exists c, createdAt a = Some c /\
                    c < setDateBack (clock w (reads w)) days)).
Proof.
  intros Hr.
  destruct (deleteBulk_run setDateBack u statuses olderThan w Hr)
    as (w' & Hrun & Hal).
  cbv zeta in Hrun, Hal. eexists. exists w'.
  exists match statuses with
         | Some s =>
             if JSString.truthy s then split "," s
             else ["resolved"; "false_positive"]%string
         | None => ["resolved"; "false_positive"]%string
         end.
  split; [exact Hrun |].
  assert (Hlook : forall k,
             alerts w' !! k
             = match alerts w !! k with
               | Some a =>
                   if matches
                        (bulkFilter statuses
                           (setDateBack (clock w (reads w)) <$> olderThan))
                        a
                   then None else Some a
               | None => None
               end).
  { intros k. rewrite Hal, map_lookup_filter.
    destruct (alerts w !! k) as [a |]; [| reflexivity]. cbn.
    destruct (matches _ a) eqn:Hm.
    + rewrite option_guard_False; [reflexivity |]. cbn. congruence.
    + rewrite option_guard_True; [reflexivity |]. cbn. congruence. }
  split; [| split; [| split; [| split; [| split]]]].
  - intros s -> Hs. rewrite (AlertFacts.truthy_nonempty s Hs).
    split; [apply split_join | apply split_lacks].
  - intros [-> | ->]; reflexivity.
  - rewrite Hal.
    rewrite <- map_size_disj_union
      by apply map_disjoint_filter_complement.
    rewrite map_filter_union_complement. reflexivity.
  - intros k Hk. rewrite Hlook.
    destruct (alerts w !! k); [discriminate | reflexivity].
  - intros k a Hk. rewrite Hlook.
    destruct (alerts w !! k) as [b |]; [| discriminate].
    injection Hk as ->. destruct (matches _ a); auto.
  - intros k a Hk. rewrite Hlook.
    destruct (alerts w !! k) as [b |]; [| discriminate].
    injection Hk as ->.
    pose proof (bulk_matches statuses
                  (setDateBack (clock w (reads w)) <$> olderThan) a)
      as Hm.
    assert (Hc : (forall limit,
                    setDateBack (clock w (reads w)) <$> olderThan
                    = Some limit ->
                    exists c, createdAt a = Some c /\ c < limit) <->
                 (forall days, olderThan = Some days ->
                    exists c, createdAt a = Some c /\
                              c < setDateBack (clock w (reads w)) days)).
    { destruct olderThan as [days |]; cbn.
      - split.
        + intros H d [= <-]. apply H. reflexivity.
        + intros H l [= <-]. apply H. reflexivity.
      - split; intros _ x; discriminate. }
    rewrite Hc in Hm.
    destruct (matches _ a).
    + split; [intros _; apply Hm; reflexivity | reflexivity].
    + split; [discriminate |].
      intros H. apply Hm in H. discriminate.
Qed.

Lemma bulk_delete_removes_exactly_the_matching_witness :
  exists w',
    snd (deleteBulk (fun now days => now - 86400000 * days) operator
           None None afterResolve) = w' /\
    fst (deleteBulk (fun now days => now - 86400000 * days) operator
           None None afterResolve) = Ok (Json 1%nat) /\
    size (alerts w') = 1%nat.
Proof.
  destruct (bulk_delete_removes_exactly_the_matching
              (fun now days => now - 86400000 * days) operator None None
              afterResolve eq_refl) as (n & w' & listed & Hrun & _ & _
                                        & Hsz & _).
  exists w'. rewrite Hrun. split; [reflexivity |].
  assert (Hn : n = 1%nat).
  { pose proof (deleteBulk_run (fun now days => now - 86400000 * days)
                  operator None None afterResolve eq_refl) as (w2 & H2 & _).
    cbv zeta in H2. rewrite Hrun in H2. injection H2 as -> _.
    vm_compute. reflexivity. }
  split; [rewrite Hn; reflexivity |].
  rewrite Hn in Hsz.
  assert (Hs : size (alerts afterResolve) = 2%nat)
    by (vm_compute; reflexivity).
  lia.
Defined.

(** With no status parameter the bulk deletion never removes an alert
    that is still active or acknowledged, whatever [olderThan]. *)
Theorem default_bulk_delete_spares_open_alerts
  (setDateBack : Z -> Z -> Z) (u : User) (statuses : option string)
  (olderThan : option Z) (w : World) (k : ObjectId) (a : t) :
  JSString.truthy (default ""%string statuses) = false ->
  alerts w !! k = Some a ->
  status a = active \/ status a = acknowledged ->
  alerts (snd (deleteBulk setDateBack u statuses olderThan w)) !! k = Some a.
Proof.
  intros Hs Hk Hst.
  destruct (String.eqb_spec (role u) "admin") as [Hr | Hr].
  - destruct (deleteBulk_run setDateBack u statuses olderThan w Hr)
      as (w' & Hrun & Hal).
    cbv zeta in Hrun, Hal. rewrite Hrun. cbn [snd]. rewrite Hal.
    apply map_lookup_filter_Some. split; [exact Hk |].
    cbn. unfold matches, bulkFilter. cbn.
    assert (Hd : match statuses with
                 | Some s =>
                     if JSString.truthy s
                     then Some (Among (split "," s))
                     else Some (Among ["resolved"%string;
                                       "false_positive"%string])
                 | None => Some (Among ["resolved"%string;
                                        "false_positive"%string])
                 end
                 = Some (Among ["resolved"%string;
                                "false_positive"%string])).
    { destruct statuses as [s |]; [| reflexivity]. cbn in Hs. rewrite Hs.
      reflexivity. }
    rewrite Hd. destruct Hst as [-> | ->]; cbn; discriminate.
  - rewrite (deleteBulk_refused setDateBack u statuses olderThan w Hr).
    exact Hk.
Qed.

Lemma default_bulk_delete_spares_open_alerts_witness :
  exists a,
    alerts afterResolve !! 1%N = Some a /\
    status a = active /\
    alerts (snd (deleteBulk (fun now days => now - 86400000 * days)
                   operator None (Some 0) afterResolve)) !! 1%N = Some a.
Proof.
  destruct (alerts afterResolve !! 1%N) as [a |] eqn:E;
    [| vm_compute in E; discriminate].
  assert (Hst : status a = active)
    by (vm_compute in E; injection E as <-; reflexivity).
  exists a. split; [reflexivity |]. split; [exact Hst |].
  apply (default_bulk_delete_spares_open_alerts _ operator None (Some 0)
           afterResolve 1%N a eq_refl E).
  left. exact Hst.
Defined.

End QueryFacts.

(** ** The devices of an account *)

Module UserFacts.

Import UserModel.

Lemma find_updateFirst_same (id : string) (e : Entry) (l : list Entry) :
  deviceId e = id ->
  List.find (fun d => String.eqb (deviceId d) id) l <> None ->
  List.find (fun d => String.eqb (deviceId d) id) (updateFirst id e l)
  = Some e.
Proof.
  intros He. induction l as [| d l IH]; cbn; [contradiction |].
  destruct (String.eqb (deviceId d) id) eqn:Hd; cbn.
  - intros _. rewrite He, String.eqb_refl. reflexivity.
  - intros H. rewrite Hd. apply IH, H.
Qed.

Lemma find_updateFirst_other (id other : string) (e : Entry)
  (l : list Entry) :
  deviceId e = id -> other <> id ->
  List.find (fun d => String.eqb (deviceId d) other) (updateFirst id e l)
  = List.find (fun d => String.eqb (deviceId d) other) l.
Proof.
  intros He Hne. induction l as [| d l IH]; cbn; [reflexivity |].
  destruct (String.eqb_spec (deviceId d) id) as [Hd | Hd]; cbn.
  - rewrite He, Hd.
    destruct (String.eqb_spec id other); [congruence | reflexivity].
  - rewrite IH. reflexivity.
Qed.

Lemma map_updateFirst (id : string) (e : Entry) (l : list Entry) :
  deviceId e = id ->
  map deviceId (updateFirst id e l) = map deviceId l.
Proof.
  intros He. induction l as [| d l IH]; cbn; [reflexivity |].
  destruct (String.eqb_spec (deviceId d) id) as [Hd | Hd]; cbn.
  - rewrite He, Hd. reflexivity.
  - rewrite IH. reflexivity.
Qed.

Lemma find_app_none (id : string) (e : Entry) (l : list Entry) :
  List.find (fun d => String.eqb (deviceId d) id) l = None ->
  forall other,
    List.find (fun d => String.eqb (deviceId d) other) (l ++ [e])
    = match List.find (fun d => String.eqb (deviceId d) other) l with
      | Some d => Some d
      | None => if String.eqb (deviceId e) other then Some e else None
      end.
Proof.
  intros _ other. induction l as [| d l IH]; cbn; [reflexivity |].
  destruct (String.eqb (deviceId d) other); [reflexivity | exact IH].
Qed.

Lemma find_none_not_in (id : string) (l : list Entry) :
  List.find (fun d => String.eqb (deviceId d) id) l = None ->
  ~ In id (map deviceId l).
Proof.
  intros H Hin. apply in_map_iff in Hin. destruct Hin as (d & Hd & Hin).
  pose proof (find_none _ _ H d Hin) as Hf. cbn in Hf.
  rewrite Hd, String.eqb_refl in Hf. discriminate.
Qed.

Lemma NoDup_snoc {A} (x : A) (l : list A) :
  List.NoDup l -> ~ In x l -> List.NoDup (l ++ [x]).
Proof.
  induction l as [| y l IH]; intros Hnd Hx; cbn.
  - constructor; [intros [] | constructor].
  - inversion Hnd as [| z m Hz Hm]; subst. constructor.
    + rewrite in_app_iff. intros [H | [<- | []]]; [contradiction |].
      apply Hx. left. reflexivity.
    + apply IH; [exact Hm |]. intros H. apply Hx. right. exact H.
Qed.

(** After [addDevice] the account has access to the device exactly as the
    entry says (any permission for an administrator or an owner, the
    listed permissions otherwise), its access to every other device is
    what it was, and a device list without repeated identifiers stays
    without: an identifier already there is updated in place, a new one is
    appended. *)
Theorem added_device_is_accessible_and_unique (this : t) (id : string)
  (name : option string) (rel : option Relationship)
  (perms : option (list Permission)) :
  let this' := addDevice this id name rel perms in
  (forall p,
     hasDeviceAccess this' id p
     = (String.eqb (role this) "admin"
        || Relationship_eqb (default owner rel) owner
        || existsb (Permission_eqb (default view_data p))
             (default [] perms))) /\
  (forall other p, other <> id ->
     hasDeviceAccess this' other p = hasDeviceAccess this other p) /\
  (List.NoDup (map deviceId (devices this)) ->
   List.NoDup (map deviceId (devices this'))) /\
  List.length (devices this')
  = (List.length (devices this)
     + match findDevice this id with Some _ => 0 | None => 1 end)%nat.
Proof.
  cbv zeta. unfold addDevice.
  set (e := {| deviceId := id; deviceName := name;
               relationship := default owner rel;
               permissions := default [] perms |}).
  destruct (findDevice this id) as [d |] eqn:Hf; unfold findDevice in Hf.
  - split; [| split; [| split]].
    + intros p. unfold hasDeviceAccess, findDevice. cbn [devices role].
      rewrite (find_updateFirst_same id e) by (cbn; congruence).
      subst e. cbn. destruct (String.eqb (role this) "admin"),
        (Relationship_eqb (default owner rel) owner); reflexivity.
    + intros other p Hne. unfold hasDeviceAccess, findDevice.
      cbn [devices role].
      rewrite (find_updateFirst_other id other e) by auto. reflexivity.
    + cbn [devices]. rewrite map_updateFirst by reflexivity. auto.
    + cbn [devices]. rewrite <- (List.length_map deviceId),
        map_updateFirst, List.length_map by reflexivity. lia.
  - split; [| split; [| split]].
    + intros p. unfold hasDeviceAccess, findDevice. cbn [devices role].
      rewrite (find_app_none id e _ Hf), Hf. subst e. cbn.
      rewrite String.eqb_refl. cbn [relationship permissions].
      destruct (String.eqb (role this) "admin"),
        (Relationship_eqb (default owner rel) owner); reflexivity.
    + intros other p Hne. unfold hasDeviceAccess, findDevice.
      cbn [devices role]. rewrite (find_app_none id e _ Hf). cbn.
      destruct (String.eqb_spec id other); [congruence |].
      destruct (List.find (fun d => String.eqb (deviceId d) other)
                  (devices this)); reflexivity.
    + cbn [devices]. intros Hnd. rewrite map_app. cbn.
      apply NoDup_snoc; [exact Hnd | exact (find_none_not_in id _ Hf)].
    + cbn [devices]. rewrite List.length_app. reflexivity.
Qed.

Lemma added_device_is_accessible_and_unique_witness :
  hasDeviceAccess (addDevice carer "ESP32-2" None None None) "ESP32-2"
    (Some modify_settings) = true /\
  hasDeviceAccess (addDevice carer "ESP32-2" None None None) "ESP32-1"
    (Some modify_settings) = false /\
  List.NoDup
    (map deviceId (devices (addDevice carer "ESP32-2" None None None))).
Proof.
  destruct (added_device_is_accessible_and_unique carer "ESP32-2" None None
              None) as (Hid & Hother & Hnd & _).
  split; [rewrite Hid; reflexivity |].
  split; [rewrite Hother by discriminate; reflexivity |].
  apply Hnd. cbn. constructor; [intros [] | constructor].
Defined.

(** After [removeDevice] the method [hasDeviceAccess] answers false for
    that device whatever the permission, also for an administrator, whose
    role it only looks at once the device is found; the access to the
    other devices is what it was; removing a device that was added gives
    the list the removal alone would give; and the middleware
    [deviceAccess] still lets an administrator through for the removed
    device, and answers 403 to anyone else. *)
Theorem removed_device_is_inaccessible (this : t) (id : string) :
  (forall p, hasDeviceAccess (removeDevice this id) id p = false) /\
  (forall other p, other <> id ->
     hasDeviceAccess (removeDevice this id) other p
     = hasDeviceAccess this other p) /\
  (forall name rel perms,
     removeDevice (addDevice this id name rel perms) id
     = removeDevice this id) /\
  (forall permission,
     JSString.truthy id = true ->
     deviceAccess permission (Some id) None None
       (Some (removeDevice this id))
     = if String.eqb (role this) "admin" then Next id
       else Denied 403
              "Access denied. You do not have permission to access this device.").
Proof.
  assert (Hgone : forall p,
             hasDeviceAccess (removeDevice this id) id p = false).
  { intros p. unfold hasDeviceAccess, findDevice, removeDevice.
    cbn [devices role].
    destruct (List.find _ (List.filter _ (devices this))) as [d |] eqn:Hf;
      [| reflexivity].
    apply find_some in Hf. destruct Hf as [Hin Hd].
    apply filter_In in Hin. destruct Hin as [_ Hn].
    cbn in Hd, Hn. rewrite Hd in Hn. discriminate. }
  split; [exact Hgone |]. split; [| split].
  3: { intros permission Ht. unfold deviceAccess. cbn [orElse].
       rewrite !Ht. cbn [role removeDevice].
       destruct (String.eqb (role this) "admin"); [reflexivity |].
       rewrite Hgone. reflexivity. }
  - intros other p Hne. unfold hasDeviceAccess, findDevice, removeDevice.
    cbn [devices role].
    assert (Hfind :
      List.find (fun d => String.eqb (deviceId d) other)
        (List.filter (fun d => negb (String.eqb (deviceId d) id))
           (devices this))
      = List.find (fun d => String.eqb (deviceId d) other) (devices this)).
    { induction (devices this) as [| d l IH]; [reflexivity |]. cbn.
      destruct (String.eqb_spec (deviceId d) id) as [Hd | Hd]; cbn.
      - destruct (String.eqb_spec (deviceId d) other); [congruence |].
        exact IH.
      - destruct (String.eqb (deviceId d) other); [reflexivity | exact IH]. }
    rewrite Hfind. reflexivity.
  - intros name rel perms. unfold removeDevice, addDevice.
    set (e := {| deviceId := id; deviceName := name;
                 relationship := default owner rel;
                 permissions := default [] perms |}).
    destruct (findDevice this id); cbn [devices role]; f_equal.
    + induction (devices this) as [| d l IH]; [reflexivity |]. cbn.
      destruct (String.eqb_spec (deviceId d) id) as [Hd | Hd]; cbn.
      * rewrite String.eqb_refl. reflexivity.
      * destruct (String.eqb_spec (deviceId d) id); [contradiction |].
        cbn. rewrite IH. reflexivity.
    + rewrite List.filter_app. cbn. rewrite String.eqb_refl. cbn.
      apply app_nil_r.
Qed.

Lemma removed_device_is_inaccessible_witness :
  hasDeviceAccess (removeDevice carer "ESP32-1") "ESP32-1" None = false /\
  deviceAccess None (Some "ESP32-1"%string) None None
    (Some (removeDevice root "ESP32-1"))
  = Next "ESP32-1" /\
  hasDeviceAccess (removeDevice root "ESP32-1") "ESP32-1" None = false.
Proof.
  destruct (removed_device_is_inaccessible carer "ESP32-1")
    as (Hgone & _ & _ & _).
  destruct (removed_device_is_inaccessible root "ESP32-1")
    as (Hgone' & _ & _ & Hgate).
  split; [apply Hgone |]. split; [| apply Hgone'].
  rewrite Hgate by reflexivity. reflexivity.
Defined.

End UserFacts.
